(* ===================================================================== *)
(* MixerCloud Circles: a shallow embedding of the circle lifecycle,       *)
(* membership and webhook reconciliation code                             *)
(*   src/circles/circles.service.ts   (CirclesService)                    *)
(*   src/webhook/webhook.service.ts   (WebhookService)                    *)
(*   src/livekit/livekit.service.ts   (LivekitService)                    *)
(*   src/firebase/firebase.service.ts (FirebaseService)                   *)
(* and the properties of the specification checked against it.            *)
(*                                                                        *)
(* Modelling conventions                                                  *)
(*  - Firestore is a record of finite maps: circles/{id},                 *)
(*    circles/{id}/members/{uid}, circles/{id}/handRaises/{uid},          *)
(*    users/{uid}.  update() on a missing document rejects, set()         *)
(*    overwrites, delete() of a missing document succeeds,                *)
(*    FieldValue.increment(d) on an absent or null field stores d.        *)
(*  - a Timestamp is its number of milliseconds since the epoch (Z);      *)
(*    every clock read of one handler invocation returns [now].           *)
(*  - an async method is a function World -> Outcome * World: writes      *)
(*    done before a throw stay in the store, as in the source.            *)
(*  - an optional or nullable field is an option; absent and null are     *)
(*    both None.                                                          *)
(* ===================================================================== *)

From Stdlib Require Import ZArith Lia.
From Stdlib Require Import Ascii.
From stdpp Require Import base option list strings gmap fin_maps.

Local Open Scope Z_scope.
Local Open Scope string_scope.

(* --------------------------------------------------------------------- *)
(* Enumerations (string literal unions of circle.entity.ts)              *)
(* --------------------------------------------------------------------- *)

Inductive CircleStatus := Scheduled | Live | Ended.
Inductive Privacy := Public | Private | Secret.
Inductive EndReason := HostEnded | HostDisconnected | Timeout.
Inductive Role := Host | Speaker | Listener.
Inductive MemberStatus := Active | Left | Disconnected.

#[global] Instance CircleStatus_eq_dec : EqDecision CircleStatus.
Proof. solve_decision. Defined.
#[global] Instance Role_eq_dec : EqDecision Role.
Proof. solve_decision. Defined.
#[global] Instance MemberStatus_eq_dec : EqDecision MemberStatus.
Proof. solve_decision. Defined.
#[global] Instance EndReason_eq_dec : EqDecision EndReason.
Proof. solve_decision. Defined.

(* The string a status is interpolated as in a template literal. *)
Definition status_str (s : CircleStatus) : string :=
  match s with
  | Scheduled => "scheduled"
  | Live => "live"
  | Ended => "ended"
  end.

(* --------------------------------------------------------------------- *)
(* Entities                                                              *)
(* --------------------------------------------------------------------- *)

Module Circle.
Record t := mk {
  id : string;
  title : string;
  description : option string;
  category : string;
  privacy : Privacy;
  hostUid : string;
  coverUrl : option string;
  startAt : Z;
  status : CircleStatus;
  maxSpeakers : Z;
  createdAt : Z;
  participantCount : option Z;
  endedAt : option Z;
  endReason : option EndReason;
  hostDisconnectedAt : option Z;
  isReplay : bool;
  totalSpeakTime : option Z;
  handRaiseCount : option Z;
  roleChangeCount : option Z
}.

(* Partial field updates, one per field the service writes. *)
Definition set_status (v : CircleStatus) (c : t) : t :=
  mk (id c) (title c) (description c) (category c) (privacy c) (hostUid c)
     (coverUrl c) (startAt c) v (maxSpeakers c) (createdAt c)
     (participantCount c) (endedAt c) (endReason c) (hostDisconnectedAt c)
     (isReplay c) (totalSpeakTime c) (handRaiseCount c) (roleChangeCount c).
Definition set_participantCount (v : option Z) (c : t) : t :=
  mk (id c) (title c) (description c) (category c) (privacy c) (hostUid c)
     (coverUrl c) (startAt c) (status c) (maxSpeakers c) (createdAt c)
     v (endedAt c) (endReason c) (hostDisconnectedAt c)
     (isReplay c) (totalSpeakTime c) (handRaiseCount c) (roleChangeCount c).
Definition set_endedAt (v : option Z) (c : t) : t :=
  mk (id c) (title c) (description c) (category c) (privacy c) (hostUid c)
     (coverUrl c) (startAt c) (status c) (maxSpeakers c) (createdAt c)
     (participantCount c) v (endReason c) (hostDisconnectedAt c)
     (isReplay c) (totalSpeakTime c) (handRaiseCount c) (roleChangeCount c).
Definition set_endReason (v : option EndReason) (c : t) : t :=
  mk (id c) (title c) (description c) (category c) (privacy c) (hostUid c)
     (coverUrl c) (startAt c) (status c) (maxSpeakers c) (createdAt c)
     (participantCount c) (endedAt c) v (hostDisconnectedAt c)
     (isReplay c) (totalSpeakTime c) (handRaiseCount c) (roleChangeCount c).
Definition set_hostDisconnectedAt (v : option Z) (c : t) : t :=
  mk (id c) (title c) (description c) (category c) (privacy c) (hostUid c)
     (coverUrl c) (startAt c) (status c) (maxSpeakers c) (createdAt c)
     (participantCount c) (endedAt c) (endReason c) v
     (isReplay c) (totalSpeakTime c) (handRaiseCount c) (roleChangeCount c).
End Circle.

Module CircleMember.
Record t := mk {
  role : Role;
  isMuted : bool;
  joinedAt : Z;
  lastSpokeAt : option Z;
  status : option MemberStatus;
  leftAt : option Z;
  disconnectedAt : option Z;
  rejoinCount : option Z;
  lastRejoinAt : option Z;
  totalSpeakTime : option Z;
  isHandRaised : option bool;
  handRaiseCount : option Z;
  roleChangeCount : option Z;
  lastRoleChangeAt : option Z;
  isMutedByHost : option bool;
  muteReason : option string;
  kickCount : option Z;
  lastKickAt : option Z;
  kickReason : option string
}.

Definition set_role (v : Role) (m : t) : t :=
  mk v (isMuted m) (joinedAt m) (lastSpokeAt m) (status m) (leftAt m)
     (disconnectedAt m) (rejoinCount m) (lastRejoinAt m) (totalSpeakTime m)
     (isHandRaised m) (handRaiseCount m) (roleChangeCount m)
     (lastRoleChangeAt m) (isMutedByHost m) (muteReason m) (kickCount m)
     (lastKickAt m) (kickReason m).
Definition set_joinedAt (v : Z) (m : t) : t :=
  mk (role m) (isMuted m) v (lastSpokeAt m) (status m) (leftAt m)
     (disconnectedAt m) (rejoinCount m) (lastRejoinAt m) (totalSpeakTime m)
     (isHandRaised m) (handRaiseCount m) (roleChangeCount m)
     (lastRoleChangeAt m) (isMutedByHost m) (muteReason m) (kickCount m)
     (lastKickAt m) (kickReason m).
Definition set_lastSpokeAt (v : option Z) (m : t) : t :=
  mk (role m) (isMuted m) (joinedAt m) v (status m) (leftAt m)
     (disconnectedAt m) (rejoinCount m) (lastRejoinAt m) (totalSpeakTime m)
     (isHandRaised m) (handRaiseCount m) (roleChangeCount m)
     (lastRoleChangeAt m) (isMutedByHost m) (muteReason m) (kickCount m)
     (lastKickAt m) (kickReason m).
Definition set_status (v : option MemberStatus) (m : t) : t :=
  mk (role m) (isMuted m) (joinedAt m) (lastSpokeAt m) v (leftAt m)
     (disconnectedAt m) (rejoinCount m) (lastRejoinAt m) (totalSpeakTime m)
     (isHandRaised m) (handRaiseCount m) (roleChangeCount m)
     (lastRoleChangeAt m) (isMutedByHost m) (muteReason m) (kickCount m)
     (lastKickAt m) (kickReason m).
Definition set_leftAt (v : option Z) (m : t) : t :=
  mk (role m) (isMuted m) (joinedAt m) (lastSpokeAt m) (status m) v
     (disconnectedAt m) (rejoinCount m) (lastRejoinAt m) (totalSpeakTime m)
     (isHandRaised m) (handRaiseCount m) (roleChangeCount m)
     (lastRoleChangeAt m) (isMutedByHost m) (muteReason m) (kickCount m)
     (lastKickAt m) (kickReason m).
Definition set_disconnectedAt (v : option Z) (m : t) : t :=
  mk (role m) (isMuted m) (joinedAt m) (lastSpokeAt m) (status m) (leftAt m)
     v (rejoinCount m) (lastRejoinAt m) (totalSpeakTime m)
     (isHandRaised m) (handRaiseCount m) (roleChangeCount m)
     (lastRoleChangeAt m) (isMutedByHost m) (muteReason m) (kickCount m)
     (lastKickAt m) (kickReason m).
Definition set_rejoinCount (v : option Z) (m : t) : t :=
  mk (role m) (isMuted m) (joinedAt m) (lastSpokeAt m) (status m) (leftAt m)
     (disconnectedAt m) v (lastRejoinAt m) (totalSpeakTime m)
     (isHandRaised m) (handRaiseCount m) (roleChangeCount m)
     (lastRoleChangeAt m) (isMutedByHost m) (muteReason m) (kickCount m)
     (lastKickAt m) (kickReason m).
Definition set_lastRejoinAt (v : option Z) (m : t) : t :=
  mk (role m) (isMuted m) (joinedAt m) (lastSpokeAt m) (status m) (leftAt m)
     (disconnectedAt m) (rejoinCount m) v (totalSpeakTime m)
     (isHandRaised m) (handRaiseCount m) (roleChangeCount m)
     (lastRoleChangeAt m) (isMutedByHost m) (muteReason m) (kickCount m)
     (lastKickAt m) (kickReason m).
Definition set_totalSpeakTime (v : option Z) (m : t) : t :=
  mk (role m) (isMuted m) (joinedAt m) (lastSpokeAt m) (status m) (leftAt m)
     (disconnectedAt m) (rejoinCount m) (lastRejoinAt m) v
     (isHandRaised m) (handRaiseCount m) (roleChangeCount m)
     (lastRoleChangeAt m) (isMutedByHost m) (muteReason m) (kickCount m)
     (lastKickAt m) (kickReason m).
Definition set_roleChangeCount (v : option Z) (m : t) : t :=
  mk (role m) (isMuted m) (joinedAt m) (lastSpokeAt m) (status m) (leftAt m)
     (disconnectedAt m) (rejoinCount m) (lastRejoinAt m) (totalSpeakTime m)
     (isHandRaised m) (handRaiseCount m) v
     (lastRoleChangeAt m) (isMutedByHost m) (muteReason m) (kickCount m)
     (lastKickAt m) (kickReason m).
Definition set_lastRoleChangeAt (v : option Z) (m : t) : t :=
  mk (role m) (isMuted m) (joinedAt m) (lastSpokeAt m) (status m) (leftAt m)
     (disconnectedAt m) (rejoinCount m) (lastRejoinAt m) (totalSpeakTime m)
     (isHandRaised m) (handRaiseCount m) (roleChangeCount m)
     v (isMutedByHost m) (muteReason m) (kickCount m)
     (lastKickAt m) (kickReason m).
End CircleMember.

Record HandRaise := { raisedAt : Z }.

(* FirebaseService.UserData: only fullName is read by the services. *)
Record UserData := { fullName : option string }.

(* A pending setTimeout callback of handleHostDisconnection: the closure
   captures circleId and the member reference of hostId. *)
Record Timer := { fireAt : Z; timerCircleId : string; timerHostId : string }.

(* process.env and the host's time zone. *)
Record Env := {
  LIVEKIT_API_KEY : option string;
  LIVEKIT_API_SECRET : option string;
  (* local time minus UTC, in milliseconds (a fixed offset) *)
  tzOffset : Z
}.

Record World := mkWorld {
  env : Env;
  circles : gmap string Circle.t;
  members : gmap (string * string) CircleMember.t;
  handRaises : gmap (string * string) HandRaise;
  users : gmap string UserData;
  timers : list Timer
}.

Definition set_circles (v : gmap string Circle.t) (w : World) : World :=
  mkWorld (env w) v (members w) (handRaises w) (users w) (timers w).
Definition set_members (v : gmap (string * string) CircleMember.t) (w : World) : World :=
  mkWorld (env w) (circles w) v (handRaises w) (users w) (timers w).
Definition set_handRaises (v : gmap (string * string) HandRaise) (w : World) : World :=
  mkWorld (env w) (circles w) (members w) v (users w) (timers w).
Definition set_timers (v : list Timer) (w : World) : World :=
  mkWorld (env w) (circles w) (members w) (handRaises w) (users w) v.

(* --------------------------------------------------------------------- *)
(* Exceptions and the monad of async methods                             *)
(* --------------------------------------------------------------------- *)

Inductive Exception :=
| Error (message : string)
| BadRequestException (message : string)
(* rejection of DocumentReference.update() when the document is absent *)
| FirestoreNotFound (path : string).

Inductive Outcome (A : Type) :=
| Return (a : A)
| Throw (e : Exception).
Arguments Return {A} a.
Arguments Throw {A} e.

Definition Async (A : Type) : Type := World -> Outcome A * World.

Definition ret {A} (a : A) : Async A := fun w => (Return a, w).
Definition throw {A} (e : Exception) : Async A := fun w => (Throw e, w).
Definition bind {A B} (c : Async A) (k : A -> Async B) : Async B :=
  fun w =>
    match c w with
    | (Return a, w') => k a w'
    | (Throw e, w') => (Throw e, w')
    end.
(* try { c } catch (error) { h error } *)
Definition try_catch {A} (c : Async A) (h : Exception -> Async A) : Async A :=
  fun w =>
    match c w with
    | (Return a, w') => (Return a, w')
    | (Throw e, w') => h e w'
    end.
Definition gets {A} (f : World -> A) : Async A := fun w => (Return (f w), w).
Definition modify (f : World -> World) : Async unit := fun w => (Return tt, f w).
Definition when (b : bool) (c : Async unit) : Async unit :=
  if b then c else ret tt.

Declare Scope async_scope.
Delimit Scope async_scope with async.
Notation "x <- c ;; k" := (bind c (fun x => k))
  (at level 100, c at next level, right associativity) : async_scope.
Notation "c ;; k" := (bind c (fun _ => k))
  (at level 100, right associativity) : async_scope.
Local Open Scope async_scope.

Definition is_Return {A} (o : Outcome A) : bool :=
  match o with Return _ => true | Throw _ => false end.

(* error.message *)
Definition message_of (e : Exception) : string :=
  match e with
  | Error m => m
  | BadRequestException m => m
  | FirestoreNotFound p => "5 NOT_FOUND: No document to update: " +:+ p
  end.

(* --------------------------------------------------------------------- *)
(* Firestore primitives                                                  *)
(* --------------------------------------------------------------------- *)

(* FieldValue.increment(d) applied to a numeric field *)
Definition increment (d : Z) (v : option Z) : option Z :=
  match v with
  | Some n => Some (n + d)
  | None => Some d
  end.

(* x || 0 on a number | null | undefined *)
Definition or0 (v : option Z) : Z := default 0 v.

(* !s on a string *)
Definition falsy (s : string) : bool := bool_decide (s = "").

Definition circleGet (id : string) : Async (option Circle.t) :=
  gets (fun w => circles w !! id).
Definition circleSet (id : string) (c : Circle.t) : Async unit :=
  modify (fun w => set_circles (<[id := c]> (circles w)) w).
Definition circleUpdate (id : string) (f : Circle.t -> Circle.t) : Async unit :=
  fun w =>
    match circles w !! id with
    | Some c => (Return tt, set_circles (<[id := f c]> (circles w)) w)
    | None => (Throw (FirestoreNotFound ("circles/" +:+ id)), w)
    end.
Definition circleDelete (id : string) : Async unit :=
  modify (fun w => set_circles (delete id (circles w)) w).

Definition memberPath (id uid : string) : string :=
  "circles/" +:+ id +:+ "/members/" +:+ uid.
Definition memberGet (id uid : string) : Async (option CircleMember.t) :=
  gets (fun w => members w !! (id, uid)).
Definition memberSet (id uid : string) (m : CircleMember.t) : Async unit :=
  modify (fun w => set_members (<[(id, uid) := m]> (members w)) w).
Definition memberUpdate (id uid : string) (f : CircleMember.t -> CircleMember.t)
  : Async unit :=
  fun w =>
    match members w !! (id, uid) with
    | Some m => (Return tt, set_members (<[(id, uid) := f m]> (members w)) w)
    | None => (Throw (FirestoreNotFound (memberPath id uid)), w)
    end.
Definition handRaiseDelete (id uid : string) : Async unit :=
  modify (fun w => set_handRaises (delete (id, uid) (handRaises w)) w).

(* The documents of the sub-collection circles/{id}/<name>: the snapshot
   returned by collection(...).get(). *)
Definition collection {V} (id : string) (m : gmap (string * string) V)
  : gmap (string * string) V :=
  filter (fun kv => kv.1.1 = id) m.

(* A write batch that deletes every document of a snapshot. *)
Definition batchDelete {V} (snap m : gmap (string * string) V)
  : gmap (string * string) V :=
  m ∖ snap.

(* --------------------------------------------------------------------- *)
(* FirebaseService.getUserData and LivekitService.mintToken              *)
(* --------------------------------------------------------------------- *)

Definition getUserData (userId : string) : Async (option UserData) :=
  gets (fun w => users w !! userId).

(* userData?.fullName *)
Definition fullName_of (u : option UserData) : option string :=
  u ≫= fullName.

(* The claims of the signed access token (the signature is not modelled). *)
Record Token := {
  identity : string;
  name : string;
  room : string;
  roomJoin : bool;
  canPublish : bool;
  canSubscribe : bool;
  canPublishData : bool;
  roomAdmin : bool;
  roomCreate : bool
}.

(* !v on string | undefined *)
Definition unset (v : option string) : bool :=
  match v with
  | None => true
  | Some s => falsy s
  end.

(* a || b on strings *)
Definition or_else (a : option string) (b : string) : string :=
  match a with
  | Some s => if falsy s then b else s
  | None => b
  end.

Definition is_host (r : Role) : bool := bool_decide (r = Host).
Definition is_speaker (r : Role) : bool := bool_decide (r = Speaker).
Definition is_listener (r : Role) : bool := bool_decide (r = Listener).

(* new AccessToken(apiKey, apiSecret, {identity, name}) with the grant of
   at.addGrant({...}) *)
Definition accessToken (userId room : string) (role : Role)
  (fullName : option string) : Token :=
  {| identity := userId;
     name := or_else fullName userId;
     room := room;
     roomJoin := true;
     canPublish := is_host role || is_speaker role;
     canSubscribe := true;
     canPublishData := is_host role || is_speaker role || is_listener role;
     roomAdmin := is_host role;
     roomCreate := is_host role |}.

(* The test !role never fires: a Role is one of three non-empty strings. *)
Definition mintToken_body (userId room : string) (role : Role)
  (fullName : option string) : Async Token :=
  apiKey <- gets (fun w => LIVEKIT_API_KEY (env w)) ;;
  apiSecret <- gets (fun w => LIVEKIT_API_SECRET (env w)) ;;
  if unset apiKey || unset apiSecret then
    throw (Error "LiveKit API credentials not configured")
  else if falsy userId || falsy room then
    throw (Error "Invalid parameters: userId, room, and role are required")
  else
    ret (accessToken userId room role fullName).

(* Both LiveKit credentials are set (main.ts refuses to boot otherwise). *)
Definition configured (e : Env) : Prop :=
  unset (LIVEKIT_API_KEY e) = false /\ unset (LIVEKIT_API_SECRET e) = false.

Definition mintToken (userId room : string) (role : Role)
  (fullName : option string) : Async Token :=
  try_catch (mintToken_body userId room role fullName)
    (fun error =>
       throw (Error ("Token generation failed: " +:+ message_of error))).

(* --------------------------------------------------------------------- *)
(* CirclesService: status transitions                                    *)
(* --------------------------------------------------------------------- *)

Definition validStatusTransitions (s : CircleStatus) : list CircleStatus :=
  match s with
  | Scheduled => [Live; Ended]
  | Live => [Ended]
  | Ended => []
  end.

(* Array.prototype.includes *)
Definition includes {A} `{EqDecision A} (l : list A) (x : A) : bool :=
  bool_decide (x ∈ l).

Definition isValidStatusTransition (currentStatus newStatus : CircleStatus)
  : bool :=
  includes (validStatusTransitions currentStatus) newStatus || false.

Record UpdateStatusResult := {
  usr_id : string;
  usr_status : CircleStatus;
  usr_endedAt : option Z
}.

Definition updateCircleStatus (now : Z) (id : string)
  (newStatus : CircleStatus) (userId : string) : Async UpdateStatusResult :=
  if falsy userId then throw (Error "User not authenticated") else
  circleSnap <- circleGet id ;;
  match circleSnap with
  | None => throw (Error "Circle not found")
  | Some circle =>
      if negb (bool_decide (Circle.hostUid circle = userId)) then
        throw (Error "Only host can update circle status")
      else if negb (isValidStatusTransition (Circle.status circle) newStatus) then
        throw (Error ("Invalid status transition from "
                      +:+ status_str (Circle.status circle)
                      +:+ " to " +:+ status_str newStatus))
      else
        let ended := bool_decide (newStatus = Ended) in
        circleUpdate id (fun c =>
          let c := Circle.set_status newStatus c in
          if ended then Circle.set_endedAt (Some now) c else c) ;;
        ret {| usr_id := id;
               usr_status := newStatus;
               usr_endedAt := if ended then Some now else None |}
  end.

(* --------------------------------------------------------------------- *)
(* CirclesService.createCircle                                           *)
(* --------------------------------------------------------------------- *)

Record CreateCircleDto := {
  dto_title : string;
  dto_description : option string;
  dto_category : string;
  dto_privacy : Privacy;
  dto_coverUrl : option string;
  (* the instant the ISO date string denotes *)
  dto_startAt : option Z;
  dto_maxSpeakers : option Z;
  dto_isReplay : option bool
}.

Definition msPerDay : Z := 24 * 60 * 60 * 1000.

(* const startOfDay = new Date(); startOfDay.setHours(0, 0, 0, 0):
   the last local midnight at or before [now]. *)
Definition startOfDay (tz now : Z) : Z := now - (now + tz) mod msPerDay.

(* db.collection('circles').where('hostUid', '==', userId)
     .where('createdAt', '>=', startOfDayTs).get() *)
Definition circlesCreatedSince (userId : string) (since : Z)
  (cs : gmap string Circle.t) : gmap string Circle.t :=
  filter (fun kv => Circle.hostUid kv.2 = userId /\ since <= Circle.createdAt kv.2) cs.

(* s || null on an optional string *)
Definition or_null (s : option string) : option string :=
  match s with
  | Some v => if falsy v then None else Some v
  | None => None
  end.

Definition dailyLimitMessage : string :=
  "Daily limit reached: You can only create 5 circles per day.".

Record CreateResult := {
  cr_circleId : string;
  cr_sfuToken : Token;
  cr_circle : Circle.t
}.

(* A member document as createCircle and the new-member path of joinCircle
   write it. *)
Definition newMember (role : Role) (isMuted : bool) (now : Z)
  (rejoinCount : option Z) (isHandRaised : option bool) : CircleMember.t :=
  CircleMember.mk role isMuted now None (Some Active) None None
    rejoinCount None (Some 0) isHandRaised (Some 0) (Some 0) None None None
    (Some 0) None None.

(* [circleId] is the auto-generated id of db.collection('circles').doc(). *)
Definition createCircle (now : Z) (circleId : string) (dto : CreateCircleDto)
  (userId : string) : Async CreateResult :=
  if falsy userId then throw (Error "User not authenticated") else
  tz <- gets (fun w => tzOffset (env w)) ;;
  circlesSnap <- gets (fun w =>
    circlesCreatedSince userId (startOfDay tz now) (circles w)) ;;
  if bool_decide (5 <= Z.of_nat (size circlesSnap)) then
    throw (BadRequestException dailyLimitMessage)
  else
    let startTime := default now (dto_startAt dto) in
    let initialStatus :=
      match dto_startAt dto with
      | Some t => if bool_decide (now < t) then Scheduled else Live
      | None => Live
      end in
    let circleData :=
      Circle.mk circleId (dto_title dto) (or_null (dto_description dto))
        (dto_category dto) (dto_privacy dto) userId (or_null (dto_coverUrl dto))
        startTime initialStatus (default 8 (dto_maxSpeakers dto)) now
        (Some 1) None None None (default false (dto_isReplay dto))
        (Some 0) (Some 0) (Some 0) in
    circleSet circleId circleData ;;
    memberSet circleId userId (newMember Host false now (Some 0) None) ;;
    userData <- getUserData userId ;;
    sfuToken <- mintToken userId circleId Host (fullName_of userData) ;;
    ret {| cr_circleId := circleId; cr_sfuToken := sfuToken;
           cr_circle := circleData |}.

(* --------------------------------------------------------------------- *)
(* CirclesService.endCircle, deleteCircle                                *)
(* --------------------------------------------------------------------- *)

Definition endCircle (now : Z) (id userId : string) : Async unit :=
  if falsy userId then throw (Error "User not authenticated") else
  circleSnap <- circleGet id ;;
  match circleSnap with
  | None => throw (Error "Circle not found")
  | Some circle =>
      if negb (bool_decide (Circle.hostUid circle = userId)) then
        throw (Error "Only host can end circle")
      else if negb (includes [Scheduled; Live] (Circle.status circle)) then
        throw (Error ("Cannot end circle with status: "
                      +:+ status_str (Circle.status circle)))
      else
        circleUpdate id (fun c =>
          Circle.set_endReason (Some HostEnded)
            (Circle.set_endedAt (Some now) (Circle.set_status Ended c)))
  end.

Definition deleteCircle (id userId : string) : Async unit :=
  if falsy userId then throw (Error "User not authenticated") else
  circleSnap <- circleGet id ;;
  match circleSnap with
  | None => throw (Error "Circle not found")
  | Some circle =>
      if negb (bool_decide (Circle.hostUid circle = userId)) then
        throw (Error "Only host can delete circle")
      else if negb (bool_decide (Circle.status circle = Scheduled)) then
        throw (Error "Only scheduled circles can be deleted")
      else
        circleDelete id ;;
        membersSnap <- gets (fun w => collection id (members w)) ;;
        modify (fun w => set_members (batchDelete membersSnap (members w)) w) ;;
        handRaisesSnap <- gets (fun w => collection id (handRaises w)) ;;
        modify (fun w =>
          set_handRaises (batchDelete handRaisesSnap (handRaises w)) w)
  end.

(* --------------------------------------------------------------------- *)
(* CirclesService.handleHostDisconnection and its deferred check          *)
(* --------------------------------------------------------------------- *)

Definition graceWindow : Z := 5 * 60 * 1000.

Definition endCircleDueToHostDisconnection (now : Z) (circleId : string)
  : Async unit :=
  circleUpdate circleId (fun c =>
    Circle.set_endReason (Some HostDisconnected)
      (Circle.set_endedAt (Some now) (Circle.set_status Ended c))).

(* The callback handed to setTimeout; [now] is the instant it runs. *)
Definition hostDisconnectionTimeout (now : Z) (circleId hostId : string)
  : Async unit :=
  try_catch
    (memberSnap <- memberGet circleId hostId ;;
     match memberSnap with
     | Some member =>
         if bool_decide (CircleMember.status member = Some Disconnected) then
           endCircleDueToHostDisconnection now circleId
         else ret tt
     | None => ret tt
     end)
    (fun _ => ret tt).

Definition handleHostDisconnection (now : Z) (circleId hostId : string)
  : Async unit :=
  memberUpdate circleId hostId (fun m =>
    CircleMember.set_disconnectedAt (Some now)
      (CircleMember.set_status (Some Disconnected) m)) ;;
  circleUpdate circleId (Circle.set_hostDisconnectedAt (Some now)) ;;
  modify (fun w =>
    set_timers (timers w ++ [ {| fireAt := now + graceWindow;
                                 timerCircleId := circleId;
                                 timerHostId := hostId |} ]) w).

(* The event loop at instant [now]: every pending timer whose delay has
   elapsed runs its callback once and is dropped. *)
Fixpoint runCallbacks (now : Z) (ts : list Timer) (w : World) : World :=
  match ts with
  | [] => w
  | t :: ts' =>
      runCallbacks now ts'
        (hostDisconnectionTimeout now (timerCircleId t) (timerHostId t) w).2
  end.

Definition fireTimers (now : Z) (w : World) : World :=
  let due := filter (fun t => fireAt t <= now) (timers w) in
  let pending := filter (fun t => ~ fireAt t <= now) (timers w) in
  runCallbacks now due (set_timers pending w).

(* --------------------------------------------------------------------- *)
(* CirclesService.joinCircle, promoteMember, leaveCircle                  *)
(* --------------------------------------------------------------------- *)

Record JoinCircleDto := { join_role : option Role }.

Record JoinResult := { webrtcToken : Token; jr_role : Role }.

Definition joinCircle (now : Z) (id userId : string)
  (joinDto : option JoinCircleDto) : Async JoinResult :=
  if falsy userId then throw (Error "User not authenticated") else
  circleSnap <- circleGet id ;;
  match circleSnap with
  | None => throw (Error "Circle not found")
  | Some circle =>
      if negb (includes [Scheduled; Live] (Circle.status circle)) then
        throw (Error ("Cannot join circle with status: "
                      +:+ status_str (Circle.status circle)))
      else
        let requestedRole := default Listener (joinDto ≫= join_role) in
        existingMember <- memberGet id userId ;;
        if bool_decide (Circle.hostUid circle = userId)
           && bool_decide (Circle.status circle = Scheduled) then
          match existingMember with
          | Some _ =>
              userData <- getUserData userId ;;
              token <- mintToken userId id Host (fullName_of userData) ;;
              ret {| webrtcToken := token; jr_role := Host |}
          | None =>
              memberSet id userId (newMember Host false now None None) ;;
              circleUpdate id (fun c =>
                Circle.set_participantCount
                  (increment 1 (Circle.participantCount c)) c) ;;
              userData <- getUserData userId ;;
              token <- mintToken userId id Host (fullName_of userData) ;;
              ret {| webrtcToken := token; jr_role := Host |}
          end
        else
          match existingMember with
          | Some existing =>
              when (bool_decide (CircleMember.status existing = Some Left))
                (let currentRejoinCount := or0 (CircleMember.rejoinCount existing) in
                 memberUpdate id userId (fun m =>
                   CircleMember.set_joinedAt now
                     (CircleMember.set_lastRejoinAt (Some now)
                        (CircleMember.set_rejoinCount (Some (currentRejoinCount + 1))
                           (CircleMember.set_leftAt None
                              (CircleMember.set_status (Some Active) m))))) ;;
                 circleUpdate id (fun c =>
                   Circle.set_participantCount
                     (increment 1 (Circle.participantCount c)) c)) ;;
              userData <- getUserData userId ;;
              token <- mintToken userId id (CircleMember.role existing)
                         (fullName_of userData) ;;
              ret {| webrtcToken := token;
                     jr_role := CircleMember.role existing |}
          | None =>
              memberSet id userId
                (newMember requestedRole (is_listener requestedRole) now
                   (Some 0) (Some false)) ;;
              circleUpdate id (fun c =>
                Circle.set_participantCount
                  (increment 1 (Circle.participantCount c)) c) ;;
              userData <- getUserData userId ;;
              token <- mintToken userId id requestedRole (fullName_of userData) ;;
              ret {| webrtcToken := token; jr_role := requestedRole |}
          end
  end.

Record PromoteCircleDto := { targetUserId : string; newRole : Role }.

Definition promoteMember (now : Z) (circleId requesterId : string)
  (dto : PromoteCircleDto) : Async JoinResult :=
  circleSnap <- circleGet circleId ;;
  targetSnap <- memberGet circleId (targetUserId dto) ;;
  match circleSnap, targetSnap with
  | None, _ => throw (Error "Circle not found")
  | Some _, None => throw (Error "Target member not found")
  | Some circle, Some _ =>
      if negb (bool_decide (Circle.hostUid circle = requesterId)) then
        throw (Error "forbidden: only host can promote/demote")
      else
        memberUpdate circleId (targetUserId dto) (fun m =>
          CircleMember.set_roleChangeCount
            (increment 1 (CircleMember.roleChangeCount m))
            (CircleMember.set_lastRoleChangeAt (Some now)
               (CircleMember.set_role (newRole dto) m))) ;;
        userData <- getUserData (targetUserId dto) ;;
        token <- mintToken (targetUserId dto) circleId (newRole dto)
                   (fullName_of userData) ;;
        ret {| webrtcToken := token; jr_role := newRole dto |}
  end.

Definition leaveCircle (now : Z) (id userId : string) : Async unit :=
  if falsy userId then throw (Error "User not authenticated") else
  circleSnap <- circleGet id ;;
  match circleSnap with
  | None => throw (Error "Circle not found")
  | Some circle =>
      if bool_decide (Circle.hostUid circle = userId) then
        throw (Error "Host cannot leave circle. Use end circle instead.")
      else
        memberUpdate id userId (fun m =>
          CircleMember.set_status (Some Left)
            (CircleMember.set_leftAt (Some now) m)) ;;
        handRaiseDelete id userId ;;
        circleUpdate id (fun c =>
          Circle.set_participantCount
            (increment (-1) (Circle.participantCount c)) c)
  end.

(* --------------------------------------------------------------------- *)
(* CirclesService.getCircleDetails                                       *)
(* --------------------------------------------------------------------- *)

(* member.status === 'active' || member.status === null
   || member.status === undefined *)
Definition listedAsActive (member : CircleMember.t) : bool :=
  bool_decide (CircleMember.status member = Some Active)
  || bool_decide (CircleMember.status member = None).

Record CircleDetails := {
  cd_circle : Circle.t;
  cd_members : gmap (string * string) CircleMember.t;
  cd_handRaises : gmap (string * string) HandRaise
}.

Definition getCircleDetails (id : string) : Async CircleDetails :=
  circleSnap <- circleGet id ;;
  match circleSnap with
  | None => throw (Error "Circle not found")
  | Some circle =>
      allMembers <- gets (fun w => collection id (members w)) ;;
      handRaisesSnap <- gets (fun w => collection id (handRaises w)) ;;
      ret {| cd_circle := circle;
             cd_members := filter (fun kv => listedAsActive kv.2 = true) allMembers;
             cd_handRaises := handRaisesSnap |}
  end.

(* --------------------------------------------------------------------- *)
(* WebhookService                                                        *)
(* --------------------------------------------------------------------- *)

Inductive TrackType := AUDIO | VIDEO | DATA.

#[global] Instance TrackType_eq_dec : EqDecision TrackType.
Proof. solve_decision. Defined.

(* The fields of a verified WebhookEvent the handlers read:
   event.event, event.room?.name, event.participant?.identity,
   event.track?.type. *)
Record WebhookEvent := {
  event : string;
  room_name : option string;
  participant_identity : option string;
  track : option TrackType
}.

Definition userExists (uid : string) : Async bool :=
  gets (fun w => bool_decide (is_Some (users w !! uid))).

Definition bumpParticipantCount (circleId : string) (d : Z) : Async unit :=
  circleUpdate circleId (fun c =>
    Circle.set_participantCount (increment d (Circle.participantCount c)) c).

Definition incrementParticipantCount (circleId userId : string) : Async unit :=
  memberSnap <- memberGet circleId userId ;;
  match memberSnap with
  | Some member =>
      if negb (bool_decide (CircleMember.status member = Some Active)) then
        bumpParticipantCount circleId 1
      else ret tt
  | None => bumpParticipantCount circleId 1
  end.

Definition decrementParticipantCount (circleId userId : string) : Async unit :=
  memberSnap <- memberGet circleId userId ;;
  match memberSnap with
  | Some member =>
      if bool_decide (CircleMember.status member = Some Active) then
        bumpParticipantCount circleId (-1)
      else ret tt
  | None => ret tt
  end.

Definition removeHandRaise (circleId userId : string) : Async unit :=
  handRaiseDelete circleId userId.

Definition startSpeakingTime (now : Z) (circleId userId : string) : Async unit :=
  memberUpdate circleId userId (CircleMember.set_lastSpokeAt (Some now)).

Definition endSpeakingTime (now : Z) (circleId userId : string) : Async unit :=
  memberSnap <- memberGet circleId userId ;;
  match memberSnap ≫= CircleMember.lastSpokeAt with
  | Some lastSpokeAt =>
      let speakDuration := now - lastSpokeAt in
      let currentTotal := or0 (memberSnap ≫= CircleMember.totalSpeakTime) in
      memberUpdate circleId userId (fun m =>
        CircleMember.set_lastSpokeAt None
          (CircleMember.set_totalSpeakTime
             (Some (currentTotal + speakDuration)) m))
  | None =>
      memberUpdate circleId userId (CircleMember.set_lastSpokeAt None)
  end.

Definition userNotFound (uid : string) : Exception :=
  Error ("User not found: " +:+ uid).

(* try { ... } catch (error) { logger.error(...); throw error } *)
Definition rethrow {A} (c : Async A) : Async A :=
  try_catch c (fun error => throw error).

Definition handleParticipantJoined (e : WebhookEvent) : Async unit :=
  match room_name e, participant_identity e with
  | Some room, Some uid =>
      if falsy room || falsy uid then ret tt else
      rethrow
        (known <- userExists uid ;;
         if negb known then throw (userNotFound uid) else
         incrementParticipantCount room uid)
  | _, _ => ret tt
  end.

Definition handleParticipantLeft (now : Z) (e : WebhookEvent) : Async unit :=
  match room_name e, participant_identity e with
  | Some room, Some uid =>
      if falsy room || falsy uid then ret tt else
      rethrow
        (known <- userExists uid ;;
         if negb known then throw (userNotFound uid) else
         circleSnap <- circleGet room ;;
         match circleSnap with
         | Some circle =>
             if bool_decide (Circle.hostUid circle = uid) then
               handleHostDisconnection now room uid
             else
               decrementParticipantCount room uid ;;
               removeHandRaise room uid
         | None =>
             decrementParticipantCount room uid ;;
             removeHandRaise room uid
         end)
  | _, _ => ret tt
  end.

Definition handleTrackPublished (now : Z) (e : WebhookEvent) : Async unit :=
  match room_name e, participant_identity e, track e with
  | Some room, Some uid, Some type =>
      if falsy room || falsy uid then ret tt else
      rethrow
        (known <- userExists uid ;;
         if negb known then throw (userNotFound uid) else
         when (bool_decide (type = AUDIO)) (startSpeakingTime now room uid))
  | _, _, _ => ret tt
  end.

Definition handleTrackUnpublished (now : Z) (e : WebhookEvent) : Async unit :=
  match room_name e, participant_identity e, track e with
  | Some room, Some uid, Some type =>
      if falsy room || falsy uid then ret tt else
      rethrow
        (known <- userExists uid ;;
         if negb known then throw (userNotFound uid) else
         when (bool_decide (type = AUDIO)) (endSpeakingTime now room uid))
  | _, _, _ => ret tt
  end.

Definition handleEvent (now : Z) (e : WebhookEvent) : Async unit :=
  rethrow
    (if bool_decide (event e = "participant_joined") then
       handleParticipantJoined e
     else if bool_decide (event e = "participant_left") then
       handleParticipantLeft now e
     else if bool_decide (event e = "track_published") then
       handleTrackPublished now e
     else if bool_decide (event e = "track_unpublished") then
       handleTrackUnpublished now e
     else ret tt).

(* --------------------------------------------------------------------- *)
(* Command traces                                                        *)
(* --------------------------------------------------------------------- *)

Inductive Command :=
| CreateCircle (circleId : string) (dto : CreateCircleDto) (userId : string)
| UpdateCircleStatus (id : string) (newStatus : CircleStatus) (userId : string)
| EndCircle (id userId : string)
| DeleteCircle (id userId : string)
| JoinCircle (id userId : string) (joinDto : option JoinCircleDto)
| PromoteMember (circleId requesterId : string) (dto : PromoteCircleDto)
| LeaveCircle (id userId : string)
| Webhook (e : WebhookEvent)
| Tick.

(* One command issued at instant [now]; the Boolean tells whether the call
   returned (true) or threw (false). *)
Definition exec (now : Z) (c : Command) (w : World) : bool * World :=
  match c with
  | CreateCircle circleId dto userId =>
      let r := createCircle now circleId dto userId w in (is_Return r.1, r.2)
  | UpdateCircleStatus id s userId =>
      let r := updateCircleStatus now id s userId w in (is_Return r.1, r.2)
  | EndCircle id userId =>
      let r := endCircle now id userId w in (is_Return r.1, r.2)
  | DeleteCircle id userId =>
      let r := deleteCircle id userId w in (is_Return r.1, r.2)
  | JoinCircle id userId joinDto =>
      let r := joinCircle now id userId joinDto w in (is_Return r.1, r.2)
  | PromoteMember circleId requesterId dto =>
      let r := promoteMember now circleId requesterId dto w in
      (is_Return r.1, r.2)
  | LeaveCircle id userId =>
      let r := leaveCircle now id userId w in (is_Return r.1, r.2)
  | Webhook e =>
      let r := handleEvent now e w in (is_Return r.1, r.2)
  | Tick => (true, fireTimers now w)
  end.

Fixpoint run (tr : list (Z * Command)) (w : World) : World :=
  match tr with
  | [] => w
  | (now, c) :: tr' => run tr' (exec now c w).2
  end.

(* The number of createCircle calls of [userId] in the trace that returned
   at or after instant [since]. *)
Fixpoint creationsSince (userId : string) (since : Z)
  (tr : list (Z * Command)) (w : World) : nat :=
  match tr with
  | [] => 0%nat
  | (now, c) :: tr' =>
      let r := exec now c w in
      let here :=
        match c with
        | CreateCircle _ _ u =>
            if r.1 && bool_decide (u = userId) && bool_decide (since <= now)
            then 1%nat else 0%nat
        | _ => 0%nat
        end in
      (here + creationsSince userId since tr' r.2)%nat
  end.

Definition emptyWorld (e : Env) : World := mkWorld e ∅ ∅ ∅ ∅ [].

(* --------------------------------------------------------------------- *)
(* The one-host invariant                                                *)
(* --------------------------------------------------------------------- *)

(* Exactly one member document of every circle has role host, and it is the
   document of the circle's hostUid. *)
Definition hostInvariant (w : World) : Prop :=
  forall id c, circles w !! id = Some c ->
    (exists m, members w !! (id, Circle.hostUid c) = Some m /\
               CircleMember.role m = Host) /\
    (forall uid m, members w !! (id, uid) = Some m ->
       CircleMember.role m = Host -> uid = Circle.hostUid c).

(* Member documents exist only under existing circle documents. *)
Definition noOrphans (w : World) : Prop :=
  forall id uid, is_Some (members w !! (id, uid)) -> is_Some (circles w !! id).

Definition wellFormed (w : World) : Prop := hostInvariant w /\ noOrphans w.

(* [w'] has the circle documents of [w] with the same hostUid and the member
   documents of [w] with the same role. *)
Definition sameRoles (w w' : World) : Prop :=
  (forall id, Circle.hostUid <$> circles w' !! id =
              Circle.hostUid <$> circles w !! id) /\
  (forall k, CircleMember.role <$> members w' !! k =
             CircleMember.role <$> members w !! k).

Definition frames {A} (c : Async A) : Prop := forall w, sameRoles w (c w).2.

(* The commands the invariant is stated for: the id of a created circle is
   a fresh auto-generated id, a join request carries no host role (the
   JoinCircleDto admits 'listener' only), and a promotion gives the role
   host to the circle's hostUid and to nobody else. *)
Definition admissible (w : World) (c : Command) : Prop :=
  match c with
  | CreateCircle circleId _ _ => circles w !! circleId = None
  | JoinCircle _ _ joinDto => default Listener (joinDto ≫= join_role) <> Host
  | PromoteMember circleId _ dto =>
      forall c, circles w !! circleId = Some c ->
        (newRole dto = Host <-> targetUserId dto = Circle.hostUid c)
  | _ => True
  end.

Fixpoint admissibleTrace (w : World) (tr : list (Z * Command)) : Prop :=
  match tr with
  | [] => True
  | (now, c) :: tr' => admissible w c /\ admissibleTrace (exec now c w).2 tr'
  end.

(* --------------------------------------------------------------------- *)
(* CirclesService.updateCircle, getAvailableStatuses                      *)
(* --------------------------------------------------------------------- *)







Record AvailableStatuses := {
  currentStatus : CircleStatus;
  availableStatuses : list CircleStatus;
  allStatuses : list CircleStatus
}.

Definition getAvailableStatuses (id userId : string) : Async AvailableStatuses :=
  if falsy userId then throw (Error "User not authenticated") else
  circleSnap <- circleGet id ;;
  match circleSnap with
  | None => throw (Error "Circle not found")
  | Some circle =>
      if negb (bool_decide (Circle.hostUid circle = userId)) then
        throw (Error "Only host can view available statuses")
      else
        ret {| currentStatus := Circle.status circle;
               availableStatuses := validStatusTransitions (Circle.status circle);
               allStatuses := [Scheduled; Live; Ended] |}
  end.

(* --------------------------------------------------------------------- *)
(* CirclesController: mapping of service errors to HTTP errors            *)
(* --------------------------------------------------------------------- *)

(* The two errors mintToken can rethrow. *)
Definition credentialsError : Exception :=
  Error "Token generation failed: LiveKit API credentials not configured".
Definition parametersError : Exception :=
  Error "Token generation failed: Invalid parameters: userId, room, and role are required".


Record HttpException := { http_message : string; http_status : Z }.

Definition NOT_FOUND : Z := 404.
Definition FORBIDDEN : Z := 403.
Definition BAD_REQUEST : Z := 400.
Definition CONFLICT : Z := 409.
Definition UNAUTHORIZED : Z := 401.
Definition INTERNAL_SERVER_ERROR : Z := 500.

Inductive Response (A : Type) :=
| Ok (a : A)
| Fail (e : HttpException).
Arguments Ok {A} a.
Arguments Fail {A} e.

(* String.prototype.includes *)
Fixpoint str_includes (sub s : string) : bool :=
  String.prefix sub s
  || match s with
     | EmptyString => false
     | String _ s' => str_includes sub s'
     end.

(* try { return await c } catch (error) { throw h(error) } *)
Definition catching {A} (c : Async A) (h : Exception -> HttpException)
  : World -> Response A * World :=
  fun w =>
    match c w with
    | (Return a, w') => (Ok a, w')
    | (Throw error, w') => (Fail (h error), w')
    end.

Definition unexpected : HttpException :=
  {| http_message := "Unexpected error";
     http_status := INTERNAL_SERVER_ERROR |}.

Definition http (status : Z) (error : Exception) : HttpException :=
  {| http_message := message_of error; http_status := status |}.

Definition updateStatus_controller (now : Z) (id : string)
  (status : CircleStatus) (userId : string)
  : World -> Response UpdateStatusResult * World :=
  catching (updateCircleStatus now id status userId) (fun error =>
    if str_includes "not found" (message_of error) then http NOT_FOUND error
    else if str_includes "Only host can update" (message_of error) then
      http FORBIDDEN error
    else if str_includes "Invalid status transition" (message_of error) then
      http BAD_REQUEST error
    else http BAD_REQUEST error).

Definition end_controller (now : Z) (id userId : string)
  : World -> Response unit * World :=
  catching (endCircle now id userId) (fun error =>
    if str_includes "not found" (message_of error) then http NOT_FOUND error
    else if str_includes "Only host can update" (message_of error) then
      http FORBIDDEN error
    else http BAD_REQUEST error).

Definition delete_controller (id userId : string)
  : World -> Response unit * World :=
  catching (deleteCircle id userId) (fun error =>
    if str_includes "not found" (message_of error) then http NOT_FOUND error
    else if str_includes "Only host can delete" (message_of error) then
      http FORBIDDEN error
    else if str_includes "Only scheduled circles can be deleted"
              (message_of error) then
      http BAD_REQUEST error
    else unexpected).

Definition join_controller (now : Z) (id userId : string)
  (joinDto : option JoinCircleDto) : World -> Response JoinResult * World :=
  catching (joinCircle now id userId joinDto) (fun error =>
    if str_includes "not found" (message_of error) then http NOT_FOUND error
    else if str_includes "already a member" (message_of error) then
      http CONFLICT error
    else unexpected).

Definition promote_controller (now : Z) (id userId : string)
  (promoteDto : PromoteCircleDto) : World -> Response JoinResult * World :=
  catching (promoteMember now id userId promoteDto) (fun error =>
    if str_includes "not found" (message_of error) then http NOT_FOUND error
    else if str_includes "forbidden" (message_of error) then
      http FORBIDDEN error
    else unexpected).

(* --------------------------------------------------------------------- *)
(* AuthGuard                                                             *)
(* --------------------------------------------------------------------- *)

(* s.split(' '): the maximal space-free segments of s, in order. *)
Fixpoint split_space (s : string) : list string :=
  match s with
  | EmptyString => [""]
  | String c s' =>
      if bool_decide (c = " "%char) then "" :: split_space s'
      else match split_space s' with
           | seg :: segs => String c seg :: segs
           | [] => [String c ""]
           end
  end.

(* The string contains no space character. *)
Fixpoint spaceFree (s : string) : bool :=
  match s with
  | EmptyString => true
  | String c s' => negb (bool_decide (c = " "%char)) && spaceFree s'
  end.

(* const [type, token] = request.headers.authorization?.split(' ') ?? [];
   return type === 'Bearer' ? token : undefined *)
Definition extractTokenFromHeader (authorization : option string)
  : option string :=
  let parts := from_option split_space [] authorization in
  match parts !! 0%nat with
  | Some type => if bool_decide (type = "Bearer") then parts !! 1%nat else None
  | None => None
  end.

(* [verifyIdToken] stands for admin.auth().verifyIdToken: the uid of the
   decoded token, or None when verification throws.  The result is the uid
   stored in request.user, or the message of the UnauthorizedException. *)
Definition canActivate (verifyIdToken : string -> option string)
  (authorization : option string) : string + string :=
  match extractTokenFromHeader authorization with
  | Some token =>
      if falsy token then inr "No token provided"
      else match verifyIdToken token with
           | Some uid => inl uid
           | None => inr "Invalid token"
           end
  | None => inr "No token provided"
  end.

(* --------------------------------------------------------------------- *)
(* WebhookController.handleLiveKitWebhook, WebhookService.processWebhook  *)
(* --------------------------------------------------------------------- *)

Inductive WebhookStatus := Received | Ignored.

Record WebhookReply := { wr_status : WebhookStatus; wr_event : string }.

Definition handledEvents : list string :=
  ["participant_joined"; "participant_left"; "track_published";
   "track_unpublished"].

(* [receive] stands for WebhookReceiver.receive: the event of a body whose
   signature verifies against the authorization header, or None when it
   throws.  A handled event is processed by setImmediate after the reply is
   built; a failure of the handler is logged and goes nowhere. *)
Definition processWebhook (receive : string -> string -> option WebhookEvent)
  (now : Z) (rawBody authHeader : string)
  : World -> Response WebhookReply * World :=
  fun w =>
    match receive rawBody authHeader with
    | Some e =>
        if includes handledEvents (event e) then
          (Ok {| wr_status := Received; wr_event := event e |},
           (handleEvent now e w).2)
        else (Ok {| wr_status := Ignored; wr_event := event e |}, w)
    | None =>
        (Fail {| http_message := "Invalid webhook signature or payload";
                 http_status := BAD_REQUEST |}, w)
    end.

(* [isJson] stands for the success of JSON.parse. *)
Definition handleLiveKitWebhook (isJson : string -> bool)
  (receive : string -> string -> option WebhookEvent) (now : Z)
  (authorization rawBody : option string)
  : World -> Response WebhookReply * World :=
  fun w =>
    match authorization with
    | Some authHeader =>
        if falsy authHeader then
          (Fail {| http_message := "Missing authorization header";
                   http_status := UNAUTHORIZED |}, w)
        else
          match rawBody with
          | Some rawBodyString =>
              if bool_decide (String.length rawBodyString = 0%nat) then
                (Fail {| http_message := "Empty webhook body";
                         http_status := BAD_REQUEST |}, w)
              else if negb (isJson rawBodyString) then
                (Fail {| http_message := "Invalid JSON payload";
                         http_status := BAD_REQUEST |}, w)
              else processWebhook receive now rawBodyString authHeader w
          | None =>
              (Fail {| http_message := "Empty webhook body";
                       http_status := BAD_REQUEST |}, w)
          end
    | None =>
        (Fail {| http_message := "Missing authorization header";
                 http_status := UNAUTHORIZED |}, w)
    end.

(* --------------------------------------------------------------------- *)
(* Sample data on which the statements are exercised                     *)
(* --------------------------------------------------------------------- *)

Definition env0 : Env :=
  {| LIVEKIT_API_KEY := Some "key"; LIVEKIT_API_SECRET := Some "secret";
     tzOffset := 0 |}.

Definition circle0 (id host : string) (s : CircleStatus) (created : Z)
  : Circle.t :=
  Circle.mk id "Music Lovers" None "music" Public host None created s 8
    created (Some 1) None None None false (Some 0) (Some 0) (Some 0).

Definition member0 (r : Role) (s : option MemberStatus) : CircleMember.t :=
  CircleMember.mk r (is_listener r) 0 None s None None (Some 0) None
    (Some 0) None (Some 0) (Some 0) None None None (Some 0) None None.

(* bob, a speaker who spoke for 1200 ms and left circle c1 *)
Definition bobLeft : CircleMember.t :=
  CircleMember.mk Speaker false 10 None (Some Left) (Some 50) None (Some 2)
    (Some 20) (Some 1200) (Some false) (Some 1) (Some 1) (Some 15) None None
    (Some 0) None None.

(* Webhook events of participant [uid] in room [room]. *)
Definition trackPublished (room uid : string) (type : TrackType) : WebhookEvent :=
  {| event := "track_published"; room_name := Some room;
     participant_identity := Some uid; track := Some type |}.
Definition trackUnpublished (room uid : string) (type : TrackType) : WebhookEvent :=
  {| event := "track_unpublished"; room_name := Some room;
     participant_identity := Some uid; track := Some type |}.
Definition participantJoined (room uid : string) : WebhookEvent :=
  {| event := "participant_joined"; room_name := Some room;
     participant_identity := Some uid; track := None |}.
Definition participantLeft (room uid : string) : WebhookEvent :=
  {| event := "participant_left"; room_name := Some room;
     participant_identity := Some uid; track := None |}.


(* A live circle c1 of alice with participantCount 1 (the host) in which
   bob holds a legacy member document without a status field. *)
Definition legacyWorld : World :=
  mkWorld env0 {[ "c1" := circle0 "c1" "alice" Live 0 ]}
    {[ ("c1", "alice") := member0 Host (Some Active);
       ("c1", "bob") := member0 Listener None ]}
    ∅
    {[ "alice" := {| fullName := Some "Alice" |};
       "bob" := {| fullName := Some "Bob" |} ]} [].

(* A live circle c1 of alice, who is an active host member. *)
Definition liveWorld : World :=
  mkWorld env0 {[ "c1" := circle0 "c1" "alice" Live 0 ]}
    {[ ("c1", "alice") := member0 Host (Some Active) ]}
    ∅
    {[ "alice" := {| fullName := Some "Alice" |} ]} [].


(* A circle scheduled for instant 10^9, far after the instants used below. *)
Definition laterDto : CreateCircleDto :=
  {| dto_title := "Music Lovers"; dto_description := None;
     dto_category := "music"; dto_privacy := Public; dto_coverUrl := None;
     dto_startAt := Some 1000000000; dto_maxSpeakers := None;
     dto_isReplay := None |}.

(* alice creates five scheduled circles in one day (time zone UTC, the day
   starts at instant 0) and hard-deletes the first of them. *)
Definition fiveCreatedOneDeleted : list (Z * Command) :=
  [ (100, CreateCircle "k1" laterDto "alice");
    (200, CreateCircle "k2" laterDto "alice");
    (300, CreateCircle "k3" laterDto "alice");
    (400, CreateCircle "k4" laterDto "alice");
    (500, CreateCircle "k5" laterDto "alice");
    (600, DeleteCircle "k1" "alice") ].

(* Five circles alice created today (instants 100..500 of the day starting
   at 0) and one she created the day before. *)
Definition fiveToday : World :=
  mkWorld env0
    {[ "k0" := circle0 "k0" "alice" Live (-5000);
       "k1" := circle0 "k1" "alice" Live 100;
       "k2" := circle0 "k2" "alice" Live 200;
       "k3" := circle0 "k3" "alice" Live 300;
       "k4" := circle0 "k4" "alice" Live 400;
       "k5" := circle0 "k5" "alice" Live 500 ]} ∅ ∅ ∅ [].


(* alice creates circle c1 and bob joins it as a listener. *)
Definition aliceAndBob : list (Z * Command) :=
  [ (100, CreateCircle "c1" laterDto "alice");
    (200, JoinCircle "c1" "bob" None) ].

(* bob is promoted to speaker, leaves and rejoins; alice is confirmed as
   host. *)
Definition aliceAndBobSession : list (Z * Command) :=
  aliceAndBob ++
  [ (300, PromoteMember "c1" "alice" {| targetUserId := "bob"; newRole := Speaker |});
    (400, LeaveCircle "c1" "bob");
    (500, JoinCircle "c1" "bob" (Some {| join_role := Some Listener |}));
    (600, PromoteMember "c1" "alice" {| targetUserId := "alice"; newRole := Host |}) ].



(* A circle of alice that she ended at instant 50. *)
Definition endedCircle : Circle.t :=
  Circle.mk "c1" "Music Lovers" None "music" Public "alice" None 0 Ended 8 0
    (Some 1) (Some 50) (Some HostEnded) None false (Some 0) (Some 0) (Some 0).

(* A room_finished event, which the service does not handle. *)
Definition roomFinished : WebhookEvent :=
  {| event := "room_finished"; room_name := Some "c1";
     participant_identity := None; track := None |}.

(* A receiver that accepts the signature "sig" only, and reads the body as
   the name of the participant who joined circle c1. *)
Definition sampleReceive (rawBody authHeader : string) : option WebhookEvent :=
  if bool_decide (authHeader = "sig") then Some (participantJoined "c1" rawBody)
  else None.

(* ===================================================================== *)
(* Properties                                                            *)
(* ===================================================================== *)

(* Unfolding the monad and the store primitives. *)
Ltac unfold_async :=
  cbv beta iota delta
    [bind ret throw gets modify try_catch rethrow when
     circleGet circleSet circleUpdate circleDelete memberGet memberSet
     memberUpdate handRaiseDelete getUserData userExists
     bumpParticipantCount].

Ltac world_simpl :=
  cbn [circles members handRaises users timers env
       set_circles set_members set_handRaises set_timers fst snd] in *.

Ltac async_simpl :=
  repeat progress
    (unfold_async;
     cbn [circles members handRaises users timers env
          set_circles set_members set_handRaises set_timers
          fst snd negb andb orb];
     rewrite ?lookup_insert_eq).

Lemma falsy_false s : s <> "" -> falsy s = false.
Proof. intros H. unfold falsy. by rewrite bool_decide_false. Qed.

Lemma falsy_true_iff s : falsy s = true <-> s = "".
Proof. unfold falsy. by rewrite bool_decide_eq_true. Qed.

(* --------------------------------------------------------------------- *)
(* Status transitions                                                    *)
(* --------------------------------------------------------------------- *)

Lemma isValidStatusTransition_table a b :
  isValidStatusTransition a b = true <->
  (a, b) ∈ [(Scheduled, Live); (Scheduled, Ended); (Live, Ended)].
Proof.
  rewrite !elem_of_cons, elem_of_nil.
  destruct a, b; vm_compute; split; intros H; try done;
    try (repeat destruct H as [H|H]; done); tauto.
Qed.

(** C1: for a circle in status a, updateCircleStatus called by the host
    returns iff (a, b) is an edge of the table scheduled -> live, ended;
    live -> ended; ended -> nothing.  A rejected transition throws an error
    whose message names the current and the requested status and leaves the
    store untouched; an accepted one writes the new status, and stamps
    endedAt with the current time when the new status is ended. *)
Theorem updateCircleStatus_follows_table now w id c b :
  circles w !! id = Some c ->
  Circle.hostUid c <> "" ->
  let r := updateCircleStatus now id b (Circle.hostUid c) w in
  let edge := (Circle.status c, b) ∈
                [(Scheduled, Live); (Scheduled, Ended); (Live, Ended)] in
  (is_Return r.1 = true <-> edge) /\
  (~ edge ->
     r = (Throw (Error ("Invalid status transition from "
                        +:+ status_str (Circle.status c)
                        +:+ " to " +:+ status_str b)), w)) /\
  (edge ->
     r.1 = Return {| usr_id := id; usr_status := b;
                     usr_endedAt := if bool_decide (b = Ended)
                                    then Some now else None |} /\
     Circle.status <$> circles r.2 !! id = Some b /\
     Circle.endedAt <$> circles r.2 !! id =
       Some (if bool_decide (b = Ended) then Some now else Circle.endedAt c) /\
     (forall id', id' <> id -> circles r.2 !! id' = circles w !! id') /\
     members r.2 = members w).
Proof.
  intros Hc Hu r edge. subst r edge.
  rewrite <- isValidStatusTransition_table.
  unfold updateCircleStatus. rewrite (falsy_false _ Hu).
  unfold_async. rewrite Hc. rewrite bool_decide_true by done. cbn [negb].
  destruct (isValidStatusTransition (Circle.status c) b) eqn:Hv; cbn [negb].
  - rewrite Hc. unfold_async.
    cbn [fst snd is_Return circles set_circles members].
    split; [done|]. split; [done|]. intros _.
    rewrite lookup_insert_eq. cbn [fmap option_fmap option_map].
    repeat split.
    + by case_bool_decide.
    + by case_bool_decide.
    + intros id' Hne. by rewrite lookup_insert_ne.
  - cbn [fst snd is_Return]. split; [done|]. split; [done|]. done.
Qed.

Lemma updateCircleStatus_follows_table_witness :
  let w := mkWorld env0 {[ "c1" := circle0 "c1" "alice" Live 0 ]} ∅ ∅ ∅ [] in
  let r := updateCircleStatus 7 "c1" Ended "alice" w in
  is_Return r.1 = true /\
  Circle.endedAt <$> circles r.2 !! "c1" = Some (Some 7).
Proof.
  intros w r.
  pose proof (updateCircleStatus_follows_table 7 w "c1"
                (circle0 "c1" "alice" Live 0) Ended eq_refl
                ltac:(discriminate)) as (Hiff & _ & Hok).
  assert (He : (Live, Ended) ∈ [(Scheduled, Live); (Scheduled, Ended); (Live, Ended)])
    by (do 2 right; left).
  split.
  - apply Hiff, He.
  - apply Hok, He.
Defined.

(* --------------------------------------------------------------------- *)
(* Hard delete                                                           *)
(* --------------------------------------------------------------------- *)

Lemma batchDelete_collection_lookup {V} (m : gmap (string * string) V) id id' uid :
  batchDelete (collection id m) m !! (id', uid) =
  if decide (id' = id) then None else m !! (id', uid).
Proof.
  unfold batchDelete, collection. rewrite lookup_difference.
  destruct (decide (id' = id)) as [->|Hne].
  - destruct (m !! (id, uid)) as [v|] eqn:Hm.
    + by rewrite (map_lookup_filter_Some_2 _ _ _ v).
    + rewrite map_lookup_filter_None_2; [done|by left].
  - rewrite map_lookup_filter_None_2; [done|].
    right. intros x _. simpl. done.
Qed.

(** C9: deleteCircle called by the host throws the error "Only scheduled
    circles can be deleted", leaving the store untouched, whenever the
    circle's status is not scheduled; when it returns, the circle document,
    every member document and every hand-raise document of the circle are
    gone, and the documents of the other circles are as before. *)
Theorem deleteCircle_scheduled_only_and_removes_all w id c :
  circles w !! id = Some c ->
  Circle.hostUid c <> "" ->
  let r := deleteCircle id (Circle.hostUid c) w in
  (Circle.status c <> Scheduled ->
     r = (Throw (Error "Only scheduled circles can be deleted"), w)) /\
  (is_Return r.1 = true <-> Circle.status c = Scheduled) /\
  (is_Return r.1 = true ->
     circles r.2 !! id = None /\
     (forall uid, members r.2 !! (id, uid) = None) /\
     (forall uid, handRaises r.2 !! (id, uid) = None) /\
     (forall id' uid, id' <> id ->
        circles r.2 !! id' = circles w !! id' /\
        members r.2 !! (id', uid) = members w !! (id', uid) /\
        handRaises r.2 !! (id', uid) = handRaises w !! (id', uid))).
Proof.
  intros Hc Hu r. subst r. unfold deleteCircle.
  rewrite (falsy_false _ Hu). unfold_async. rewrite Hc.
  rewrite bool_decide_true by done. cbn [negb].
  case_bool_decide as Hs; cbn [negb fst snd is_Return].
  - split; [done|]. split; [done|]. intros _.
    cbn [circles members handRaises set_circles set_members set_handRaises].
    split; [apply lookup_delete_eq|].
    split; [intros uid; rewrite batchDelete_collection_lookup;
            by rewrite decide_True|].
    split; [intros uid; rewrite batchDelete_collection_lookup;
            by rewrite decide_True|].
    intros id' uid Hne. rewrite lookup_delete_ne by done.
    rewrite !batchDelete_collection_lookup, !decide_False by done. done.
  - split; [done|]. split; [split; done|]. done.
Qed.

Lemma deleteCircle_scheduled_only_and_removes_all_witness :
  let w := mkWorld env0 {[ "c1" := circle0 "c1" "alice" Scheduled 0 ]}
             {[ ("c1", "alice") := member0 Host (Some Active);
                ("c1", "bob") := member0 Listener (Some Active) ]}
             {[ ("c1", "bob") := {| raisedAt := 3 |} ]} ∅ [] in
  let r := deleteCircle "c1" "alice" w in
  is_Return r.1 = true /\ circles r.2 !! "c1" = None /\
  members r.2 !! ("c1", "bob") = None /\ handRaises r.2 !! ("c1", "bob") = None.
Proof.
  intros w r.
  pose proof (deleteCircle_scheduled_only_and_removes_all w "c1"
                (circle0 "c1" "alice" Scheduled 0) eq_refl
                ltac:(discriminate)) as (_ & Hiff & Hok).
  assert (Hr : is_Return r.1 = true) by (apply Hiff; reflexivity).
  destruct (Hok Hr) as (H1 & H2 & H3 & _).
  split; [exact Hr|]. split; [exact H1|]. split; [apply H2 | apply H3].
Defined.

(* --------------------------------------------------------------------- *)
(* Joining                                                               *)
(* --------------------------------------------------------------------- *)

Lemma mintToken_ok w userId room role fn :
  configured (env w) -> userId <> "" -> room <> "" ->
  mintToken userId room role fn w =
  (Return (accessToken userId room role fn), w).
Proof.
  intros [Hk Hs] Hu Hr. unfold mintToken, mintToken_body. unfold_async.
  rewrite Hk, Hs, (falsy_false _ Hu), (falsy_false _ Hr). done.
Qed.

Lemma includes_scheduled_live s :
  includes [Scheduled; Live] s = negb (bool_decide (s = Ended)).
Proof. by destruct s. Qed.

(** C5: on a scheduled circle whose host has no member document, joinCircle
    called by the host writes a host member (role host, status active),
    raises participantCount by exactly 1 and returns a host token; a second
    call by the host returns a host token again and leaves the whole store
    as the first call left it, so no document is created and the count is
    not raised a second time. *)
Theorem joinCircle_host_scheduled_idempotent now now' w id c dto dto' :
  circles w !! id = Some c ->
  Circle.status c = Scheduled ->
  Circle.hostUid c <> "" -> id <> "" ->
  configured (env w) ->
  members w !! (id, Circle.hostUid c) = None ->
  let host := Circle.hostUid c in
  let r1 := joinCircle now id host dto w in
  let r2 := joinCircle now' id host dto' r1.2 in
  let token := accessToken host id Host (fullName_of (users w !! host)) in
  r1.1 = Return {| webrtcToken := token; jr_role := Host |} /\
  members r1.2 !! (id, host) = Some (newMember Host false now None None) /\
  (exists m, members r1.2 !! (id, host) = Some m /\
     CircleMember.role m = Host /\ CircleMember.status m = Some Active) /\
  (or0 <$> (Circle.participantCount <$> circles r1.2 !! id)) =
    Some (or0 (Circle.participantCount c) + 1) /\
  r2.1 = Return {| webrtcToken := token; jr_role := Host |} /\
  r2.2 = r1.2.
Proof.
  intros Hc Hs Hu Hid Hcfg Hm host r1 r2 token.
  assert (Hr1 : r1 =
    (Return {| webrtcToken := token; jr_role := Host |},
     set_circles
       (<[id := Circle.set_participantCount
                  (increment 1 (Circle.participantCount c)) c]> (circles w))
       (set_members (<[(id, host) := newMember Host false now None None]>
                       (members w)) w))).
  { subst r1 token host. unfold joinCircle.
    rewrite (falsy_false _ Hu). unfold_async. rewrite Hc.
    rewrite includes_scheduled_live, Hs.
    rewrite bool_decide_false by done.
    rewrite !bool_decide_true by done. cbn [negb andb].
    unfold_async. rewrite Hm.
    unfold_async. cbn [circles set_members]. rewrite Hc. unfold_async.
    rewrite mintToken_ok by done. done. }
  assert (Hr2 : r2 = (Return {| webrtcToken := token; jr_role := Host |}, r1.2)).
  { subst r2. rewrite Hr1. subst host token. cbn [snd]. unfold joinCircle.
    rewrite (falsy_false _ Hu). unfold_async.
    cbn [circles members set_circles set_members].
    rewrite !lookup_insert_eq.
    cbn [Circle.status Circle.hostUid Circle.set_participantCount].
    rewrite includes_scheduled_live, Hs.
    rewrite bool_decide_false by done.
    rewrite !bool_decide_true by done. async_simpl.
    rewrite mintToken_ok by done. done. }
  rewrite Hr2, Hr1. cbn [fst snd circles members set_circles set_members].
  rewrite !lookup_insert_eq. repeat split.
  - eexists. split; [reflexivity|]. done.
  - cbn. f_equal. destruct (Circle.participantCount c); cbn; lia.
Qed.

Lemma joinCircle_host_scheduled_idempotent_witness :
  let w := mkWorld env0 {[ "c1" := circle0 "c1" "alice" Scheduled 0 ]} ∅ ∅ ∅ [] in
  let r1 := joinCircle 5 "c1" "alice" None w in
  let r2 := joinCircle 9 "c1" "alice" None r1.2 in
  (or0 <$> (Circle.participantCount <$> circles r1.2 !! "c1")) = Some 2 /\
  is_Return r2.1 = true /\ r2.2 = r1.2.
Proof.
  intros w r1 r2.
  pose proof (joinCircle_host_scheduled_idempotent 5 9 w "c1"
                (circle0 "c1" "alice" Scheduled 0) None None eq_refl eq_refl
                ltac:(discriminate) ltac:(discriminate)
                (conj eq_refl eq_refl) eq_refl)
    as (_ & _ & _ & Hcount & Hret & Hsame).
  split; [exact Hcount|]. split; [|exact Hsame].
  exact (f_equal is_Return Hret).
Defined.

(** C10: on a live circle whose host has no member document, joinCircle
    called by the host skips the host branch (it asks for status scheduled):
    with the role of the join request absent or listener, the host is written
    as an ordinary new member with role listener and isMuted true, and gets a
    listener token (no publish right, no room administration) instead of a
    host member and a host token. *)
Theorem joinCircle_host_on_live_circle_is_listener now w id c dto :
  circles w !! id = Some c ->
  Circle.status c = Live ->
  Circle.hostUid c <> "" -> id <> "" ->
  configured (env w) ->
  members w !! (id, Circle.hostUid c) = None ->
  default Listener (dto ≫= join_role) = Listener ->
  let host := Circle.hostUid c in
  let r := joinCircle now id host dto w in
  let token := accessToken host id Listener (fullName_of (users w !! host)) in
  r.1 = Return {| webrtcToken := token; jr_role := Listener |} /\
  members r.2 !! (id, host) =
    Some (newMember Listener true now (Some 0) (Some false)) /\
  (exists m, members r.2 !! (id, host) = Some m /\
     CircleMember.role m = Listener /\ CircleMember.isMuted m = true /\
     CircleMember.status m = Some Active) /\
  canPublish token = false /\ roomAdmin token = false /\
  roomCreate token = false /\
  (or0 <$> (Circle.participantCount <$> circles r.2 !! id)) =
    Some (or0 (Circle.participantCount c) + 1).
Proof.
  intros Hc Hs Hu Hid Hcfg Hm Hrole host r token.
  assert (Hr : r =
    (Return {| webrtcToken := token; jr_role := Listener |},
     set_circles
       (<[id := Circle.set_participantCount
                  (increment 1 (Circle.participantCount c)) c]> (circles w))
       (set_members
          (<[(id, host) := newMember Listener true now (Some 0) (Some false)]>
             (members w)) w))).
  { subst r token host. unfold joinCircle.
    rewrite (falsy_false _ Hu). unfold_async. rewrite Hc.
    rewrite includes_scheduled_live, Hs, Hrole.
    rewrite (bool_decide_false (Live = Ended)) by done.
    rewrite (bool_decide_false (Live = Scheduled)) by done.
    rewrite andb_false_r. async_simpl. rewrite Hm.
    async_simpl. rewrite Hc. async_simpl.
    rewrite mintToken_ok by done. done. }
  rewrite Hr. cbn [fst snd circles members set_circles set_members].
  rewrite !lookup_insert_eq. repeat split.
  - eexists. split; [reflexivity|]. done.
  - cbn. f_equal. destruct (Circle.participantCount c); cbn; lia.
Qed.

Lemma joinCircle_host_on_live_circle_is_listener_witness :
  let w := mkWorld env0 {[ "c1" := circle0 "c1" "alice" Live 0 ]} ∅ ∅ ∅ [] in
  let r := joinCircle 5 "c1" "alice" None w in
  jr_role <$> (match r.1 with Return a => Some a | Throw _ => None end) =
    Some Listener /\
  CircleMember.role <$> members r.2 !! ("c1", "alice") = Some Listener.
Proof.
  intros w r.
  pose proof (joinCircle_host_on_live_circle_is_listener 5 w "c1"
                (circle0 "c1" "alice" Live 0) None eq_refl eq_refl
                ltac:(discriminate) ltac:(discriminate)
                (conj eq_refl eq_refl) eq_refl eq_refl)
    as (Hret & Hmem & _).
  split.
  - exact (f_equal (fun o => jr_role <$>
             match o with Return a => Some a | Throw _ => None end) Hret).
  - exact (f_equal (fmap CircleMember.role) Hmem).
Defined.

(** C4: for a member document with status left of a user who is not the
    host, on a circle that is scheduled or live, joinCircle reactivates the
    document: status active, leftAt cleared, rejoinCount raised by exactly 1
    (an absent count reads as 0), lastRejoinAt and joinedAt set to now, every
    other field (role, totalSpeakTime and the other analytics and moderation
    fields) unchanged; participantCount is raised by 1; the token and the
    returned role are those of the member's stored role, whatever role the
    join request carries. *)
Theorem joinCircle_rejoin_reactivates now w id uid c m dto :
  circles w !! id = Some c ->
  Circle.status c <> Ended ->
  uid <> "" -> id <> "" ->
  uid <> Circle.hostUid c ->
  configured (env w) ->
  members w !! (id, uid) = Some m ->
  CircleMember.status m = Some Left ->
  let r := joinCircle now id uid dto w in
  let role := CircleMember.role m in
  members r.2 !! (id, uid) =
    Some (CircleMember.mk role (CircleMember.isMuted m) now
            (CircleMember.lastSpokeAt m) (Some Active) None
            (CircleMember.disconnectedAt m)
            (Some (or0 (CircleMember.rejoinCount m) + 1)) (Some now)
            (CircleMember.totalSpeakTime m) (CircleMember.isHandRaised m)
            (CircleMember.handRaiseCount m) (CircleMember.roleChangeCount m)
            (CircleMember.lastRoleChangeAt m) (CircleMember.isMutedByHost m)
            (CircleMember.muteReason m) (CircleMember.kickCount m)
            (CircleMember.lastKickAt m) (CircleMember.kickReason m)) /\
  (or0 <$> (Circle.participantCount <$> circles r.2 !! id)) =
    Some (or0 (Circle.participantCount c) + 1) /\
  r.1 = Return {| webrtcToken :=
                    accessToken uid id role (fullName_of (users w !! uid));
                  jr_role := role |}.
Proof.
  intros Hc Hs Hu Hid Hh Hcfg Hm Hl r role.
  assert (Hr : r =
    (Return {| webrtcToken :=
                 accessToken uid id role (fullName_of (users w !! uid));
               jr_role := role |},
     set_circles
       (<[id := Circle.set_participantCount
                  (increment 1 (Circle.participantCount c)) c]> (circles w))
       (set_members
          (<[(id, uid) :=
               CircleMember.set_joinedAt now
                 (CircleMember.set_lastRejoinAt (Some now)
                    (CircleMember.set_rejoinCount
                       (Some (or0 (CircleMember.rejoinCount m) + 1))
                       (CircleMember.set_leftAt None
                          (CircleMember.set_status (Some Active) m))))]>
             (members w)) w))).
  { subst r role. unfold joinCircle.
    rewrite (falsy_false _ Hu). unfold_async. rewrite Hc.
    rewrite includes_scheduled_live.
    rewrite (bool_decide_false (Circle.status c = Ended)) by done.
    rewrite (bool_decide_false (Circle.hostUid c = uid)) by done.
    async_simpl. rewrite Hm. async_simpl. rewrite Hl.
    rewrite bool_decide_true by done. async_simpl. rewrite Hm.
    async_simpl. rewrite Hc. async_simpl.
    rewrite mintToken_ok by done. done. }
  rewrite Hr. cbn [fst snd circles members set_circles set_members].
  rewrite !lookup_insert_eq. repeat split.
  cbn. f_equal. destruct (Circle.participantCount c); cbn; lia.
Qed.

Lemma joinCircle_rejoin_reactivates_witness :
  let w := mkWorld env0 {[ "c1" := circle0 "c1" "alice" Live 0 ]}
             {[ ("c1", "bob") := bobLeft ]} ∅ ∅ [] in
  let r := joinCircle 100 "c1" "bob" (Some {| join_role := Some Listener |}) w in
  CircleMember.rejoinCount <$> members r.2 !! ("c1", "bob") = Some (Some 3) /\
  CircleMember.totalSpeakTime <$> members r.2 !! ("c1", "bob") =
    Some (Some 1200) /\
  jr_role <$> (match r.1 with Return a => Some a | Throw _ => None end) =
    Some Speaker.
Proof.
  intros w r.
  pose proof (joinCircle_rejoin_reactivates 100 w "c1" "bob"
                (circle0 "c1" "alice" Live 0) bobLeft
                (Some {| join_role := Some Listener |}) eq_refl
                ltac:(discriminate) ltac:(discriminate) ltac:(discriminate)
                ltac:(discriminate) (conj eq_refl eq_refl) eq_refl eq_refl)
    as (Hmem & _ & Hret).
  split; [|split].
  - exact (f_equal (fmap CircleMember.rejoinCount) Hmem).
  - exact (f_equal (fmap CircleMember.totalSpeakTime) Hmem).
  - exact (f_equal (fun o => jr_role <$>
             match o with Return a => Some a | Throw _ => None end) Hret).
Defined.

(* --------------------------------------------------------------------- *)
(* Webhook events: speaking time                                         *)
(* --------------------------------------------------------------------- *)

Lemma rethrow_id {A} (c : Async A) w : rethrow c w = c w.
Proof. unfold rethrow, try_catch, throw. by destruct (c w) as [[a|e] w']. Qed.

Lemma userExists_true w uid :
  is_Some (users w !! uid) -> bool_decide (is_Some (users w !! uid)) = true.
Proof. intros H. by rewrite bool_decide_true. Qed.

Lemma handleEvent_trackPublished now room uid type w :
  room <> "" -> uid <> "" -> is_Some (users w !! uid) ->
  handleEvent now (trackPublished room uid type) w =
  if bool_decide (type = AUDIO) then startSpeakingTime now room uid w
  else (Return tt, w).
Proof.
  intros Hr Hu Hk. unfold handleEvent. rewrite rethrow_id. cbn [event trackPublished].
  change (bool_decide ("track_published" = "participant_joined")) with false.
  change (bool_decide ("track_published" = "participant_left")) with false.
  change (bool_decide ("track_published" = "track_published")) with true.
  cbv iota. unfold handleTrackPublished.
  cbn [room_name participant_identity track trackPublished].
  rewrite (falsy_false _ Hr), (falsy_false _ Hu). cbn [orb].
  rewrite rethrow_id. unfold_async. rewrite (userExists_true _ _ Hk).
  cbn [negb]. by case_bool_decide.
Qed.

Lemma handleEvent_trackUnpublished now room uid type w :
  room <> "" -> uid <> "" -> is_Some (users w !! uid) ->
  handleEvent now (trackUnpublished room uid type) w =
  if bool_decide (type = AUDIO) then endSpeakingTime now room uid w
  else (Return tt, w).
Proof.
  intros Hr Hu Hk. unfold handleEvent. rewrite rethrow_id.
  cbn [event trackUnpublished].
  change (bool_decide ("track_unpublished" = "participant_joined")) with false.
  change (bool_decide ("track_unpublished" = "participant_left")) with false.
  change (bool_decide ("track_unpublished" = "track_published")) with false.
  change (bool_decide ("track_unpublished" = "track_unpublished")) with true.
  cbv iota. unfold handleTrackUnpublished.
  cbn [room_name participant_identity track trackUnpublished].
  rewrite (falsy_false _ Hr), (falsy_false _ Hu). cbn [orb].
  rewrite rethrow_id. unfold_async. rewrite (userExists_true _ _ Hk).
  cbn [negb]. by case_bool_decide.
Qed.

Lemma endSpeakingTime_speaking now room uid w m t0 :
  members w !! (room, uid) = Some m ->
  CircleMember.lastSpokeAt m = Some t0 ->
  endSpeakingTime now room uid w =
  (Return tt,
   set_members
     (<[(room, uid) :=
          CircleMember.set_lastSpokeAt None
            (CircleMember.set_totalSpeakTime
               (Some (or0 (CircleMember.totalSpeakTime m) + (now - t0))) m)]>
        (members w)) w).
Proof.
  intros Hm Hl. unfold endSpeakingTime. unfold_async. rewrite Hm.
  cbn [mbind option_bind]. rewrite Hl. unfold_async. rewrite Hm. done.
Qed.

(** C7: for a member document of a known user, an audio track_published
    event at instant t1 stamps lastSpokeAt with t1; the audio
    track_unpublished event that follows at instant t2 sets totalSpeakTime to
    the old total (absent reads as 0) plus t2 - t1 and clears lastSpokeAt, all
    other fields unchanged, so a gap of at least 2000 ms raises totalSpeakTime
    by at least 2000.  A published or unpublished track that is not audio
    leaves the store as it is. *)
Theorem speaking_time_accumulates t1 t2 w room uid m :
  room <> "" -> uid <> "" ->
  is_Some (users w !! uid) ->
  members w !! (room, uid) = Some m ->
  let r1 := handleEvent t1 (trackPublished room uid AUDIO) w in
  let r2 := handleEvent t2 (trackUnpublished room uid AUDIO) r1.2 in
  members r1.2 !! (room, uid) =
    Some (CircleMember.set_lastSpokeAt (Some t1) m) /\
  members r2.2 !! (room, uid) =
    Some (CircleMember.set_lastSpokeAt None
            (CircleMember.set_totalSpeakTime
               (Some (or0 (CircleMember.totalSpeakTime m) + (t2 - t1))) m)) /\
  (exists m2, members r2.2 !! (room, uid) = Some m2 /\
     CircleMember.lastSpokeAt m2 = None /\
     or0 (CircleMember.totalSpeakTime m2) =
       or0 (CircleMember.totalSpeakTime m) + (t2 - t1) /\
     (2000 <= t2 - t1 ->
        or0 (CircleMember.totalSpeakTime m) + 2000 <=
        or0 (CircleMember.totalSpeakTime m2))) /\
  (forall now type, type <> AUDIO ->
     handleEvent now (trackPublished room uid type) w = (Return tt, w) /\
     handleEvent now (trackUnpublished room uid type) w = (Return tt, w)).
Proof.
  intros Hr Hu Hk Hm r1 r2.
  assert (Hr1 : r1 =
    (Return tt,
     set_members (<[(room, uid) := CircleMember.set_lastSpokeAt (Some t1) m]>
                    (members w)) w)).
  { subst r1. rewrite handleEvent_trackPublished by done.
    rewrite bool_decide_true by done. unfold startSpeakingTime.
    unfold_async. by rewrite Hm. }
  assert (Hr2 : r2.2 =
    set_members
      (<[(room, uid) :=
           CircleMember.set_lastSpokeAt None
             (CircleMember.set_totalSpeakTime
                (Some (or0 (CircleMember.totalSpeakTime m) + (t2 - t1))) m)]>
         (members w)) w).
  { subst r2. rewrite Hr1. cbn [snd].
    rewrite handleEvent_trackUnpublished by done.
    rewrite bool_decide_true by done.
    erewrite endSpeakingTime_speaking;
      [|cbn [members set_members]; apply lookup_insert_eq|reflexivity].
    cbn [snd members set_members]. rewrite insert_insert_eq.
    by destruct m. }
  rewrite Hr2, Hr1. cbn [snd members set_members]. rewrite !lookup_insert_eq.
  split; [done|]. split; [done|]. split.
  - eexists. split; [reflexivity|]. cbn. split; [done|]. split; [done|]. lia.
  - intros now type Hty.
    rewrite handleEvent_trackPublished, handleEvent_trackUnpublished by done.
    by rewrite bool_decide_false.
Qed.

Lemma speaking_time_accumulates_witness :
  let w := mkWorld env0 {[ "c1" := circle0 "c1" "alice" Live 0 ]}
             {[ ("c1", "bob") := member0 Speaker (Some Active) ]} ∅
             {[ "bob" := {| fullName := Some "Bob" |} ]} [] in
  let r1 := handleEvent 1000 (trackPublished "c1" "bob" AUDIO) w in
  let r2 := handleEvent 3000 (trackUnpublished "c1" "bob" AUDIO) r1.2 in
  CircleMember.totalSpeakTime <$> members r2.2 !! ("c1", "bob") =
    Some (Some 2000) /\
  CircleMember.lastSpokeAt <$> members r2.2 !! ("c1", "bob") = Some None.
Proof.
  intros w r1 r2.
  pose proof (speaking_time_accumulates 1000 3000 w "c1" "bob"
                (member0 Speaker (Some Active))
                ltac:(discriminate) ltac:(discriminate)
                (ex_intro _ _ eq_refl) eq_refl)
    as (_ & Hmem & _).
  split.
  - exact (f_equal (fmap CircleMember.totalSpeakTime) Hmem).
  - exact (f_equal (fmap CircleMember.lastSpokeAt) Hmem).
Defined.

(* --------------------------------------------------------------------- *)
(* Webhook events: participant_joined                                    *)
(* --------------------------------------------------------------------- *)

Lemma handleEvent_participantJoined now room uid w :
  room <> "" -> uid <> "" -> is_Some (users w !! uid) ->
  handleEvent now (participantJoined room uid) w =
  incrementParticipantCount room uid w.
Proof.
  intros Hr Hu Hk. unfold handleEvent. rewrite rethrow_id.
  cbn [event participantJoined].
  change (bool_decide ("participant_joined" = "participant_joined")) with true.
  cbv iota. unfold handleParticipantJoined.
  cbn [room_name participant_identity track participantJoined].
  rewrite (falsy_false _ Hr), (falsy_false _ Hu). cbn [orb].
  rewrite rethrow_id. unfold_async. rewrite (userExists_true _ _ Hk). done.
Qed.

(* What the guard of incrementParticipantCount does: the count is raised by
   1 exactly when the member document is absent or its status is not the
   string 'active'; a document without a status falls in the second case. *)
Lemma participant_joined_counts now room uid w c :
  room <> "" -> uid <> "" -> is_Some (users w !! uid) ->
  circles w !! room = Some c ->
  let r := handleEvent now (participantJoined room uid) w in
  let counted :=
    match members w !! (room, uid) with
    | Some m => CircleMember.status m <> Some Active
    | None => True
    end in
  (counted ->
     Circle.participantCount <$> circles r.2 !! room =
       Some (increment 1 (Circle.participantCount c))) /\
  (~ counted -> r.2 = w).
Proof.
  intros Hr Hu Hk Hc r counted. subst r counted.
  rewrite handleEvent_participantJoined by done.
  unfold incrementParticipantCount. unfold_async.
  destruct (members w !! (room, uid)) as [m|].
  - case_bool_decide as Hs; cbn [negb]; unfold_async.
    + split; [done|]. done.
    + rewrite Hc. cbn [snd circles set_circles]. rewrite lookup_insert_eq.
      split; [done|]. intros Hn. by destruct Hn.
  - unfold_async. rewrite Hc. cbn [snd circles set_circles].
    rewrite lookup_insert_eq. split; [done|]. intros Hn. by destruct Hn.
Qed.

(** C6: the code at the failing input.  bob's member document of circle c1
    has no status, and getCircleDetails lists him as an active member; the
    participant_joined event for bob nevertheless raises participantCount
    from 1 to 2. *)
Theorem participant_joined_legacy_member_is_counted :
  (exists d, (getCircleDetails "c1" legacyWorld).1 = Return d /\
     is_Some (cd_members d !! ("c1", "bob"))) /\
  Circle.participantCount <$> circles legacyWorld !! "c1" = Some (Some 1) /\
  Circle.participantCount <$>
    circles (handleEvent 10 (participantJoined "c1" "bob") legacyWorld).2 !! "c1"
  = Some (Some 2).
Proof.
  split; [|split].
  - eexists. split; [reflexivity|]. vm_compute. eauto.
  - reflexivity.
  - vm_compute. reflexivity.
Qed.

(* --------------------------------------------------------------------- *)
(* Host disconnection                                                    *)
(* --------------------------------------------------------------------- *)

Lemma mintToken_world userId room role fn w :
  (mintToken userId room role fn w).2 = w.
Proof.
  unfold mintToken, mintToken_body. unfold_async.
  destruct (unset (LIVEKIT_API_KEY (env w)) || unset (LIVEKIT_API_SECRET (env w)));
    [done|].
  by destruct (falsy userId || falsy room).
Qed.

(* joinCircle writes nothing for a member whose status is disconnected: the
   host branch only mints a token when a document exists, and the rejoin
   branch reactivates a document only when its status is left. *)
Lemma joinCircle_keeps_disconnected now id uid dto w m :
  members w !! (id, uid) = Some m ->
  CircleMember.status m = Some Disconnected ->
  (joinCircle now id uid dto w).2 = w.
Proof.
  intros Hm Hs. unfold joinCircle.
  destruct (falsy uid); [done|]. unfold_async.
  destruct (circles w !! id) as [c|]; [|done].
  destruct (negb (includes [Scheduled; Live] (Circle.status c))); [done|].
  unfold_async. rewrite Hm.
  destruct (bool_decide (Circle.hostUid c = uid)
            && bool_decide (Circle.status c = Scheduled)).
  - unfold_async.
    pose proof (mintToken_world uid id Host (fullName_of (users w !! uid)) w) as Hw.
    destruct (mintToken uid id Host (fullName_of (users w !! uid)) w) as [[t|e] w'];
      by cbn in *.
  - rewrite Hs. rewrite bool_decide_false by done. unfold_async.
    pose proof (mintToken_world uid id (CircleMember.role m)
                  (fullName_of (users w !! uid)) w) as Hw.
    destruct (mintToken uid id (CircleMember.role m)
                (fullName_of (users w !! uid)) w) as [[t|e] w'];
      by cbn in *.
Qed.

(* The deferred check at fire time: a host member still disconnected ends
   the circle with reason host_disconnected; any other status is a no-op. *)
Lemma hostDisconnectionTimeout_fires now circleId hostId w m c :
  members w !! (circleId, hostId) = Some m ->
  circles w !! circleId = Some c ->
  (hostDisconnectionTimeout now circleId hostId w).2 =
  if bool_decide (CircleMember.status m = Some Disconnected) then
    set_circles
      (<[circleId := Circle.set_endReason (Some HostDisconnected)
                       (Circle.set_endedAt (Some now)
                          (Circle.set_status Ended c))]> (circles w)) w
  else w.
Proof.
  intros Hm Hc. unfold hostDisconnectionTimeout, endCircleDueToHostDisconnection.
  unfold_async. rewrite Hm. case_bool_decide; unfold_async; [|done].
  by rewrite Hc.
Qed.

(** C2: the code at the failing input.  alice hosts the live circle c1.  Her
    participant_left event at instant 1000 sets her member status to
    disconnected, stamps hostDisconnectedAt and arms the check for 1000 + 5
    minutes.  She joins again at instant 2000: joinCircle returns a token but
    her status stays disconnected, also after the participant_joined event
    of her new connection, so when the check fires at instant 301000 the
    circle is ended with endReason host_disconnected although the host had
    come back. *)
Theorem host_rejoin_does_not_reset_disconnected :
  let w1 := (handleEvent 1000 (participantLeft "c1" "alice") liveWorld).2 in
  let r2 := joinCircle 2000 "c1" "alice" None w1 in
  let w2 := (handleEvent 2500 (participantJoined "c1" "alice") r2.2).2 in
  let w3 := fireTimers 301000 w2 in
  CircleMember.status <$> members w1 !! ("c1", "alice") =
    Some (Some Disconnected) /\
  Circle.hostDisconnectedAt <$> circles w1 !! "c1" = Some (Some 1000) /\
  timers w1 = [ {| fireAt := 301000; timerCircleId := "c1";
                   timerHostId := "alice" |} ] /\
  is_Return r2.1 = true /\
  CircleMember.status <$> members r2.2 !! ("c1", "alice") =
    Some (Some Disconnected) /\
  CircleMember.status <$> members w2 !! ("c1", "alice") =
    Some (Some Disconnected) /\
  Circle.status <$> circles w2 !! "c1" = Some Live /\
  Circle.status <$> circles w3 !! "c1" = Some Ended /\
  Circle.endReason <$> circles w3 !! "c1" = Some (Some HostDisconnected).
Proof. vm_compute. repeat split; reflexivity. Qed.

(* --------------------------------------------------------------------- *)
(* Daily creation quota                                                  *)
(* --------------------------------------------------------------------- *)

Lemma startOfDay_is_local_midnight tz now :
  startOfDay tz now <= now < startOfDay tz now + msPerDay /\
  (startOfDay tz now + tz) mod msPerDay = 0.
Proof.
  unfold startOfDay.
  assert (Hd : 0 < msPerDay) by (vm_compute; reflexivity).
  pose proof (Z.mod_pos_bound (now + tz) msPerDay Hd) as Hb.
  split; [lia|].
  replace (now - (now + tz) mod msPerDay + tz)
    with ((now + tz) - (now + tz) mod msPerDay) by lia.
  rewrite Zminus_mod, Zmod_mod, Z.sub_diag. apply Zmod_0_l.
Qed.

(* The daily-limit check of createCircle is a query over the circle
   documents in the store: those whose hostUid is the requester and whose
   createdAt is at or after the last local midnight.  With 5 or more of them
   it throws the daily-limit BadRequestException and writes nothing; a
   document created before that midnight is not counted; with fewer than 5
   (and a non-empty requester and circle id, credentials configured) it
   returns the new circle id, a host token and the stored circle, whose
   participantCount is 1. *)
Lemma createCircle_daily_quota now w circleId dto userId :
  userId <> "" -> circleId <> "" ->
  configured (env w) ->
  let midnight := startOfDay (tzOffset (env w)) now in
  let today := circlesCreatedSince userId midnight (circles w) in
  let r := createCircle now circleId dto userId w in
  (midnight <= now < midnight + msPerDay /\
   (midnight + tzOffset (env w)) mod msPerDay = 0) /\
  (forall k c, today !! k = Some c <->
     circles w !! k = Some c /\ Circle.hostUid c = userId /\
     midnight <= Circle.createdAt c) /\
  (forall k c, circles w !! k = Some c -> Circle.createdAt c < midnight ->
     today !! k = None) /\
  ((5 <= size today)%nat ->
     r = (Throw (BadRequestException dailyLimitMessage), w)) /\
  ((size today < 5)%nat ->
     exists circle,
       r.1 = Return {| cr_circleId := circleId;
                       cr_sfuToken := accessToken userId circleId Host
                                        (fullName_of (users w !! userId));
                       cr_circle := circle |} /\
       circles r.2 !! circleId = Some circle /\
       Circle.hostUid circle = userId /\
       Circle.createdAt circle = now /\
       Circle.participantCount circle = Some 1 /\
       members r.2 !! (circleId, userId) =
         Some (newMember Host false now (Some 0) None)).
Proof.
  intros Hu Hid Hcfg midnight today r.
  split; [apply startOfDay_is_local_midnight|].
  split.
  { intros k c. subst today. unfold circlesCreatedSince.
    rewrite map_lookup_filter_Some. cbn [fst snd]. tauto. }
  split.
  { intros k c Hk Hlt. subst today. unfold circlesCreatedSince.
    apply map_lookup_filter_None_2. right. intros x Hx.
    rewrite Hk in Hx. injection Hx as <-. cbn [fst snd]. lia. }
  subst r. unfold createCircle. rewrite (falsy_false _ Hu). unfold_async.
  fold midnight. fold today.
  split.
  - intros Hge. rewrite bool_decide_true by lia. done.
  - intros Hlt. rewrite bool_decide_false by lia. async_simpl.
    rewrite mintToken_ok by done. cbn [fst snd circles members set_circles set_members].
    eexists. split; [reflexivity|].
    rewrite !lookup_insert_eq. done.
Qed.

Lemma createCircle_daily_quota_witness :
  size (circlesCreatedSince "alice" 0 (circles fiveToday)) = 5%nat /\
  circlesCreatedSince "alice" 0 (circles fiveToday) !! "k0" = None /\
  createCircle 700 "k6" laterDto "alice" fiveToday =
    (Throw (BadRequestException dailyLimitMessage), fiveToday) /\
  is_Return (createCircle 700 "k1" laterDto "alice" (emptyWorld env0)).1 = true.
Proof.
  pose proof (createCircle_daily_quota 700 fiveToday "k6" laterDto "alice"
                ltac:(discriminate) ltac:(discriminate)
                (conj eq_refl eq_refl)) as (_ & _ & Hold & Hfull & _).
  pose proof (createCircle_daily_quota 700 (emptyWorld env0) "k1" laterDto
                "alice" ltac:(discriminate) ltac:(discriminate)
                (conj eq_refl eq_refl)) as (_ & _ & _ & _ & Hfree).
  assert (H5 : size (circlesCreatedSince "alice" 0 (circles fiveToday)) = 5%nat)
    by (vm_compute; reflexivity).
  split; [exact H5|]. split; [|split].
  - apply (Hold "k0" (circle0 "k0" "alice" Live (-5000))).
    + reflexivity.
    + vm_compute. reflexivity.
  - apply Hfull. vm_compute. lia.
  - destruct Hfree as (circle & Hret & _).
    + vm_compute. lia.
    + exact (f_equal is_Return Hret).
Defined.

(** C8: the code at the failing input.  The day starts at instant 0 (time
    zone UTC).  alice creates the scheduled circles k1..k5 at instants 100 to
    500 and every call returns, so she has created 5 circles since local
    midnight; at instant 600 she hard-deletes k1, which removes its
    document.  At instant 700 the daily-limit query finds only 4 documents
    of hers, so her sixth createCircle of the day returns and stores k6
    instead of throwing the daily-limit exception: she has then created 6
    circles in one day.  Without the deletion the same call is rejected with
    "Daily limit reached: You can only create 5 circles per day." *)
Theorem createCircle_sixth_after_delete_returns :
  let midnight := startOfDay (tzOffset env0) 700 in
  let fiveCreated := take 5 fiveCreatedOneDeleted in
  let w5 := run fiveCreated (emptyWorld env0) in
  let w := run fiveCreatedOneDeleted (emptyWorld env0) in
  let r := createCircle 700 "k6" laterDto "alice" w in
  midnight = 0 /\
  creationsSince "alice" midnight fiveCreated (emptyWorld env0) = 5%nat /\
  createCircle 700 "k6" laterDto "alice" w5 =
    (Throw (BadRequestException dailyLimitMessage), w5) /\
  creationsSince "alice" midnight fiveCreatedOneDeleted (emptyWorld env0)
    = 5%nat /\
  size (circlesCreatedSince "alice" midnight (circles w)) = 4%nat /\
  is_Return r.1 = true /\
  Circle.createdAt <$> circles r.2 !! "k6" = Some 700 /\
  creationsSince "alice" midnight
    (fiveCreatedOneDeleted ++ [(700, CreateCircle "k6" laterDto "alice")])%list
    (emptyWorld env0) = 6%nat.
Proof. vm_compute. repeat split; reflexivity. Qed.

(* --------------------------------------------------------------------- *)
(* The one-host invariant                                                *)
(* --------------------------------------------------------------------- *)

Lemma sameRoles_refl w : sameRoles w w.
Proof. by split. Qed.

Lemma sameRoles_trans w1 w2 w3 :
  sameRoles w1 w2 -> sameRoles w2 w3 -> sameRoles w1 w3.
Proof.
  intros [H1 H2] [H3 H4]. split.
  - intros id. by rewrite H3, H1.
  - intros k. by rewrite H4, H2.
Qed.

Lemma fmap_Some_inv {A B} (f : A -> B) (o o' : option A) a :
  f <$> o' = f <$> o -> o' = Some a -> exists b, o = Some b /\ f b = f a.
Proof.
  intros H ->. destruct o as [b|]; [|done]. exists b. split; [done|].
  cbn in H. congruence.
Qed.

Lemma sameRoles_wellFormed w w' :
  sameRoles w w' -> wellFormed w -> wellFormed w'.
Proof.
  intros [Hc Hm] [Hinv Horph]. split.
  - intros id c' Hc'.
    destruct (fmap_Some_inv _ _ _ _ (Hc id) Hc') as (c & Hcw & Hh).
    destruct (Hinv id c Hcw) as [(m & Hmw & Hr) Huniq].
    rewrite <- Hh. split.
    + pose proof (Hm (id, Circle.hostUid c)) as Hk. rewrite Hmw in Hk.
      destruct (members w' !! (id, Circle.hostUid c)) as [m'|]; [|done].
      exists m'. split; [done|]. cbn in Hk. congruence.
    + intros uid m' Hm' Hr'.
      destruct (fmap_Some_inv _ _ _ _ (Hm (id, uid)) Hm') as (m0 & Hm0 & Hr0).
      apply (Huniq uid m0 Hm0). congruence.
  - intros id uid [m' Hm'].
    destruct (fmap_Some_inv _ _ _ _ (Hm (id, uid)) Hm') as (m0 & Hm0 & _).
    destruct (Horph id uid (mk_is_Some _ _ Hm0)) as [c Hcw].
    pose proof (Hc id) as Hk. rewrite Hcw in Hk.
    destruct (circles w' !! id); [eauto|done].
Qed.

(* Closure of [frames] under the monad and the store primitives. *)
Lemma frames_ret {A} (a : A) : frames (ret a).
Proof. intros w. apply sameRoles_refl. Qed.

Lemma frames_throw {A} e : frames (@throw A e).
Proof. intros w. apply sameRoles_refl. Qed.

Lemma frames_gets {A} (f : World -> A) : frames (gets f).
Proof. intros w. apply sameRoles_refl. Qed.

Lemma frames_bind {A B} (c : Async A) (k : A -> Async B) :
  frames c -> (forall a, frames (k a)) -> frames (bind c k).
Proof.
  intros Hc Hk w. unfold bind. specialize (Hc w).
  destruct (c w) as [[a|e] w']; cbn [snd] in *; [|done].
  eapply sameRoles_trans; [exact Hc|apply Hk].
Qed.

Lemma frames_try_catch {A} (c : Async A) h :
  frames c -> (forall e, frames (h e)) -> frames (try_catch c h).
Proof.
  intros Hc Hh w. unfold try_catch. specialize (Hc w).
  destruct (c w) as [[a|e] w']; cbn [snd] in *; [done|].
  eapply sameRoles_trans; [exact Hc|apply Hh].
Qed.

Lemma frames_rethrow {A} (c : Async A) : frames c -> frames (rethrow c).
Proof. intros Hc. apply frames_try_catch; [done|]. intros e. apply frames_throw. Qed.

Lemma frames_when b c : frames c -> frames (when b c).
Proof. intros Hc. destruct b; [done|apply frames_ret]. Qed.

Lemma frames_circleUpdate id f :
  (forall c, Circle.hostUid (f c) = Circle.hostUid c) ->
  frames (circleUpdate id f).
Proof.
  intros Hf w. unfold circleUpdate.
  destruct (circles w !! id) as [c|] eqn:Hc; cbn [snd]; [|apply sameRoles_refl].
  split; [|done]. intros id'. cbn [circles set_circles].
  destruct (decide (id = id')) as [<-|Hne].
  - rewrite lookup_insert_eq, Hc. cbn. by rewrite Hf.
  - by rewrite lookup_insert_ne.
Qed.

Lemma frames_memberUpdate id uid f :
  (forall m, CircleMember.role (f m) = CircleMember.role m) ->
  frames (memberUpdate id uid f).
Proof.
  intros Hf w. unfold memberUpdate.
  destruct (members w !! (id, uid)) as [m|] eqn:Hm; cbn [snd];
    [|apply sameRoles_refl].
  split; [done|]. intros k. cbn [members set_members].
  destruct (decide ((id, uid) = k)) as [<-|Hne].
  - rewrite lookup_insert_eq, Hm. cbn. by rewrite Hf.
  - by rewrite lookup_insert_ne.
Qed.

Lemma frames_handRaiseDelete id uid : frames (handRaiseDelete id uid).
Proof. intros w. by split. Qed.

Lemma frames_set_timers (f : World -> list Timer) :
  frames (modify (fun w => set_timers (f w) w)).
Proof. intros w. by split. Qed.

Lemma frames_mintToken userId room role fn : frames (mintToken userId room role fn).
Proof. intros w. rewrite mintToken_world. apply sameRoles_refl. Qed.

Lemma frames_bumpParticipantCount id d : frames (bumpParticipantCount id d).
Proof. apply frames_circleUpdate. done. Qed.

Create HintDb frames.
#[local] Hint Resolve frames_ret frames_throw frames_gets frames_handRaiseDelete
  frames_set_timers frames_mintToken frames_bumpParticipantCount
  frames_rethrow frames_when : frames.

(* Goals [frames c] for a method body: split binds, case on the tests,
   and close the leaves with the closure lemmas. *)
Ltac frames_step :=
  match goal with
  | |- forall _, _ => intro
  | |- frames (bind _ _) => apply frames_bind
  | |- frames (try_catch _ _) => apply frames_try_catch
  | |- frames (rethrow _) => apply frames_rethrow
  | |- frames (when _ _) => apply frames_when
  | |- frames (circleUpdate _ _) =>
      apply frames_circleUpdate; intros []; try case_bool_decide; reflexivity
  | |- frames (memberUpdate _ _ _) =>
      apply frames_memberUpdate; intros []; reflexivity
  | |- frames (circleGet _) => apply frames_gets
  | |- frames (memberGet _ _) => apply frames_gets
  | |- frames (getUserData _) => apply frames_gets
  | |- frames (userExists _) => apply frames_gets
  | |- frames (if ?b then _ else _) => destruct b
  | |- frames (match ?x with _ => _ end) => destruct x
  | |- frames _ => solve [auto with frames]
  end.
Ltac solve_frames := repeat frames_step.

Lemma frames_updateCircleStatus now id s userId :
  frames (updateCircleStatus now id s userId).
Proof. unfold updateCircleStatus. solve_frames. Qed.

Lemma frames_endCircle now id userId : frames (endCircle now id userId).
Proof. unfold endCircle. solve_frames. Qed.

Lemma frames_leaveCircle now id userId : frames (leaveCircle now id userId).
Proof. unfold leaveCircle. solve_frames. Qed.

Lemma frames_handleHostDisconnection now circleId hostId :
  frames (handleHostDisconnection now circleId hostId).
Proof. unfold handleHostDisconnection. solve_frames. Qed.

Lemma frames_hostDisconnectionTimeout now circleId hostId :
  frames (hostDisconnectionTimeout now circleId hostId).
Proof.
  unfold hostDisconnectionTimeout, endCircleDueToHostDisconnection.
  solve_frames.
Qed.

Lemma frames_handleEvent now e : frames (handleEvent now e).
Proof.
  pose proof frames_handleHostDisconnection.
  unfold handleEvent, handleParticipantJoined, handleParticipantLeft,
    handleTrackPublished, handleTrackUnpublished, incrementParticipantCount,
    decrementParticipantCount, removeHandRaise, startSpeakingTime,
    endSpeakingTime.
  solve_frames.
Qed.

Lemma bind_gets {A B} (f : World -> A) (k : A -> Async B) w :
  bind (gets f) k w = k (f w) w.
Proof. reflexivity. Qed.

Lemma bind_modify {B} (f : World -> World) (k : unit -> Async B) w :
  bind (modify f) k w = k tt (f w).
Proof. reflexivity. Qed.

Lemma bind_memberUpdate_Some {B} id uid f (k : unit -> Async B) w m :
  members w !! (id, uid) = Some m ->
  bind (memberUpdate id uid f) k w =
  k tt (set_members (<[(id, uid) := f m]> (members w)) w).
Proof. intros Hm. unfold bind, memberUpdate. by rewrite Hm. Qed.

(* What is left of a method after its first writes only frames. *)
Ltac by_frames Hwf :=
  match goal with
  | |- wellFormed (?c ?w).2 =>
      let Hf := fresh "Hf" in
      assert (Hf : frames c) by solve_frames;
      apply (sameRoles_wellFormed w _ (Hf w)); try exact Hwf
  end.

Lemma wellFormed_fireTimers now w : wellFormed w -> wellFormed (fireTimers now w).
Proof.
  intros Hwf. unfold fireTimers.
  set (due := filter _ (timers w)). set (pending := filter _ (timers w)).
  assert (Hstart : wellFormed (set_timers pending w)) by exact Hwf.
  clearbody due pending. revert Hstart. generalize (set_timers pending w).
  induction due as [|t due IH]; intros w0 Hw0; cbn [runCallbacks]; [done|].
  apply IH.
  apply (sameRoles_wellFormed w0); [|done].
  apply frames_hostDisconnectionTimeout.
Qed.

Lemma wellFormed_member_insert w id uid m' :
  wellFormed w ->
  is_Some (circles w !! id) ->
  members w !! (id, uid) = None ->
  CircleMember.role m' <> Host ->
  wellFormed (set_members (<[(id, uid) := m']> (members w)) w).
Proof.
  intros [Hinv Horph] Hc Hm Hr. split.
  - intros id0 c0 Hc0. cbn [circles set_members] in Hc0.
    destruct (Hinv id0 c0 Hc0) as [(m & Hmw & Hrole) Huniq].
    cbn [members set_members]. split.
    + exists m. split; [|done]. rewrite lookup_insert_ne; [done|].
      intros Heq. rewrite <- Heq in Hmw. congruence.
    + intros uid0 m0 Hm0 Hr0.
      destruct (decide ((id, uid) = (id0, uid0))) as [Heq|Hne].
      * rewrite Heq, lookup_insert_eq in Hm0. congruence.
      * rewrite lookup_insert_ne in Hm0 by done. eauto.
  - intros id0 uid0. cbn [circles members set_members].
    destruct (decide ((id, uid) = (id0, uid0))) as [Heq|Hne].
    + injection Heq as <- <-. done.
    + rewrite lookup_insert_ne by done. apply Horph.
Qed.

Lemma wellFormed_joinCircle now id uid dto w :
  wellFormed w ->
  default Listener (dto ≫= join_role) <> Host ->
  wellFormed (joinCircle now id uid dto w).2.
Proof.
  intros Hwf Hrole. unfold joinCircle.
  destruct (falsy uid); [exact Hwf|].
  unfold circleGet. rewrite bind_gets. cbv beta.
  destruct (circles w !! id) as [c|] eqn:Hc; [|exact Hwf].
  destruct (negb (includes [Scheduled; Live] (Circle.status c))); [exact Hwf|].
  unfold memberGet. rewrite bind_gets. cbv beta.
  assert (Hnone : members w !! (id, uid) = None -> Circle.hostUid c <> uid).
  { intros Hm Heq. destruct Hwf as [Hinv _].
    destruct (Hinv id c Hc) as [(m & Hmw & _) _]. congruence. }
  destruct (members w !! (id, uid)) as [existing|] eqn:Hm.
  - destruct (bool_decide (Circle.hostUid c = uid)
              && bool_decide (Circle.status c = Scheduled)); by_frames Hwf.
  - rewrite (bool_decide_false (Circle.hostUid c = uid)) by auto.
    cbn [andb]. unfold memberSet. rewrite bind_modify.
    by_frames Hwf. apply wellFormed_member_insert; done.
Qed.

Lemma wellFormed_createCircle now circleId dto userId w :
  wellFormed w ->
  circles w !! circleId = None ->
  wellFormed (createCircle now circleId dto userId w).2.
Proof.
  intros Hwf Hfresh. unfold createCircle.
  destruct (falsy userId); [exact Hwf|].
  rewrite !bind_gets. cbv beta.
  destruct (bool_decide _); [exact Hwf|].
  unfold circleSet, memberSet. rewrite bind_modify, bind_modify.
  by_frames Hwf.
  destruct Hwf as [Hinv Horph].
  assert (Hnomem : forall uid, members w !! (circleId, uid) = None).
  { intros uid. destruct (members w !! (circleId, uid)) eqn:Hm; [|done].
    destruct (Horph circleId uid) as [c Hc]; [by eexists|congruence]. }
  split.
  - intros id0 c0. cbn [circles members set_circles set_members].
    destruct (decide (circleId = id0)) as [<-|Hne].
    + rewrite lookup_insert_eq. intros [= <-]. cbn [Circle.hostUid]. split.
      * eexists. rewrite lookup_insert_eq. split; [reflexivity|]. done.
      * intros uid m.
        destruct (decide ((circleId, userId) = (circleId, uid))) as [Heq|Hn].
        -- by injection Heq.
        -- rewrite lookup_insert_ne by done. by rewrite Hnomem.
    + rewrite lookup_insert_ne by done. intros Hc0.
      destruct (Hinv id0 c0 Hc0) as [(m & Hmw & Hrole) Huniq]. split.
      * exists m. split; [|done]. rewrite lookup_insert_ne; [done|congruence].
      * intros uid m0. rewrite lookup_insert_ne by congruence. apply Huniq.
  - intros id0 uid0. cbn [circles members set_circles set_members].
    destruct (decide (circleId = id0)) as [<-|Hne].
    + rewrite lookup_insert_eq. eauto.
    + rewrite !lookup_insert_ne by congruence. apply Horph.
Qed.

Lemma wellFormed_deleteCircle id userId w :
  wellFormed w -> wellFormed (deleteCircle id userId w).2.
Proof.
  intros Hwf. unfold deleteCircle.
  destruct (falsy userId); [exact Hwf|].
  unfold circleGet. rewrite bind_gets. cbv beta.
  destruct (circles w !! id) as [c|] eqn:Hc; [|exact Hwf].
  destruct (negb (bool_decide (Circle.hostUid c = userId))); [exact Hwf|].
  destruct (negb (bool_decide (Circle.status c = Scheduled))); [exact Hwf|].
  unfold_async. cbn [snd circles members handRaises set_circles set_members
                     set_handRaises].
  destruct Hwf as [Hinv Horph]. split.
  - intros id0 c0. world_simpl.
    destruct (decide (id0 = id)) as [->|Hne].
    + by rewrite lookup_delete_eq.
    + rewrite lookup_delete_ne by done. intros Hc0.
      destruct (Hinv id0 c0 Hc0) as [(m & Hmw & Hrole) Huniq]. split.
      * exists m. by rewrite batchDelete_collection_lookup, decide_False.
      * intros uid m0.
        rewrite batchDelete_collection_lookup, decide_False by done.
        apply Huniq.
  - intros id0 uid0. world_simpl.
    rewrite batchDelete_collection_lookup.
    destruct (decide (id0 = id)) as [->|Hne].
    + by intros [? ?].
    + rewrite lookup_delete_ne by done. apply Horph.
Qed.

Lemma wellFormed_promoteMember now circleId requesterId dto w :
  wellFormed w ->
  (forall c, circles w !! circleId = Some c ->
     (newRole dto = Host <-> targetUserId dto = Circle.hostUid c)) ->
  wellFormed (promoteMember now circleId requesterId dto w).2.
Proof.
  intros Hwf Hadm. unfold promoteMember, circleGet, memberGet.
  rewrite !bind_gets. cbv beta.
  destruct (circles w !! circleId) as [c|] eqn:Hc; [|exact Hwf].
  destruct (members w !! (circleId, targetUserId dto)) as [m|] eqn:Hm;
    [|exact Hwf].
  destruct (negb (bool_decide (Circle.hostUid c = requesterId))); [exact Hwf|].
  rewrite (bind_memberUpdate_Some _ _ _ _ _ m Hm).
  by_frames Hwf.
  destruct Hwf as [Hinv Horph]. specialize (Hadm c eq_refl). split.
  - intros id0 c0 Hc0. cbn [circles members set_members] in *.
    destruct (Hinv id0 c0 Hc0) as [(m0 & Hmw & Hrole) Huniq]. split.
    + destruct (decide ((circleId, targetUserId dto) = (id0, Circle.hostUid c0)))
        as [Heq|Hne].
      * rewrite Heq, lookup_insert_eq. eexists. split; [reflexivity|].
        injection Heq as -> Ht. cbn [CircleMember.role].
        apply Hadm. rewrite Ht. congruence.
      * rewrite lookup_insert_ne by done. eauto.
    + intros uid m1.
      destruct (decide ((circleId, targetUserId dto) = (id0, uid))) as [Heq|Hne].
      * rewrite Heq, lookup_insert_eq. intros [= <-]. cbn [CircleMember.role].
        intros Hh. injection Heq as -> <-.
        rewrite (proj1 Hadm Hh). congruence.
      * rewrite lookup_insert_ne by done. apply Huniq.
  - intros id0 uid0. cbn [circles members set_members].
    destruct (decide ((circleId, targetUserId dto) = (id0, uid0))) as [Heq|Hne].
    + injection Heq as <- <-. intros _. by eexists.
    + rewrite lookup_insert_ne by done. apply Horph.
Qed.

Lemma wellFormed_exec now c w :
  wellFormed w -> admissible w c -> wellFormed (exec now c w).2.
Proof.
  intros Hwf Hadm. destruct c; cbn [exec snd].
  - by apply wellFormed_createCircle.
  - apply (sameRoles_wellFormed w); [apply frames_updateCircleStatus|done].
  - apply (sameRoles_wellFormed w); [apply frames_endCircle|done].
  - by apply wellFormed_deleteCircle.
  - by apply wellFormed_joinCircle.
  - by apply wellFormed_promoteMember.
  - apply (sameRoles_wellFormed w); [apply frames_leaveCircle|done].
  - apply (sameRoles_wellFormed w); [apply frames_handleEvent|done].
  - by apply wellFormed_fireTimers.
Qed.

Lemma wellFormed_empty e : wellFormed (emptyWorld e).
Proof.
  split; [intros id c Hc|intros id uid [m Hm]];
    unfold emptyWorld in *; world_simpl; by rewrite lookup_empty in *.
Qed.

Lemma wellFormed_run tr : forall w,
  wellFormed w -> admissibleTrace w tr -> wellFormed (run tr w).
Proof.
  induction tr as [|[now c] tr IH]; intros w Hwf Hadm; [done|].
  destruct Hadm as [Hc Htr]. cbn [run]. apply IH; [|done].
  by apply wellFormed_exec.
Qed.

(* As the claim states it, the invariant holds after every promoteMember.
   After alice created c1 and bob joined, the invariant holds; alice
   promoting bob to host returns and leaves two host members, and alice
   demoting herself to listener returns and leaves none. *)
Lemma promoteMember_breaks_one_host :
  let w := run aliceAndBob (emptyWorld env0) in
  let up := promoteMember 300 "c1" "alice"
              {| targetUserId := "bob"; newRole := Host |} w in
  let down := promoteMember 300 "c1" "alice"
                {| targetUserId := "alice"; newRole := Listener |} w in
  hostInvariant w /\
  is_Return up.1 = true /\ ~ hostInvariant up.2 /\
  is_Return down.1 = true /\ ~ hostInvariant down.2.
Proof.
  intros w up down. split; [|split; [|split; [|split]]].
  - apply (wellFormed_run aliceAndBob (emptyWorld env0));
      [apply wellFormed_empty|].
    cbn [admissibleTrace aliceAndBob admissible]. repeat split; done.
  - vm_compute. reflexivity.
  - intros Hinv.
    destruct (circles up.2 !! "c1") as [c|] eqn:Hc; [|by vm_compute in Hc].
    destruct (Hinv "c1" c Hc) as [_ Huniq].
    assert (Hh : Circle.hostUid c = "alice")
      by (vm_compute in Hc; by injection Hc as <-).
    destruct (members up.2 !! ("c1", "bob")) as [m|] eqn:Hm;
      [|by vm_compute in Hm].
    assert (Hr : CircleMember.role m = Host)
      by (vm_compute in Hm; by injection Hm as <-).
    specialize (Huniq "bob" m Hm Hr). rewrite Hh in Huniq. discriminate.
  - vm_compute. reflexivity.
  - intros Hinv.
    destruct (circles down.2 !! "c1") as [c|] eqn:Hc; [|by vm_compute in Hc].
    destruct (Hinv "c1" c Hc) as [(m & Hm & Hr) _].
    assert (Hh : Circle.hostUid c = "alice")
      by (vm_compute in Hc; by injection Hc as <-).
    rewrite Hh in Hm. vm_compute in Hm. injection Hm as <-. discriminate.
Qed.

(** C3: starting from the empty store, after every sequence of createCircle
    (with a fresh auto-generated id), joinCircle (a request role other than
    host, as JoinCircleDto admits listener only), leaveCircle and
    promoteMember calls that give the role host to the circle's hostUid and
    to nobody else (mixed with status updates, end, delete, webhook events
    and timer ticks), exactly one member document of every circle has role
    host and it is the one of the circle's hostUid; promoteMember run on such
    a store under the same condition on its role keeps the invariant. *)
Theorem one_host_per_circle e tr :
  admissibleTrace (emptyWorld e) tr ->
  let w := run tr (emptyWorld e) in
  hostInvariant w /\
  (forall now circleId requesterId dto,
     (forall c, circles w !! circleId = Some c ->
        (newRole dto = Host <-> targetUserId dto = Circle.hostUid c)) ->
     hostInvariant (promoteMember now circleId requesterId dto w).2).
Proof.
  intros Hadm w.
  assert (Hwf : wellFormed w)
    by (apply wellFormed_run; [apply wellFormed_empty|done]).
  split; [apply Hwf|].
  intros now circleId requesterId dto Hrole.
  by apply wellFormed_promoteMember.
Qed.

Lemma one_host_per_circle_witness :
  let w := run aliceAndBobSession (emptyWorld env0) in
  hostInvariant w /\
  CircleMember.role <$> members w !! ("c1", "alice") = Some Host /\
  CircleMember.role <$> members w !! ("c1", "bob") = Some Speaker.
Proof.
  intros w.
  assert (Hadm : admissibleTrace (emptyWorld env0) aliceAndBobSession).
  { cbn [admissibleTrace aliceAndBobSession aliceAndBob app admissible].
    repeat split; try done.
    - intros Ht. vm_compute in H. injection H as <-. discriminate Ht.
    - intros _. vm_compute in H. by injection H as <-. }
  destruct (one_host_per_circle env0 aliceAndBobSession Hadm) as [Hinv _].
  split; [exact Hinv|].
  split; vm_compute; reflexivity.
Defined.

(* ===================================================================== *)
(* Further properties of the services                                    *)
(* ===================================================================== *)

(* --------------------------------------------------------------------- *)
(* Ending and editing a circle                                           *)
(* --------------------------------------------------------------------- *)



(** X2: on a circle whose status is ended, updateCircleStatus, endCircle,
    deleteCircle and joinCircle throw for every caller and every argument
    and leave the whole store as it is: none of them reopens, removes or
    repopulates an ended circle. *)
Theorem ended_circle_is_closed now w id c userId s joinDto :
  circles w !! id = Some c ->
  Circle.status c = Ended ->
  let r1 := updateCircleStatus now id s userId w in
  let r2 := endCircle now id userId w in
  let r3 := deleteCircle id userId w in
  let r4 := joinCircle now id userId joinDto w in
  (is_Return r1.1 = false /\ r1.2 = w) /\
  (is_Return r2.1 = false /\ r2.2 = w) /\
  (is_Return r3.1 = false /\ r3.2 = w) /\
  (is_Return r4.1 = false /\ r4.2 = w) /\
  (userId <> "" ->
     r4.1 = Throw (Error "Cannot join circle with status: ended")).
Proof.
  intros Hc Hs r1 r2 r3 r4. subst r1 r2 r3 r4.
  unfold updateCircleStatus, endCircle, deleteCircle, joinCircle.
  destruct (falsy userId) eqn:Hf.
  { repeat split; try done. intros Hne. by rewrite (falsy_false _ Hne) in Hf. }
  unfold_async. rewrite Hc, includes_scheduled_live, Hs.
  rewrite (bool_decide_false (Ended = Scheduled)) by done.
  assert (Hv : isValidStatusTransition Ended s = false) by (by destruct s).
  rewrite Hv. cbn [negb].
  destruct (bool_decide (Circle.hostUid c = userId)); cbn [negb]; done.
Qed.

Lemma ended_circle_is_closed_witness :
  let w := mkWorld env0 {[ "c1" := circle0 "c1" "alice" Ended 0 ]} ∅ ∅ ∅ [] in
  (updateCircleStatus 5 "c1" Live "alice" w).2 = w /\
  (joinCircle 5 "c1" "bob" None w).1 =
    Throw (Error "Cannot join circle with status: ended").
Proof.
  intros w.
  pose proof (ended_circle_is_closed 5 w "c1" (circle0 "c1" "alice" Ended 0)
                "alice" Live None eq_refl eq_refl) as ((_ & H1) & _).
  pose proof (ended_circle_is_closed 5 w "c1" (circle0 "c1" "alice" Ended 0)
                "bob" Live None eq_refl eq_refl) as (_ & _ & _ & _ & H4).
  split; [exact H1|]. apply H4. discriminate.
Defined.



(** X4: for the host, getAvailableStatuses returns without writing, reports
    the current status, and lists exactly the statuses that
    updateCircleStatus accepts from the same store: a status is in
    availableStatuses iff updateCircleStatus to it returns.  A caller other
    than the host gets "Only host can view available statuses". *)
Theorem availableStatuses_are_the_accepted_ones now w id c s :
  circles w !! id = Some c ->
  Circle.hostUid c <> "" ->
  exists a,
    getAvailableStatuses id (Circle.hostUid c) w = (Return a, w) /\
    currentStatus a = Circle.status c /\
    (s ∈ availableStatuses a <->
     is_Return (updateCircleStatus now id s (Circle.hostUid c) w).1 = true) /\
    (forall userId, userId <> "" -> userId <> Circle.hostUid c ->
       getAvailableStatuses id userId w =
         (Throw (Error "Only host can view available statuses"), w)).
Proof.
  intros Hc Hu. eexists. split; [|split; [|split]].
  - unfold getAvailableStatuses. rewrite (falsy_false _ Hu). unfold_async.
    rewrite Hc. rewrite bool_decide_true by done. reflexivity.
  - reflexivity.
  - cbn [availableStatuses]. unfold updateCircleStatus.
    rewrite (falsy_false _ Hu). unfold_async. rewrite Hc.
    rewrite bool_decide_true by done. cbn [negb].
    unfold isValidStatusTransition, includes. rewrite orb_false_r.
    case_bool_decide as Hin; cbn [negb].
    + rewrite Hc. cbn. done.
    + cbn. done.
  - intros userId Hne Hnh. unfold getAvailableStatuses.
    rewrite (falsy_false _ Hne). unfold_async. rewrite Hc.
    rewrite bool_decide_false by done. done.
Qed.

Lemma availableStatuses_are_the_accepted_ones_witness :
  let w := mkWorld env0 {[ "c1" := circle0 "c1" "alice" Scheduled 0 ]} ∅ ∅ ∅ [] in
  exists a, getAvailableStatuses "c1" "alice" w = (Return a, w) /\
    availableStatuses a = [Live; Ended].
Proof.
  intros w.
  destruct (availableStatuses_are_the_accepted_ones 5 w "c1"
              (circle0 "c1" "alice" Scheduled 0) Live eq_refl
              ltac:(discriminate)) as (a & Ha & _).
  exists a. split; [exact Ha|].
  injection Ha as <-. reflexivity.
Defined.

(* --------------------------------------------------------------------- *)
(* Leaving and coming back                                               *)
(* --------------------------------------------------------------------- *)

Lemma leaveCircle_result now w id uid c m :
  circles w !! id = Some c -> uid <> "" -> uid <> Circle.hostUid c ->
  members w !! (id, uid) = Some m ->
  leaveCircle now id uid w =
  (Return tt,
   set_circles
     (<[id := Circle.set_participantCount
                (increment (-1) (Circle.participantCount c)) c]> (circles w))
     (set_handRaises (delete (id, uid) (handRaises w))
        (set_members
           (<[(id, uid) := CircleMember.set_status (Some Left)
                             (CircleMember.set_leftAt (Some now) m)]>
              (members w)) w))).
Proof.
  intros Hc Hu Hh Hm. unfold leaveCircle. rewrite (falsy_false _ Hu).
  unfold_async. rewrite Hc. rewrite bool_decide_false by done.
  rewrite Hm. async_simpl. by rewrite Hc.
Qed.

(** X5: leaveCircle by a user who is not the host and has a member document
    returns whatever the status of that document and of the circle: it sets
    the member's status to left and leftAt to now (all other member fields
    kept), deletes the user's hand raise and lowers participantCount by 1.
    There is no guard on the previous status, so a second leaveCircle lowers
    the count again: after two calls it is 2 below the start. *)
Theorem leaveCircle_marks_left_and_decrements now now' w id uid c m :
  circles w !! id = Some c ->
  uid <> "" -> uid <> Circle.hostUid c ->
  members w !! (id, uid) = Some m ->
  let r := leaveCircle now id uid w in
  let r' := leaveCircle now' id uid r.2 in
  r.1 = Return tt /\
  members r.2 =
    <[(id, uid) := CircleMember.set_status (Some Left)
                     (CircleMember.set_leftAt (Some now) m)]> (members w) /\
  handRaises r.2 = delete (id, uid) (handRaises w) /\
  circles r.2 =
    <[id := Circle.set_participantCount
              (increment (-1) (Circle.participantCount c)) c]> (circles w) /\
  or0 <$> (Circle.participantCount <$> circles r.2 !! id) =
    Some (or0 (Circle.participantCount c) - 1) /\
  r'.1 = Return tt /\
  or0 <$> (Circle.participantCount <$> circles r'.2 !! id) =
    Some (or0 (Circle.participantCount c) - 2).
Proof.
  intros Hc Hu Hh Hm r r'. subst r'. subst r.
  rewrite (leaveCircle_result now w id uid c m) by done. cbn [fst snd].
  erewrite (leaveCircle_result now');
    [|world_simpl; apply lookup_insert_eq|done|done
     |world_simpl; apply lookup_insert_eq].
  world_simpl. rewrite !lookup_insert_eq.
  repeat split; cbn; f_equal; destruct (Circle.participantCount c); cbn; lia.
Qed.

Lemma leaveCircle_marks_left_and_decrements_witness :
  let w := mkWorld env0 {[ "c1" := circle0 "c1" "alice" Live 0 ]}
             {[ ("c1", "bob") := member0 Listener (Some Active) ]}
             {[ ("c1", "bob") := {| raisedAt := 3 |} ]} ∅ [] in
  let r := leaveCircle 9 "c1" "bob" w in
  handRaises r.2 = delete ("c1", "bob") (handRaises w) /\
  or0 <$> (Circle.participantCount <$> circles r.2 !! "c1") = Some 0.
Proof.
  intros w r.
  pose proof (leaveCircle_marks_left_and_decrements 9 10 w "c1" "bob"
                (circle0 "c1" "alice" Live 0) (member0 Listener (Some Active))
                eq_refl ltac:(discriminate) ltac:(discriminate) eq_refl)
    as (_ & _ & Hh & _ & Hcount & _).
  split; [exact Hh|exact Hcount].
Defined.

(** X6: leaveCircle rejects the host with "Host cannot leave circle. Use
    end circle instead.", and for a user without a member document the
    update of the missing document rejects first: in both cases nothing is
    written, so no hand raise is deleted and participantCount is not
    lowered. *)
Theorem leaveCircle_rejections_write_nothing now w id c :
  circles w !! id = Some c ->
  (Circle.hostUid c <> "" ->
     leaveCircle now id (Circle.hostUid c) w =
       (Throw (Error "Host cannot leave circle. Use end circle instead."), w)) /\
  (forall uid, uid <> "" -> uid <> Circle.hostUid c ->
     members w !! (id, uid) = None ->
     leaveCircle now id uid w =
       (Throw (FirestoreNotFound (memberPath id uid)), w)).
Proof.
  intros Hc. split.
  - intros Hu. unfold leaveCircle. rewrite (falsy_false _ Hu). unfold_async.
    rewrite Hc. by rewrite bool_decide_true.
  - intros uid Hu Hh Hm. unfold leaveCircle. rewrite (falsy_false _ Hu).
    unfold_async. rewrite Hc. rewrite bool_decide_false by done.
    by rewrite Hm.
Qed.

Lemma leaveCircle_rejections_write_nothing_witness :
  let w := mkWorld env0 {[ "c1" := circle0 "c1" "alice" Live 0 ]} ∅
             {[ ("c1", "bob") := {| raisedAt := 3 |} ]} ∅ [] in
  leaveCircle 9 "c1" "bob" w =
    (Throw (FirestoreNotFound "circles/c1/members/bob"), w).
Proof.
  intros w.
  pose proof (leaveCircle_rejections_write_nothing 9 w "c1"
                (circle0 "c1" "alice" Live 0) eq_refl) as (_ & Hn).
  exact (Hn "bob" ltac:(discriminate) ltac:(discriminate) eq_refl).
Defined.

(** X7: leaving and joining again is a round trip on the circle document:
    for a user who is not the host, with a member document, on a scheduled
    or live circle whose participantCount is a number, leaveCircle followed
    by joinCircle leaves the circle document exactly as it was (the count is
    back), the hand raise stays deleted, and the member document is the old
    one with status active, leftAt cleared, rejoinCount one higher and
    lastRejoinAt and joinedAt at the instant of the join; the returned role
    is the stored one. *)
Theorem leave_then_join_restores_count t1 t2 w id uid c m n dto :
  circles w !! id = Some c ->
  Circle.status c <> Ended ->
  Circle.participantCount c = Some n ->
  uid <> "" -> id <> "" -> uid <> Circle.hostUid c ->
  configured (env w) ->
  members w !! (id, uid) = Some m ->
  let r1 := leaveCircle t1 id uid w in
  let r2 := joinCircle t2 id uid dto r1.2 in
  circles r2.2 = circles w /\
  handRaises r2.2 = delete (id, uid) (handRaises w) /\
  members r2.2 !! (id, uid) =
    Some (CircleMember.mk (CircleMember.role m) (CircleMember.isMuted m) t2
            (CircleMember.lastSpokeAt m) (Some Active) None
            (CircleMember.disconnectedAt m)
            (Some (or0 (CircleMember.rejoinCount m) + 1)) (Some t2)
            (CircleMember.totalSpeakTime m) (CircleMember.isHandRaised m)
            (CircleMember.handRaiseCount m) (CircleMember.roleChangeCount m)
            (CircleMember.lastRoleChangeAt m) (CircleMember.isMutedByHost m)
            (CircleMember.muteReason m) (CircleMember.kickCount m)
            (CircleMember.lastKickAt m) (CircleMember.kickReason m)) /\
  jr_role <$> (match r2.1 with Return a => Some a | Throw _ => None end) =
    Some (CircleMember.role m).
Proof.
  intros Hc Hs Hn Hu Hid Hh Hcfg Hm r1 r2. subst r2 r1.
  rewrite (leaveCircle_result t1 w id uid c m) by done. cbn [snd].
  unfold joinCircle. rewrite (falsy_false _ Hu). async_simpl.
  cbn [Circle.status Circle.hostUid Circle.set_participantCount].
  rewrite includes_scheduled_live.
  rewrite (bool_decide_false (Circle.status c = Ended)) by done.
  rewrite (bool_decide_false (Circle.hostUid c = uid)) by done.
  async_simpl.
  cbn [CircleMember.status CircleMember.set_status CircleMember.set_leftAt].
  rewrite bool_decide_true by done. async_simpl.
  rewrite mintToken_ok by done. async_simpl.
  rewrite !insert_insert_eq. split; [|split; [done|split; [|done]]].
  - apply insert_id. rewrite Hc. destruct c. cbn in *. subst.
    unfold Circle.set_participantCount. cbn. repeat f_equal. lia.
  - by destruct m.
Qed.

Lemma leave_then_join_restores_count_witness :
  let w := mkWorld env0 {[ "c1" := circle0 "c1" "alice" Live 0 ]}
             {[ ("c1", "bob") := member0 Speaker (Some Active) ]} ∅ ∅ [] in
  let r1 := leaveCircle 10 "c1" "bob" w in
  let r2 := joinCircle 20 "c1" "bob" None r1.2 in
  circles r2.2 = circles w /\
  jr_role <$> (match r2.1 with Return a => Some a | Throw _ => None end) =
    Some Speaker.
Proof.
  intros w r1 r2.
  pose proof (leave_then_join_restores_count 10 20 w "c1" "bob"
                (circle0 "c1" "alice" Live 0) (member0 Speaker (Some Active))
                1 None eq_refl ltac:(discriminate) eq_refl
                ltac:(discriminate) ltac:(discriminate) ltac:(discriminate)
                (conj eq_refl eq_refl) eq_refl)
    as (Hc & _ & _ & Hrole).
  split; [exact Hc|exact Hrole].
Defined.

(* --------------------------------------------------------------------- *)
(* Joining again, creating, deleting                                     *)
(* --------------------------------------------------------------------- *)

Lemma joinCircle_existing_result now w id uid c m dto :
  circles w !! id = Some c ->
  Circle.status c <> Ended ->
  uid <> "" -> id <> "" ->
  configured (env w) ->
  members w !! (id, uid) = Some m ->
  CircleMember.status m <> Some Left ->
  joinCircle now id uid dto w =
  (Return {| webrtcToken :=
               accessToken uid id
                 (if bool_decide (Circle.hostUid c = uid)
                     && bool_decide (Circle.status c = Scheduled)
                  then Host else CircleMember.role m)
                 (fullName_of (users w !! uid));
             jr_role :=
               if bool_decide (Circle.hostUid c = uid)
                  && bool_decide (Circle.status c = Scheduled)
               then Host else CircleMember.role m |}, w).
Proof.
  intros Hc Hs Hu Hid Hcfg Hm Hl. unfold joinCircle.
  rewrite (falsy_false _ Hu). unfold_async. rewrite Hc.
  rewrite includes_scheduled_live, (bool_decide_false _ Hs).
  async_simpl. rewrite Hm.
  destruct (bool_decide (Circle.hostUid c = uid)
            && bool_decide (Circle.status c = Scheduled)).
  - unfold_async. by rewrite mintToken_ok.
  - rewrite (bool_decide_false _ Hl). unfold_async. by rewrite mintToken_ok.
Qed.

(** X8: joinCircle by a user who already has a member document whose status
    is not left (active, disconnected or absent) writes nothing and returns
    a token: with the role host when the caller is the host of a scheduled
    circle, with the role stored in the document otherwise.  The role of the
    request is ignored. *)
Theorem joinCircle_existing_member_is_idempotent now w id uid c m dto :
  circles w !! id = Some c ->
  Circle.status c <> Ended ->
  uid <> "" -> id <> "" ->
  configured (env w) ->
  members w !! (id, uid) = Some m ->
  CircleMember.status m <> Some Left ->
  let role :=
    if bool_decide (Circle.hostUid c = uid)
       && bool_decide (Circle.status c = Scheduled)
    then Host else CircleMember.role m in
  joinCircle now id uid dto w =
  (Return {| webrtcToken :=
               accessToken uid id role (fullName_of (users w !! uid));
             jr_role := role |}, w).
Proof.
  intros Hc Hs Hu Hid Hcfg Hm Hl role. subst role.
  by apply joinCircle_existing_result.
Qed.

Lemma joinCircle_existing_member_is_idempotent_witness :
  let w := mkWorld env0 {[ "c1" := circle0 "c1" "alice" Live 0 ]}
             {[ ("c1", "bob") := member0 Speaker None ]} ∅ ∅ [] in
  let r := joinCircle 5 "c1" "bob" (Some {| join_role := Some Listener |}) w in
  r.2 = w /\
  jr_role <$> (match r.1 with Return a => Some a | Throw _ => None end) =
    Some Speaker.
Proof.
  intros w r.
  pose proof (joinCircle_existing_member_is_idempotent 5 w "c1" "bob"
                (circle0 "c1" "alice" Live 0) (member0 Speaker None)
                (Some {| join_role := Some Listener |}) eq_refl
                ltac:(discriminate) ltac:(discriminate) ltac:(discriminate)
                (conj eq_refl eq_refl) eq_refl ltac:(discriminate)) as Hr.
  split.
  - exact (f_equal snd Hr).
  - exact (f_equal (fun x => jr_role <$>
             match x.1 with Return a => Some a | Throw _ => None end) Hr).
Defined.

Lemma createCircle_result now w circleId dto userId :
  userId <> "" -> circleId <> "" -> configured (env w) ->
  (size (circlesCreatedSince userId (startOfDay (tzOffset (env w)) now)
           (circles w)) < 5)%nat ->
  let circleData :=
    Circle.mk circleId (dto_title dto) (or_null (dto_description dto))
      (dto_category dto) (dto_privacy dto) userId (or_null (dto_coverUrl dto))
      (default now (dto_startAt dto))
      (match dto_startAt dto with
       | Some t => if bool_decide (now < t) then Scheduled else Live
       | None => Live
       end)
      (default 8 (dto_maxSpeakers dto)) now
      (Some 1) None None None (default false (dto_isReplay dto))
      (Some 0) (Some 0) (Some 0) in
  createCircle now circleId dto userId w =
  (Return {| cr_circleId := circleId;
             cr_sfuToken := accessToken userId circleId Host
                              (fullName_of (users w !! userId));
             cr_circle := circleData |},
   set_members (<[(circleId, userId) := newMember Host false now (Some 0) None]>
                  (members w))
     (set_circles (<[circleId := circleData]> (circles w)) w)).
Proof.
  intros Hu Hid Hcfg Hlt circleData. subst circleData. unfold createCircle.
  rewrite (falsy_false _ Hu). unfold_async.
  rewrite bool_decide_false by lia. async_simpl.
  by rewrite mintToken_ok.
Qed.

(** X9: when createCircle returns, the new circle is scheduled iff a
    startAt after now was given and live otherwise (no startAt, or one not
    after now), its startAt defaults to now, and the creator is seeded as
    the host member.  A joinCircle by the creator afterwards, whatever the
    initial status, returns a host token and writes nothing: the count
    seeded to 1 is not raised. *)
Theorem createCircle_then_host_join now now' w circleId dto userId joinDto :
  userId <> "" -> circleId <> "" -> configured (env w) ->
  (size (circlesCreatedSince userId (startOfDay (tzOffset (env w)) now)
           (circles w)) < 5)%nat ->
  let r := createCircle now circleId dto userId w in
  let r' := joinCircle now' circleId userId joinDto r.2 in
  (exists c, circles r.2 !! circleId = Some c /\
     (Circle.status c = Scheduled <->
        exists t, dto_startAt dto = Some t /\ now < t) /\
     (Circle.status c = Live <->
        dto_startAt dto = None \/ exists t, dto_startAt dto = Some t /\ t <= now) /\
     Circle.startAt c = default now (dto_startAt dto) /\
     Circle.participantCount c = Some 1) /\
  r'.2 = r.2 /\
  jr_role <$> (match r'.1 with Return a => Some a | Throw _ => None end) =
    Some Host.
Proof.
  intros Hu Hid Hcfg Hlt r r'. subst r' r.
  rewrite createCircle_result by done. cbn [snd]. split.
  - world_simpl. rewrite lookup_insert_eq. eexists. split; [reflexivity|].
    cbn [Circle.status Circle.startAt Circle.participantCount].
    destruct (dto_startAt dto) as [t|]; [case_bool_decide|].
    + repeat split; try done; eauto.
      intros [?|(t' & [= <-] & ?)]; [done|lia].
    + repeat split; try done.
      * intros (t' & [= <-] & ?). lia.
      * intros _. right. exists t. split; [done|lia].
    + repeat split; try done; eauto. intros (t' & ? & _). done.
  - erewrite joinCircle_existing_result;
      [| world_simpl; apply lookup_insert_eq | | done | done | done
       | world_simpl; apply lookup_insert_eq | done ].
    + split; [done|]. cbn [fst snd Circle.hostUid Circle.status].
      rewrite bool_decide_true by done. cbn [andb].
      by case_bool_decide.
    + cbn [Circle.status]. destruct (dto_startAt dto); [case_bool_decide|]; done.
Qed.

Lemma createCircle_then_host_join_witness :
  let r := createCircle 100 "k1" laterDto "alice" (emptyWorld env0) in
  let r' := joinCircle 200 "k1" "alice" None r.2 in
  Circle.status <$> circles r.2 !! "k1" = Some Scheduled /\ r'.2 = r.2.
Proof.
  intros r r'.
  pose proof (createCircle_then_host_join 100 200 (emptyWorld env0) "k1"
                laterDto "alice" None ltac:(discriminate) ltac:(discriminate)
                (conj eq_refl eq_refl) ltac:(vm_compute; lia))
    as ((c & Hc & Hs & _) & Hsame & _).
  split; [|exact Hsame].
  change (Circle.status <$> circles r.2 !! "k1" = Some Scheduled).
  subst r. cbv zeta in Hc. rewrite Hc. cbn. f_equal. apply Hs.
  exists 1000000000. split; [reflexivity|lia].
Defined.

Lemma batchDelete_collection_absent {V} (m : gmap (string * string) V) id :
  (forall uid, m !! (id, uid) = None) ->
  batchDelete (collection id m) m = m.
Proof.
  intros Hnone. apply map_eq. intros [id' uid].
  rewrite batchDelete_collection_lookup. case_decide; [|done].
  subst. by rewrite Hnone.
Qed.

(** X10: creating a scheduled circle and hard-deleting it is a round trip
    on the store: when no document exists under the new id (no circle,
    member or hand raise), createCircle with a startAt after now followed by
    deleteCircle by the creator returns the store exactly as it was.  A
    circle created live (no startAt, or one not after now) cannot be deleted:
    deleteCircle throws "Only scheduled circles can be deleted". *)
Theorem create_then_delete_restores_store now w circleId dto userId :
  userId <> "" -> circleId <> "" -> configured (env w) ->
  (size (circlesCreatedSince userId (startOfDay (tzOffset (env w)) now)
           (circles w)) < 5)%nat ->
  circles w !! circleId = None ->
  (forall uid, members w !! (circleId, uid) = None) ->
  (forall uid, handRaises w !! (circleId, uid) = None) ->
  let r := createCircle now circleId dto userId w in
  let r' := deleteCircle circleId userId r.2 in
  ((exists t, dto_startAt dto = Some t /\ now < t) ->
     r'.1 = Return tt /\ r'.2 = w) /\
  ((dto_startAt dto = None \/ exists t, dto_startAt dto = Some t /\ t <= now) ->
     r' = (Throw (Error "Only scheduled circles can be deleted"), r.2)).
Proof.
  intros Hu Hid Hcfg Hlt Hfresh Hmem Hhr r r'. subst r' r.
  rewrite createCircle_result by done. cbn [snd].
  unfold deleteCircle. rewrite (falsy_false _ Hu). async_simpl.
  cbn [Circle.hostUid Circle.status]. rewrite bool_decide_true by done.
  cbn [negb]. split.
  - intros (t & Ht & Hnow). rewrite Ht.
    rewrite (bool_decide_true (now < t)) by done.
    rewrite bool_decide_true by done. async_simpl. split; [done|].
    rewrite delete_insert_eq, (delete_id _ _ Hfresh).
    rewrite (batchDelete_collection_absent (handRaises w)) by done.
    assert (Hm' : batchDelete
              (collection circleId
                 (<[(circleId, userId) := newMember Host false now (Some 0) None]>
                    (members w)))
              (<[(circleId, userId) := newMember Host false now (Some 0) None]>
                 (members w)) = members w).
    { apply map_eq. intros [id' uid]. rewrite batchDelete_collection_lookup.
      case_decide as Hd; [subst; by rewrite Hmem|].
      rewrite lookup_insert_ne; [done|congruence]. }
    rewrite Hm'. by destruct w.
  - intros Hlive.
    assert (Hst : match dto_startAt dto with
                  | Some t => if bool_decide (now < t) then Scheduled else Live
                  | None => Live
                  end = Live).
    { destruct Hlive as [->|(t & -> & Hle)]; [done|].
      by rewrite bool_decide_false by lia. }
    rewrite Hst. rewrite bool_decide_false by done. done.
Qed.

Lemma create_then_delete_restores_store_witness :
  let w := emptyWorld env0 in
  let r := createCircle 100 "k1" laterDto "alice" w in
  (deleteCircle "k1" "alice" r.2).2 = w.
Proof.
  intros w r.
  pose proof (create_then_delete_restores_store 100 w "k1" laterDto "alice"
                ltac:(discriminate) ltac:(discriminate) (conj eq_refl eq_refl)
                ltac:(vm_compute; lia) eq_refl (fun _ => eq_refl)
                (fun _ => eq_refl)) as (Hok & _).
  apply Hok. exists 1000000000. split; [reflexivity|lia].
Defined.

(* --------------------------------------------------------------------- *)
(* Promotion and tokens                                                  *)
(* --------------------------------------------------------------------- *)

(** X11: promoteMember called by the host on an existing member returns
    whatever the circle's status (no status test, no maxSpeakers test): it
    overwrites the member's role, stamps lastRoleChangeAt and raises the
    member's roleChangeCount by 1, keeps every other member field and every
    circle document, and returns a token that may publish iff the new role is
    host or speaker.  A missing target gives "Target member not found" for
    every requester, also one who is not the host; a requester other than
    the host gets "forbidden: only host can promote/demote" on an existing
    target; both write nothing. *)
Theorem promoteMember_rewrites_role_only now w circleId c dto :
  circles w !! circleId = Some c ->
  let target := targetUserId dto in
  (forall m, members w !! (circleId, target) = Some m ->
     target <> "" -> circleId <> "" -> configured (env w) ->
     let r := promoteMember now circleId (Circle.hostUid c) dto w in
     let token := accessToken target circleId (newRole dto)
                    (fullName_of (users w !! target)) in
     r.1 = Return {| webrtcToken := token; jr_role := newRole dto |} /\
     canPublish token = negb (bool_decide (newRole dto = Listener)) /\
     members r.2 =
       <[(circleId, target) :=
           CircleMember.mk (newRole dto) (CircleMember.isMuted m)
             (CircleMember.joinedAt m) (CircleMember.lastSpokeAt m)
             (CircleMember.status m) (CircleMember.leftAt m)
             (CircleMember.disconnectedAt m) (CircleMember.rejoinCount m)
             (CircleMember.lastRejoinAt m) (CircleMember.totalSpeakTime m)
             (CircleMember.isHandRaised m) (CircleMember.handRaiseCount m)
             (Some (or0 (CircleMember.roleChangeCount m) + 1)) (Some now)
             (CircleMember.isMutedByHost m) (CircleMember.muteReason m)
             (CircleMember.kickCount m) (CircleMember.lastKickAt m)
             (CircleMember.kickReason m)]> (members w) /\
     circles r.2 = circles w /\ handRaises r.2 = handRaises w) /\
  (forall requesterId, members w !! (circleId, target) = None ->
     promoteMember now circleId requesterId dto w =
       (Throw (Error "Target member not found"), w)) /\
  (forall requesterId, is_Some (members w !! (circleId, target)) ->
     requesterId <> Circle.hostUid c ->
     promoteMember now circleId requesterId dto w =
       (Throw (Error "forbidden: only host can promote/demote"), w)).
Proof.
  intros Hc target. subst target. split; [|split].
  - intros m Hm Ht Hid Hcfg r token. subst r token.
    unfold promoteMember. unfold_async. rewrite Hc, Hm.
    rewrite bool_decide_true by done. async_simpl. rewrite Hm. async_simpl.
    rewrite mintToken_ok by done. cbn [fst snd]. world_simpl.
    split; [done|]. split; [by destruct (newRole dto)|].
    split; [|done]. f_equal. destruct m. cbn. f_equal.
    destruct roleChangeCount; cbn; f_equal; lia.
  - intros requesterId Hm. unfold promoteMember. unfold_async.
    by rewrite Hc, Hm.
  - intros requesterId [m Hm] Hne. unfold promoteMember. unfold_async.
    rewrite Hc, Hm. by rewrite bool_decide_false.
Qed.

Lemma promoteMember_rewrites_role_only_witness :
  let w := mkWorld env0 {[ "c1" := endedCircle ]}
             {[ ("c1", "bob") := member0 Listener (Some Active) ]} ∅ ∅ [] in
  let r := promoteMember 60 "c1" "alice"
             {| targetUserId := "bob"; newRole := Speaker |} w in
  CircleMember.role <$> members r.2 !! ("c1", "bob") = Some Speaker /\
  promoteMember 60 "c1" "bob" {| targetUserId := "carol"; newRole := Host |} w =
    (Throw (Error "Target member not found"), w).
Proof.
  intros w r.
  pose proof (promoteMember_rewrites_role_only 60 w "c1" endedCircle
                {| targetUserId := "bob"; newRole := Speaker |} eq_refl)
    as (Hok & _ & _).
  pose proof (promoteMember_rewrites_role_only 60 w "c1" endedCircle
                {| targetUserId := "carol"; newRole := Host |} eq_refl)
    as (_ & Hmiss & _).
  destruct (Hok (member0 Listener (Some Active)) eq_refl ltac:(discriminate)
              ltac:(discriminate) (conj eq_refl eq_refl))
    as (_ & _ & Hmem & _).
  split; [|exact (Hmiss "bob" eq_refl)].
  exact (f_equal (fun ms : gmap (string * string) CircleMember.t =>
                    CircleMember.role <$> ms !! ("c1", "bob")) Hmem).
Defined.

(** X12: mintToken returns iff both LiveKit credentials are set and the
    user id and the room are non-empty, and never writes to the store.  The
    token it returns carries the user id as identity, the full name (the
    user id when the name is absent or empty) as name, and the grants of the
    role: join, subscribe and publish-data for every role, publish for host
    and speaker only, room administration and room creation for the host
    only.  Every failure is rethrown as "Token generation failed: ..." . *)
Theorem mintToken_grants_by_role w userId room role fn :
  let r := mintToken userId room role fn w in
  r.2 = w /\
  (is_Return r.1 = true <-> configured (env w) /\ userId <> "" /\ room <> "") /\
  (forall t, r.1 = Return t ->
     identity t = userId /\
     name t = match fn with
              | Some n => if bool_decide (n = "") then userId else n
              | None => userId
              end /\
     roomJoin t = true /\ canSubscribe t = true /\ canPublishData t = true /\
     (canPublish t = true <-> role = Host \/ role = Speaker) /\
     (roomAdmin t = true <-> role = Host) /\
     (roomCreate t = true <-> role = Host)) /\
  (forall e, r.1 = Throw e ->
     e = Error "Token generation failed: LiveKit API credentials not configured"
     \/ e = Error ("Token generation failed: "
                   +:+ "Invalid parameters: userId, room, and role are required")).
Proof.
  intros r. subst r. split; [apply mintToken_world|].
  unfold mintToken, mintToken_body, configured. unfold_async.
  destruct (unset (LIVEKIT_API_KEY (env w))) eqn:Hk;
    [cbn; split; [split; [done|intros [[? ?] ?]; done]|split; [done|]];
     intros e [= <-]; by left|].
  destruct (unset (LIVEKIT_API_SECRET (env w))) eqn:Hs;
    [cbn; split; [split; [done|intros [[? ?] ?]; done]|split; [done|]];
     intros e [= <-]; by left|].
  cbn [orb].
  destruct (falsy userId) eqn:Hu;
    [apply falsy_true_iff in Hu; cbn;
     split; [split; [done|intros (_ & ? & _); done]|split; [done|]];
     intros e [= <-]; by right|].
  destruct (falsy room) eqn:Hr;
    [apply falsy_true_iff in Hr; cbn;
     split; [split; [done|intros (_ & _ & ?); done]|split; [done|]];
     intros e [= <-]; by right|].
  cbn [orb fst is_Return].
  assert (userId <> "") by (intros ->; done).
  assert (room <> "") by (intros ->; done).
  split; [done|]. split; [|done].
  intros t [= <-]. cbn. unfold or_else, falsy.
  repeat split; try done; destruct role; vm_compute; intuition congruence.
Qed.

Lemma mintToken_grants_by_role_witness :
  exists t, (mintToken "bob" "c1" Speaker (Some "") liveWorld).1 = Return t /\
    name t = "bob" /\ canPublish t = true /\ roomAdmin t <> true.
Proof.
  pose proof (mintToken_grants_by_role liveWorld "bob" "c1" Speaker (Some ""))
    as (_ & _ & Htok & _).
  eexists. split; [reflexivity|].
  destruct (Htok _ eq_refl) as (_ & Hname & _ & _ & _ & Hpub & Hadm & _).
  split; [exact Hname|]. split.
  - apply Hpub. by right.
  - intros Ht. apply Hadm in Ht. discriminate Ht.
Defined.


(* --------------------------------------------------------------------- *)
(* Webhook events: participant_left                                      *)
(* --------------------------------------------------------------------- *)

Lemma handleEvent_participantLeft now room uid w :
  room <> "" -> uid <> "" -> is_Some (users w !! uid) ->
  handleEvent now (participantLeft room uid) w =
  match circles w !! room with
  | Some circle =>
      if bool_decide (Circle.hostUid circle = uid) then
        handleHostDisconnection now room uid w
      else (decrementParticipantCount room uid ;; removeHandRaise room uid) w
  | None => (decrementParticipantCount room uid ;; removeHandRaise room uid) w
  end.
Proof.
  intros Hr Hu Hk. unfold handleEvent. rewrite rethrow_id.
  cbn [event participantLeft].
  change (bool_decide ("participant_left" = "participant_joined")) with false.
  change (bool_decide ("participant_left" = "participant_left")) with true.
  cbv iota. unfold handleParticipantLeft.
  cbn [room_name participant_identity track participantLeft].
  rewrite (falsy_false _ Hr), (falsy_false _ Hu). cbn [orb].
  rewrite rethrow_id. unfold bind at 1. unfold userExists, gets.
  rewrite (userExists_true _ _ Hk). cbn [negb].
  unfold bind at 1. unfold circleGet, gets.
  destruct (circles w !! room) as [circle|]; [|done].
  by destruct (bool_decide (Circle.hostUid circle = uid)).
Qed.

Lemma participantLeft_result now w room uid c :
  room <> "" -> uid <> "" -> is_Some (users w !! uid) ->
  circles w !! room = Some c ->
  Circle.hostUid c <> uid ->
  handleEvent now (participantLeft room uid) w =
  (Return tt,
   set_handRaises (delete (room, uid) (handRaises w))
     (if match members w !! (room, uid) with
         | Some m => bool_decide (CircleMember.status m = Some Active)
         | None => false
         end
      then set_circles
             (<[room := Circle.set_participantCount
                          (increment (-1) (Circle.participantCount c)) c]>
                (circles w)) w
      else w)).
Proof.
  intros Hr Hu Hk Hc Hh.
  rewrite handleEvent_participantLeft by done. rewrite Hc.
  rewrite bool_decide_false by done.
  unfold decrementParticipantCount, removeHandRaise. unfold_async.
  destruct (members w !! (room, uid)) as [m|]; [|done].
  case_bool_decide; unfold_async; [|done]. by rewrite Hc.
Qed.

(** X13: a participant_left event for a known user who is not the host of
    the circle returns, never touches the member document (its status stays
    what it was) and deletes the user's hand raise; participantCount is
    lowered by 1 iff a member document exists with status active, and is
    untouched for a missing document or any other status (left,
    disconnected, absent). *)
Theorem participant_left_decrements_active_only now w room uid c :
  room <> "" -> uid <> "" -> is_Some (users w !! uid) ->
  circles w !! room = Some c ->
  Circle.hostUid c <> uid ->
  let r := handleEvent now (participantLeft room uid) w in
  let active := exists m, members w !! (room, uid) = Some m /\
                          CircleMember.status m = Some Active in
  r.1 = Return tt /\
  members r.2 = members w /\
  handRaises r.2 = delete (room, uid) (handRaises w) /\
  timers r.2 = timers w /\
  (active ->
     circles r.2 =
       <[room := Circle.set_participantCount
                   (increment (-1) (Circle.participantCount c)) c]> (circles w)) /\
  (~ active -> circles r.2 = circles w).
Proof.
  intros Hr Hu Hk Hc Hh r active. subst r active.
  rewrite handleEvent_participantLeft by done. rewrite Hc.
  rewrite bool_decide_false by done.
  unfold decrementParticipantCount, removeHandRaise. unfold_async.
  destruct (members w !! (room, uid)) as [m|] eqn:Hm.
  - case_bool_decide as Hs; unfold_async.
    + rewrite Hc. world_simpl. repeat split; try done.
      intros Hn. destruct Hn. eauto.
    + world_simpl. repeat split; try done.
      intros (m' & [= <-] & Hs'). done.
  - world_simpl. repeat split; try done. intros (m' & ? & _). done.
Qed.

Lemma participant_left_decrements_active_only_witness :
  let w := mkWorld env0 {[ "c1" := circle0 "c1" "alice" Live 0 ]}
             {[ ("c1", "bob") := member0 Listener (Some Left) ]}
             {[ ("c1", "bob") := {| raisedAt := 3 |} ]}
             {[ "bob" := {| fullName := Some "Bob" |} ]} [] in
  let r := handleEvent 9 (participantLeft "c1" "bob") w in
  circles r.2 = circles w /\ handRaises r.2 = delete ("c1", "bob") (handRaises w).
Proof.
  intros w r.
  pose proof (participant_left_decrements_active_only 9 w "c1" "bob"
                (circle0 "c1" "alice" Live 0) ltac:(discriminate)
                ltac:(discriminate) (ex_intro _ _ eq_refl) eq_refl
                ltac:(discriminate)) as (_ & _ & Hh & _ & _ & Hno).
  split; [|exact Hh]. apply Hno.
  intros (m & Hm & Hs). vm_compute in Hm. injection Hm as <-. discriminate Hs.
Defined.

(** X14: a participant_left event for the host of the circle takes the
    disconnection path only.  With a host member document it sets that
    document's status to disconnected and disconnectedAt to now, stamps the
    circle's hostDisconnectedAt, and appends one pending check due at now
    plus 300000 ms; participantCount and the hand raises are untouched.
    Without a host member document the update rejects first: the event
    throws and nothing is stamped or armed. *)
Theorem participant_left_of_host_arms_check now w room c :
  room <> "" -> Circle.hostUid c <> "" ->
  is_Some (users w !! Circle.hostUid c) ->
  circles w !! room = Some c ->
  let host := Circle.hostUid c in
  let r := handleEvent now (participantLeft room host) w in
  (forall m, members w !! (room, host) = Some m ->
     r.1 = Return tt /\
     members r.2 =
       <[(room, host) := CircleMember.set_disconnectedAt (Some now)
                           (CircleMember.set_status (Some Disconnected) m)]>
         (members w) /\
     circles r.2 =
       <[room := Circle.set_hostDisconnectedAt (Some now) c]> (circles w) /\
     Circle.participantCount <$> circles r.2 !! room =
       Some (Circle.participantCount c) /\
     handRaises r.2 = handRaises w /\
     timers r.2 = (timers w ++ [ {| fireAt := now + 300000;
                                    timerCircleId := room;
                                    timerHostId := host |} ])%list) /\
  (members w !! (room, host) = None ->
     r = (Throw (FirestoreNotFound (memberPath room host)), w)).
Proof.
  intros Hr Hu Hk Hc host r. subst r host.
  rewrite handleEvent_participantLeft by done. rewrite Hc.
  rewrite bool_decide_true by done.
  unfold handleHostDisconnection. unfold_async. split.
  - intros m Hm. rewrite Hm. async_simpl. rewrite Hc. async_simpl.
    repeat split; done.
  - intros Hm. by rewrite Hm.
Qed.

Lemma participant_left_of_host_arms_check_witness :
  let r := handleEvent 1000 (participantLeft "c1" "alice") liveWorld in
  timers r.2 = [ {| fireAt := 301000; timerCircleId := "c1";
                    timerHostId := "alice" |} ] /\
  handRaises r.2 = handRaises liveWorld.
Proof.
  intros r.
  pose proof (participant_left_of_host_arms_check 1000 liveWorld "c1"
                (circle0 "c1" "alice" Live 0) ltac:(discriminate)
                ltac:(discriminate) (ex_intro _ _ eq_refl) eq_refl)
    as (Hok & _).
  destruct (Hok (member0 Host (Some Active)) eq_refl)
    as (_ & _ & _ & _ & Hh & Ht).
  split; [exact Ht|exact Hh].
Defined.

(** X15: the leaveCircle call and the participant_left event of the same
    departure do not commute.  For an active member who is not the host, on
    a circle with a numeric participantCount n: leaveCircle first and the
    event second lowers the count once (the event sees status left) and gives
    n - 1; the event first and leaveCircle second lowers it twice and gives
    n - 2, since the event does not mark the member. *)
Theorem leave_and_participant_left_order now now' w id uid c m n :
  id <> "" -> uid <> "" -> is_Some (users w !! uid) ->
  circles w !! id = Some c ->
  uid <> Circle.hostUid c ->
  Circle.participantCount c = Some n ->
  members w !! (id, uid) = Some m ->
  CircleMember.status m = Some Active ->
  let callFirst :=
    (handleEvent now' (participantLeft id uid) (leaveCircle now id uid w).2).2 in
  let eventFirst :=
    (leaveCircle now' id uid (handleEvent now (participantLeft id uid) w).2).2 in
  Circle.participantCount <$> circles callFirst !! id = Some (Some (n - 1)) /\
  Circle.participantCount <$> circles eventFirst !! id = Some (Some (n - 2)) /\
  CircleMember.status <$> members callFirst !! (id, uid) = Some (Some Left) /\
  CircleMember.status <$> members eventFirst !! (id, uid) = Some (Some Left).
Proof.
  intros Hid Hu Hk Hc Hh Hn Hm Hs callFirst eventFirst.
  subst callFirst eventFirst.
  rewrite (leaveCircle_result now w id uid c m) by done. cbn [snd].
  erewrite (participantLeft_result now');
    [|done|done|done|world_simpl; apply lookup_insert_eq|cbn; congruence].
  world_simpl. rewrite lookup_insert_eq.
  cbn [CircleMember.status CircleMember.set_status CircleMember.set_leftAt].
  rewrite (bool_decide_false (Some Left = Some Active)) by done.
  rewrite (participantLeft_result now w id uid c) by (try done; congruence).
  rewrite Hm, Hs. rewrite bool_decide_true by done.
  erewrite (leaveCircle_result now');
    [|world_simpl; apply lookup_insert_eq|done|done|world_simpl; exact Hm].
  world_simpl. rewrite !lookup_insert_eq. rewrite Hn. cbn.
  repeat split; repeat f_equal; lia.
Qed.

Lemma leave_and_participant_left_order_witness :
  let w := mkWorld env0 {[ "c1" := circle0 "c1" "alice" Live 0 ]}
             {[ ("c1", "bob") := member0 Listener (Some Active) ]} ∅
             {[ "bob" := {| fullName := Some "Bob" |} ]} [] in
  Circle.participantCount <$>
    circles (handleEvent 6 (participantLeft "c1" "bob")
               (leaveCircle 5 "c1" "bob" w).2).2 !! "c1" = Some (Some 0) /\
  Circle.participantCount <$>
    circles (leaveCircle 6 "c1" "bob"
               (handleEvent 5 (participantLeft "c1" "bob") w).2).2 !! "c1"
  = Some (Some (-1)).
Proof.
  intros w.
  pose proof (leave_and_participant_left_order 5 6 w "c1" "bob"
                (circle0 "c1" "alice" Live 0) (member0 Listener (Some Active))
                1 ltac:(discriminate) ltac:(discriminate)
                (ex_intro _ _ eq_refl) eq_refl ltac:(discriminate) eq_refl
                eq_refl eq_refl) as (H1 & H2 & _).
  split; [exact H1|exact H2].
Defined.

(* --------------------------------------------------------------------- *)
(* Webhook events: counting joins, ignored events, speaking intervals    *)
(* --------------------------------------------------------------------- *)

Lemma joinCircle_new_member_result now w id uid c dto :
  circles w !! id = Some c ->
  Circle.status c <> Ended ->
  uid <> "" -> id <> "" -> uid <> Circle.hostUid c ->
  configured (env w) ->
  members w !! (id, uid) = None ->
  let role := default Listener (dto ≫= join_role) in
  joinCircle now id uid dto w =
  (Return {| webrtcToken :=
               accessToken uid id role (fullName_of (users w !! uid));
             jr_role := role |},
   set_circles
     (<[id := Circle.set_participantCount
                (increment 1 (Circle.participantCount c)) c]> (circles w))
     (set_members
        (<[(id, uid) := newMember role (is_listener role) now (Some 0)
                          (Some false)]> (members w)) w)).
Proof.
  intros Hc Hs Hu Hid Hh Hcfg Hm role. subst role. unfold joinCircle.
  rewrite (falsy_false _ Hu). unfold_async. rewrite Hc.
  rewrite includes_scheduled_live, (bool_decide_false _ Hs).
  rewrite (bool_decide_false (Circle.hostUid c = uid)) by done.
  async_simpl. rewrite Hm. async_simpl. rewrite Hc. async_simpl.
  by rewrite mintToken_ok.
Qed.

(** X16: the joinCircle call and the participant_joined event of the same
    arrival do not commute.  For a known user who is not the host and has no
    member document, on a scheduled or live circle with a numeric
    participantCount n: joinCircle first and the event second counts the
    arrival once (the event sees an active member) and gives n + 1; the event
    first and joinCircle second counts it twice and gives n + 2. *)
Theorem join_and_participant_joined_order now now' w id uid c n dto :
  circles w !! id = Some c ->
  Circle.status c <> Ended ->
  Circle.participantCount c = Some n ->
  uid <> "" -> id <> "" -> uid <> Circle.hostUid c ->
  configured (env w) ->
  is_Some (users w !! uid) ->
  members w !! (id, uid) = None ->
  let callFirst :=
    (handleEvent now' (participantJoined id uid)
       (joinCircle now id uid dto w).2).2 in
  let eventFirst :=
    (joinCircle now' id uid dto
       (handleEvent now (participantJoined id uid) w).2).2 in
  Circle.participantCount <$> circles callFirst !! id = Some (Some (n + 1)) /\
  Circle.participantCount <$> circles eventFirst !! id = Some (Some (n + 2)) /\
  is_Some (members callFirst !! (id, uid)) /\
  is_Some (members eventFirst !! (id, uid)).
Proof.
  intros Hc Hs Hn Hu Hid Hh Hcfg Hk Hm callFirst eventFirst.
  subst callFirst eventFirst.
  rewrite (joinCircle_new_member_result now w id uid c dto) by done.
  cbn [snd].
  rewrite !handleEvent_participantJoined by done.
  unfold incrementParticipantCount. async_simpl.
  cbn [CircleMember.status newMember]. rewrite bool_decide_true by done.
  async_simpl. rewrite Hm. async_simpl. rewrite Hc. async_simpl.
  erewrite joinCircle_new_member_result;
    [|world_simpl; apply lookup_insert_eq|done|done|done|done|done|done].
  world_simpl. rewrite !lookup_insert_eq. rewrite Hn. cbn.
  repeat split; eauto; do 2 f_equal; lia.
Qed.

Lemma join_and_participant_joined_order_witness :
  let w := mkWorld env0 {[ "c1" := circle0 "c1" "alice" Live 0 ]} ∅ ∅
             {[ "bob" := {| fullName := Some "Bob" |} ]} [] in
  Circle.participantCount <$>
    circles (handleEvent 6 (participantJoined "c1" "bob")
               (joinCircle 5 "c1" "bob" None w).2).2 !! "c1" = Some (Some 2) /\
  Circle.participantCount <$>
    circles (joinCircle 6 "c1" "bob" None
               (handleEvent 5 (participantJoined "c1" "bob") w).2).2 !! "c1"
  = Some (Some 3).
Proof.
  intros w.
  pose proof (join_and_participant_joined_order 5 6 w "c1" "bob"
                (circle0 "c1" "alice" Live 0) 1 None eq_refl
                ltac:(discriminate) eq_refl ltac:(discriminate)
                ltac:(discriminate) ltac:(discriminate) (conj eq_refl eq_refl)
                (ex_intro _ _ eq_refl) eq_refl) as (H1 & H2 & _).
  split; [exact H1|exact H2].
Defined.

(** X17: handleEvent writes nothing and returns for an event of a kind
    other than participant_joined, participant_left, track_published and
    track_unpublished, and for an event of one of these kinds whose room name
    or participant identity is missing or empty.  For one of the four kinds
    with room and identity present (and a track, for the track kinds) but an
    identity that is no document of the users collection, it throws "User not
    found: <identity>" and writes nothing. *)
Theorem handleEvent_ignores_or_rejects now e w :
  (event e <> "participant_joined" -> event e <> "participant_left" ->
   event e <> "track_published" -> event e <> "track_unpublished" ->
   handleEvent now e w = (Return tt, w)) /\
  (unset (room_name e) = true \/ unset (participant_identity e) = true ->
   handleEvent now e w = (Return tt, w)) /\
  (forall room uid,
     room_name e = Some room -> participant_identity e = Some uid ->
     room <> "" -> uid <> "" ->
     users w !! uid = None ->
     event e = "participant_joined" \/ event e = "participant_left" \/
     ((event e = "track_published" \/ event e = "track_unpublished") /\
      is_Some (track e)) ->
     handleEvent now e w = (Throw (Error ("User not found: " +:+ uid)), w)).
Proof.
  unfold handleEvent. rewrite rethrow_id. split; [|split].
  - intros H1 H2 H3 H4. by rewrite !bool_decide_false.
  - intros Hmiss.
    assert (Hj : handleParticipantJoined e w = (Return tt, w)).
    { unfold handleParticipantJoined.
      destruct (room_name e) as [room|], (participant_identity e) as [uid|];
        try done.
      cbn [unset] in Hmiss. destruct Hmiss as [->| ->]; [done|].
      by rewrite orb_true_r. }
    assert (Hl : handleParticipantLeft now e w = (Return tt, w)).
    { unfold handleParticipantLeft.
      destruct (room_name e) as [room|], (participant_identity e) as [uid|];
        try done.
      cbn [unset] in Hmiss. destruct Hmiss as [->| ->]; [done|].
      by rewrite orb_true_r. }
    assert (Hp : handleTrackPublished now e w = (Return tt, w)).
    { unfold handleTrackPublished.
      destruct (room_name e) as [room|], (participant_identity e) as [uid|],
        (track e); try done.
      cbn [unset] in Hmiss. destruct Hmiss as [->| ->]; [done|].
      by rewrite orb_true_r. }
    assert (Hn : handleTrackUnpublished now e w = (Return tt, w)).
    { unfold handleTrackUnpublished.
      destruct (room_name e) as [room|], (participant_identity e) as [uid|],
        (track e); try done.
      cbn [unset] in Hmiss. destruct Hmiss as [->| ->]; [done|].
      by rewrite orb_true_r. }
    repeat case_bool_decide; done.
  - intros room uid Hroom Hid Hr Hu Hk Hkind.
    assert (Hex : bool_decide (is_Some (users w !! uid)) = false).
    { rewrite bool_decide_false; [done|]. rewrite Hk. by intros [? ?]. }
    unfold handleParticipantJoined, handleParticipantLeft,
      handleTrackPublished, handleTrackUnpublished.
    rewrite Hroom, Hid, (falsy_false _ Hr), (falsy_false _ Hu). cbn [orb].
    unfold userNotFound.
    destruct Hkind as [->|[->|[[-> | ->] [ty ->]]]].
    + change (bool_decide ("participant_joined" = "participant_joined"))
        with true.
      cbv iota. rewrite rethrow_id. unfold_async. by rewrite Hex.
    + change (bool_decide ("participant_left" = "participant_joined"))
        with false.
      change (bool_decide ("participant_left" = "participant_left")) with true.
      cbv iota. rewrite rethrow_id. unfold_async. by rewrite Hex.
    + change (bool_decide ("track_published" = "participant_joined"))
        with false.
      change (bool_decide ("track_published" = "participant_left")) with false.
      change (bool_decide ("track_published" = "track_published")) with true.
      cbv iota. rewrite rethrow_id. unfold_async. by rewrite Hex.
    + change (bool_decide ("track_unpublished" = "participant_joined"))
        with false.
      change (bool_decide ("track_unpublished" = "participant_left"))
        with false.
      change (bool_decide ("track_unpublished" = "track_published")) with false.
      change (bool_decide ("track_unpublished" = "track_unpublished"))
        with true.
      cbv iota. rewrite rethrow_id. unfold_async. by rewrite Hex.
Qed.

Lemma handleEvent_ignores_or_rejects_witness :
  handleEvent 5 roomFinished liveWorld = (Return tt, liveWorld) /\
  handleEvent 5 (participantJoined "c1" "mallory") liveWorld =
    (Throw (Error "User not found: mallory"), liveWorld).
Proof.
  pose proof (handleEvent_ignores_or_rejects 5 roomFinished liveWorld)
    as (Hign & _ & _).
  pose proof (handleEvent_ignores_or_rejects 5
                (participantJoined "c1" "mallory") liveWorld) as (_ & _ & Hrej).
  split.
  - apply Hign; discriminate.
  - apply (Hrej "c1" "mallory" eq_refl eq_refl); try discriminate.
    + reflexivity.
    + by left.
Defined.

Lemma set_lastSpokeAt_None_id m :
  CircleMember.lastSpokeAt m = None -> CircleMember.set_lastSpokeAt None m = m.
Proof. destruct m. cbn. by intros ->. Qed.

Lemma endSpeakingTime_silent now room uid w m :
  members w !! (room, uid) = Some m ->
  CircleMember.lastSpokeAt m = None ->
  endSpeakingTime now room uid w = (Return tt, w).
Proof.
  intros Hm Hl. unfold endSpeakingTime. unfold_async. rewrite Hm.
  cbn [mbind option_bind]. rewrite Hl. unfold_async. rewrite Hm.
  rewrite (set_lastSpokeAt_None_id _ Hl), (insert_id _ _ _ Hm).
  by destruct w.
Qed.

(** X18: speaking intervals under duplicate delivery.  For a member
    document of a known user: an audio track_unpublished event that finds no
    lastSpokeAt (no interval open) writes nothing, so a duplicate of the
    unpublish event adds nothing to totalSpeakTime; a second audio
    track_published event before the unpublish re-stamps lastSpokeAt, so the
    interval counted is the one since the last publish only. *)
Theorem speaking_interval_duplicates t1 t2 t3 w room uid m :
  room <> "" -> uid <> "" ->
  is_Some (users w !! uid) ->
  members w !! (room, uid) = Some m ->
  let pub t := handleEvent t (trackPublished room uid AUDIO) in
  let unpub t := handleEvent t (trackUnpublished room uid AUDIO) in
  (CircleMember.lastSpokeAt m = None -> unpub t1 w = (Return tt, w)) /\
  (let w2 := (unpub t2 (pub t1 w).2).2 in unpub t3 w2 = (Return tt, w2)) /\
  (let w3 := (unpub t3 (pub t2 (pub t1 w).2).2).2 in
   CircleMember.totalSpeakTime <$> members w3 !! (room, uid) =
     Some (Some (or0 (CircleMember.totalSpeakTime m) + (t3 - t2)))).
Proof.
  intros Hr Hu Hk Hm pub unpub. subst pub unpub. cbv beta.
  assert (Hpub : forall t w0 m0, users w0 = users w ->
            members w0 !! (room, uid) = Some m0 ->
            handleEvent t (trackPublished room uid AUDIO) w0 =
            (Return tt,
             set_members (<[(room, uid) := CircleMember.set_lastSpokeAt (Some t) m0]>
                            (members w0)) w0)).
  { intros t w0 m0 Hus Hm0.
    rewrite handleEvent_trackPublished by (try done; by rewrite Hus).
    rewrite bool_decide_true by done. unfold startSpeakingTime.
    unfold_async. by rewrite Hm0. }
  assert (Hunpub : forall t w0 m0 t0, users w0 = users w ->
            members w0 !! (room, uid) = Some m0 ->
            CircleMember.lastSpokeAt m0 = Some t0 ->
            handleEvent t (trackUnpublished room uid AUDIO) w0 =
            (Return tt,
             set_members
               (<[(room, uid) :=
                    CircleMember.set_lastSpokeAt None
                      (CircleMember.set_totalSpeakTime
                         (Some (or0 (CircleMember.totalSpeakTime m0) + (t - t0)))
                         m0)]> (members w0)) w0)).
  { intros t w0 m0 t0 Hus Hm0 Hl0.
    rewrite handleEvent_trackUnpublished by (try done; by rewrite Hus).
    rewrite bool_decide_true by done.
    by apply endSpeakingTime_speaking. }
  assert (Hsilent : forall t w0 m0, users w0 = users w ->
            members w0 !! (room, uid) = Some m0 ->
            CircleMember.lastSpokeAt m0 = None ->
            handleEvent t (trackUnpublished room uid AUDIO) w0 = (Return tt, w0)).
  { intros t w0 m0 Hus Hm0 Hl0.
    rewrite handleEvent_trackUnpublished by (try done; by rewrite Hus).
    rewrite bool_decide_true by done.
    by apply (endSpeakingTime_silent _ _ _ _ m0). }
  split; [|split].
  - intros Hl. by apply (Hsilent _ _ m).
  - rewrite (Hpub t1 w m) by done. cbn [snd].
    erewrite (Hunpub t2);
      [|done|world_simpl; apply lookup_insert_eq|reflexivity].
    cbn [snd]. eapply Hsilent;
      [done|world_simpl; apply lookup_insert_eq|reflexivity].
  - rewrite (Hpub t1 w m) by done. cbn [snd].
    erewrite (Hpub t2); [|done|world_simpl; apply lookup_insert_eq].
    cbn [snd].
    erewrite (Hunpub t3);
      [|done|world_simpl; apply lookup_insert_eq|reflexivity].
    world_simpl. rewrite lookup_insert_eq. by destruct m.
Qed.

Lemma speaking_interval_duplicates_witness :
  let w := mkWorld env0 {[ "c1" := circle0 "c1" "alice" Live 0 ]}
             {[ ("c1", "bob") := member0 Speaker (Some Active) ]} ∅
             {[ "bob" := {| fullName := Some "Bob" |} ]} [] in
  let w2 := (handleEvent 3000 (trackUnpublished "c1" "bob" AUDIO)
               (handleEvent 1000 (trackPublished "c1" "bob" AUDIO) w).2).2 in
  handleEvent 4000 (trackUnpublished "c1" "bob" AUDIO) w2 = (Return tt, w2).
Proof.
  intros w w2.
  pose proof (speaking_interval_duplicates 1000 3000 4000 w "c1" "bob"
                (member0 Speaker (Some Active))
                ltac:(discriminate) ltac:(discriminate)
                (ex_intro _ _ eq_refl) eq_refl) as (_ & Hdup & _).
  exact Hdup.
Defined.

(* --------------------------------------------------------------------- *)
(* The deferred host check                                               *)
(* --------------------------------------------------------------------- *)

Lemma runCallbacks_keeps now ts : forall w,
  timers (runCallbacks now ts w) = timers w /\
  members (runCallbacks now ts w) = members w /\
  handRaises (runCallbacks now ts w) = handRaises w.
Proof.
  induction ts as [|t ts IH]; intros w; cbn [runCallbacks]; [done|].
  destruct (IH (hostDisconnectionTimeout now (timerCircleId t) (timerHostId t) w).2)
    as (-> & -> & ->).
  unfold hostDisconnectionTimeout, endCircleDueToHostDisconnection.
  unfold_async.
  destruct (members w !! (timerCircleId t, timerHostId t)) as [m|]; [|done].
  case_bool_decide; unfold_async; [|done].
  by destruct (circles w !! timerCircleId t).
Qed.

Lemma filter_due_nil now (ts : list Timer) :
  Forall (fun t => now < fireAt t) ts ->
  filter (fun t => fireAt t <= now) ts = [] /\
  filter (fun t => ~ fireAt t <= now) ts = ts.
Proof.
  induction 1 as [|t ts Ht _ [IH1 IH2]]; [done|].
  rewrite !filter_cons. rewrite decide_False by lia.
  rewrite decide_True by lia. by rewrite IH1, IH2.
Qed.

(** X19: firing the pending checks is one-shot and never early.  When every
    pending check is due after now, fireTimers changes nothing.  In general
    fireTimers keeps exactly the checks that are not yet due, never touches a
    member or hand-raise document, and firing a second time at the same
    instant changes nothing more. *)
Theorem fireTimers_one_shot now w :
  (Forall (fun t => now < fireAt t) (timers w) -> fireTimers now w = w) /\
  timers (fireTimers now w) = filter (fun t => ~ fireAt t <= now) (timers w) /\
  members (fireTimers now w) = members w /\
  handRaises (fireTimers now w) = handRaises w /\
  fireTimers now (fireTimers now w) = fireTimers now w.
Proof.
  assert (Hearly : forall w0, Forall (fun t => now < fireAt t) (timers w0) ->
                              fireTimers now w0 = w0).
  { intros w0 Hall. unfold fireTimers.
    destruct (filter_due_nil now _ Hall) as [-> ->]. cbn [runCallbacks].
    by destruct w0. }
  assert (Hts : timers (fireTimers now w) =
                filter (fun t => ~ fireAt t <= now) (timers w)).
  { unfold fireTimers.
    by destruct (runCallbacks_keeps now
                   (filter (fun t => fireAt t <= now) (timers w))
                   (set_timers (filter (fun t => ~ fireAt t <= now) (timers w)) w))
      as (-> & _ & _). }
  split; [apply Hearly|]. split; [exact Hts|].
  split; [|split].
  - unfold fireTimers.
    by destruct (runCallbacks_keeps now
                   (filter (fun t => fireAt t <= now) (timers w))
                   (set_timers (filter (fun t => ~ fireAt t <= now) (timers w)) w))
      as (_ & -> & _).
  - unfold fireTimers.
    by destruct (runCallbacks_keeps now
                   (filter (fun t => fireAt t <= now) (timers w))
                   (set_timers (filter (fun t => ~ fireAt t <= now) (timers w)) w))
      as (_ & _ & ->).
  - apply Hearly. rewrite Hts. apply Forall_forall. intros t Ht.
    apply list_elem_of_filter in Ht as [Hnd _]. lia.
Qed.

Lemma fireTimers_one_shot_witness :
  let w1 := (handleHostDisconnection 1000 "c1" "alice" liveWorld).2 in
  fireTimers 300999 w1 = w1 /\ timers (fireTimers 301000 w1) = [].
Proof.
  intros w1.
  pose proof (fireTimers_one_shot 300999 w1) as (Hearly & _).
  pose proof (fireTimers_one_shot 301000 w1) as (_ & Hts & _).
  split.
  - apply Hearly. repeat constructor.
  - exact Hts.
Defined.


(** X20: the deferred check looks at the host member only, never at the
    circle.  If the host, still marked disconnected, ends the circle with
    endCircle before the check runs, the check overwrites that end: endedAt
    becomes the instant of the check and endReason host_disconnected instead
    of host_ended.  The check writes nothing and swallows every error when
    the host member document is missing, when its status is not
    disconnected, or when the circle document is gone. *)
Theorem deferred_check_ignores_circle_status t0 t1 t2 w id c m :
  circles w !! id = Some c ->
  Circle.hostUid c <> "" ->
  Circle.status c <> Ended ->
  members w !! (id, Circle.hostUid c) = Some m ->
  let host := Circle.hostUid c in
  let w1 := (handleHostDisconnection t0 id host w).2 in
  let w2 := (endCircle t1 id host w1).2 in
  let w3 := (hostDisconnectionTimeout t2 id host w2).2 in
  (exists c2, circles w2 !! id = Some c2 /\ Circle.status c2 = Ended /\
     Circle.endedAt c2 = Some t1 /\ Circle.endReason c2 = Some HostEnded) /\
  (exists c3, circles w3 !! id = Some c3 /\ Circle.status c3 = Ended /\
     Circle.endedAt c3 = Some t2 /\
     Circle.endReason c3 = Some HostDisconnected) /\
  (forall w' now hostId,
     (match members w' !! (id, hostId) with
      | Some m' => CircleMember.status m' <> Some Disconnected
      | None => True
      end \/ circles w' !! id = None) ->
     hostDisconnectionTimeout now id hostId w' = (Return tt, w')).
Proof.
  intros Hc Hu Hs Hm host w1 w2 w3. subst w3 w2 w1 host.
  assert (H1 : (handleHostDisconnection t0 id (Circle.hostUid c) w).2 =
    set_timers (timers w ++ [ {| fireAt := t0 + graceWindow;
                                 timerCircleId := id;
                                 timerHostId := Circle.hostUid c |} ])%list
      (set_circles (<[id := Circle.set_hostDisconnectedAt (Some t0) c]> (circles w))
         (set_members
            (<[(id, Circle.hostUid c) :=
                 CircleMember.set_disconnectedAt (Some t0)
                   (CircleMember.set_status (Some Disconnected) m)]>
               (members w)) w))).
  { unfold handleHostDisconnection. unfold_async. rewrite Hm. async_simpl.
    rewrite Hc. by async_simpl. }
  rewrite H1.
  unfold endCircle. rewrite (falsy_false _ Hu). async_simpl.
  cbn [Circle.hostUid Circle.status Circle.set_hostDisconnectedAt].
  rewrite bool_decide_true by done.
  rewrite includes_scheduled_live, (bool_decide_false _ Hs). async_simpl.
  split; [eexists; split; [reflexivity|done]|].
  split.
  - unfold hostDisconnectionTimeout, endCircleDueToHostDisconnection.
    async_simpl. cbn [CircleMember.status CircleMember.set_disconnectedAt
                      CircleMember.set_status].
    rewrite bool_decide_true by done. async_simpl.
    eexists. split; [reflexivity|done].
  - intros w' now hostId Hcase.
    unfold hostDisconnectionTimeout, endCircleDueToHostDisconnection.
    unfold_async.
    destruct (members w' !! (id, hostId)) as [m'|]; [|done].
    case_bool_decide as Hd; [|done]. unfold_async.
    destruct Hcase as [Hn| ->]; done.
Qed.

Lemma deferred_check_ignores_circle_status_witness :
  let w1 := (handleHostDisconnection 1000 "c1" "alice" liveWorld).2 in
  let w2 := (endCircle 2000 "c1" "alice" w1).2 in
  let w3 := (hostDisconnectionTimeout 301000 "c1" "alice" w2).2 in
  exists c3, circles w3 !! "c1" = Some c3 /\
    Circle.endedAt c3 = Some 301000 /\
    Circle.endReason c3 = Some HostDisconnected.
Proof.
  intros w1 w2 w3.
  pose proof (deferred_check_ignores_circle_status 1000 2000 301000 liveWorld
                "c1" (circle0 "c1" "alice" Live 0) (member0 Host (Some Active))
                eq_refl ltac:(discriminate) ltac:(discriminate) eq_refl)
    as (_ & (c3 & Hc3 & _ & Hat & Hreason) & _).
  exists c3. split; [exact Hc3|]. split; [exact Hat|exact Hreason].
Defined.

(* --------------------------------------------------------------------- *)
(* HTTP errors of the circles endpoints                                  *)
(* --------------------------------------------------------------------- *)

Lemma mintToken_throws userId room role fn w e :
  (mintToken userId room role fn w).1 = Throw e ->
  e = credentialsError \/ e = parametersError.
Proof.
  unfold mintToken, mintToken_body. unfold_async.
  destruct (unset (LIVEKIT_API_KEY (env w)) || unset (LIVEKIT_API_SECRET (env w)));
    [intros [= <-]; by left|].
  destruct (falsy userId || falsy room); [intros [= <-]; by right|done].
Qed.

(* Every way joinCircle can throw. *)
Lemma joinCircle_throws now id uid dto w e :
  (joinCircle now id uid dto w).1 = Throw e ->
  (e = Error "User not authenticated" /\ uid = "") \/
  (e = Error "Circle not found" /\ uid <> "" /\ circles w !! id = None) \/
  (e = Error "Cannot join circle with status: ended" /\
   exists c, circles w !! id = Some c /\ Circle.status c = Ended) \/
  e = credentialsError \/ e = parametersError.
Proof.
  unfold joinCircle. destruct (falsy uid) eqn:Hf.
  { intros [= <-]. left. split; [done|]. by apply falsy_true_iff. }
  assert (Hu : uid <> "") by (intros ->; done).
  unfold_async.
  destruct (circles w !! id) as [c|] eqn:Hc;
    [|intros [= <-]; right; left; done].
  rewrite includes_scheduled_live.
  case_bool_decide as Hs; cbn [negb].
  { rewrite Hs. intros [= <-]. right. right. left. eauto. }
  async_simpl.
  assert (Hmint : forall role fn w0 (k : Token -> JoinResult),
            (let (o, w') := mintToken uid id role fn w0 in
             match o with
             | Return a => (Return (k a), w')
             | Throw e0 => (Throw e0, w')
             end).1 = Throw e ->
            e = credentialsError \/ e = parametersError).
  { intros role fn w0 k.
    destruct (mintToken uid id role fn w0) as [[t|e0] w'] eqn:Hmt; [done|].
    intros [= <-]. apply (mintToken_throws uid id role fn w0).
    by rewrite Hmt. }
  destruct (bool_decide (Circle.hostUid c = uid)
            && bool_decide (Circle.status c = Scheduled)).
  - destruct (members w !! (id, uid)) as [m|]; async_simpl.
    + intros Hthrow. right. right. right. by apply Hmint in Hthrow.
    + rewrite Hc. async_simpl. intros Hthrow. right. right. right.
      by apply Hmint in Hthrow.
  - destruct (members w !! (id, uid)) as [m|] eqn:Hm; async_simpl.
    + case_bool_decide; async_simpl.
      * rewrite Hm. async_simpl. rewrite Hc. async_simpl.
        intros Hthrow. right. right. right. by apply Hmint in Hthrow.
      * intros Hthrow. right. right. right. by apply Hmint in Hthrow.
    + rewrite Hc. async_simpl. intros Hthrow. right. right. right.
      by apply Hmint in Hthrow.
Qed.

(** X21: the join endpoint answers a failed joinCircle with 404 "Circle not
    found" exactly when the caller is authenticated and the circle does not
    exist, and with 500 "Unexpected error" in every other case, in
    particular for a circle that is ended; it never answers 409, 400 or
    403. *)
Theorem join_endpoint_is_404_or_500 now id uid dto w :
  let r := join_controller now id uid dto w in
  (forall e, r.1 = Fail e ->
     (e = {| http_message := "Circle not found"; http_status := 404 |} /\
      uid <> "" /\ circles w !! id = None) \/
     (e = {| http_message := "Unexpected error"; http_status := 500 |} /\
      (uid = "" \/ is_Some (circles w !! id)))) /\
  (uid <> "" -> circles w !! id = None ->
     r = (Fail {| http_message := "Circle not found"; http_status := 404 |}, w)) /\
  (forall c, circles w !! id = Some c -> Circle.status c = Ended ->
     r = (Fail {| http_message := "Unexpected error"; http_status := 500 |}, w)).
Proof.
  intros r. subst r. unfold join_controller, catching.
  assert (Hnf : uid <> "" -> circles w !! id = None ->
                joinCircle now id uid dto w = (Throw (Error "Circle not found"), w)).
  { intros Hu Hn. unfold joinCircle. rewrite (falsy_false _ Hu).
    unfold_async. by rewrite Hn. }
  split; [|split].
  - intros e. destruct (joinCircle now id uid dto w) as [[a|x] w'] eqn:Hj; [done|].
    intros [= <-].
    pose proof (joinCircle_throws now id uid dto w x) as Hx.
    rewrite Hj in Hx. specialize (Hx eq_refl).
    destruct Hx as [[-> ->]|[(-> & Hu & Hn)|[(-> & c & Hc & Hs)|[-> | ->]]]].
    + right. split; [reflexivity|by left].
    + left. split; [reflexivity|done].
    + right. split; [reflexivity|]. right. by rewrite Hc.
    + right. split; [reflexivity|].
      destruct (decide (uid = "")) as [|Hu]; [by left|right].
      destruct (circles w !! id) eqn:Hc; [done|].
      specialize (Hnf Hu eq_refl).
      unfold credentialsError, parametersError in Hnf. congruence.
    + right. split; [reflexivity|].
      destruct (decide (uid = "")) as [|Hu]; [by left|right].
      destruct (circles w !! id) eqn:Hc; [done|].
      specialize (Hnf Hu eq_refl).
      unfold credentialsError, parametersError in Hnf. congruence.
  - intros Hu Hn. by rewrite Hnf.
  - intros c Hc Hs. unfold joinCircle. destruct (falsy uid); [done|].
    unfold_async. rewrite Hc, includes_scheduled_live, Hs. done.
Qed.

Lemma join_endpoint_is_404_or_500_witness :
  let w := mkWorld env0 {[ "c1" := endedCircle ]} ∅ ∅ ∅ [] in
  join_controller 60 "c1" "bob" None w =
    (Fail {| http_message := "Unexpected error"; http_status := 500 |}, w) /\
  join_controller 60 "c2" "bob" None w =
    (Fail {| http_message := "Circle not found"; http_status := 404 |}, w).
Proof.
  intros w.
  pose proof (join_endpoint_is_404_or_500 60 "c1" "bob" None w) as (_ & _ & H500).
  pose proof (join_endpoint_is_404_or_500 60 "c2" "bob" None w) as (_ & H404 & _).
  split.
  - exact (H500 endedCircle eq_refl eq_refl).
  - apply H404; [discriminate|reflexivity].
Defined.


(** X22: what a caller who is not the host gets from the host-only
    endpoints of an existing circle: 403 from the status, delete and promote
    endpoints, but 400 from the end endpoint, whose handler looks for the
    text "Only host can update" while endCircle throws "Only host can end
    circle".  None of the four calls writes. *)
Theorem non_host_is_forbidden_except_on_end now w id c userId s dto :
  circles w !! id = Some c ->
  userId <> "" -> userId <> Circle.hostUid c ->
  updateStatus_controller now id s userId w =
    (Fail {| http_message := "Only host can update circle status";
             http_status := 403 |}, w) /\
  delete_controller id userId w =
    (Fail {| http_message := "Only host can delete circle";
             http_status := 403 |}, w) /\
  end_controller now id userId w =
    (Fail {| http_message := "Only host can end circle";
             http_status := 400 |}, w) /\
  (is_Some (members w !! (id, targetUserId dto)) ->
   promote_controller now id userId dto w =
     (Fail {| http_message := "forbidden: only host can promote/demote";
              http_status := 403 |}, w)).
Proof.
  intros Hc Hu Hh.
  unfold updateStatus_controller, delete_controller, end_controller,
    promote_controller, catching.
  unfold updateCircleStatus, deleteCircle, endCircle, promoteMember.
  rewrite (falsy_false _ Hu). unfold_async. rewrite Hc.
  rewrite (bool_decide_false (Circle.hostUid c = userId)) by done.
  cbn [negb]. repeat split. intros [m Hm]. by rewrite Hm.
Qed.

Lemma non_host_is_forbidden_except_on_end_witness :
  let w := mkWorld env0 {[ "c1" := circle0 "c1" "alice" Live 0 ]} ∅ ∅ ∅ [] in
  http_status <$>
    (match (end_controller 5 "c1" "bob" w).1 with
     | Fail e => Some e | Ok _ => None end) = Some 400 /\
  http_status <$>
    (match (delete_controller "c1" "bob" w).1 with
     | Fail e => Some e | Ok _ => None end) = Some 403.
Proof.
  intros w.
  pose proof (non_host_is_forbidden_except_on_end 5 w "c1"
                (circle0 "c1" "alice" Live 0) "bob" Live
                {| targetUserId := "carol"; newRole := Speaker |} eq_refl
                ltac:(discriminate) ltac:(discriminate))
    as (_ & Hd & He & _).
  split.
  - exact (f_equal (fun x => http_status <$>
             match x.1 with Fail e => Some e | Ok _ => None end) He).
  - exact (f_equal (fun x => http_status <$>
             match x.1 with Fail e => Some e | Ok _ => None end) Hd).
Defined.

(** X23: the lifecycle endpoints on a missing circle and on a circle in the
    wrong state.  For an authenticated caller a missing circle is a 404
    "Circle not found" on the status, end, delete and promote endpoints, and
    a missing promotion target is a 404 "Target member not found".  Called by
    the host, a transition outside the table is a 400 naming both statuses,
    ending an ended circle is a 400, and deleting a circle that is not
    scheduled is a 400.  Nothing is written in any of these cases. *)
Theorem lifecycle_endpoints_404_and_400 now w id userId s dto :
  userId <> "" ->
  (circles w !! id = None ->
     updateStatus_controller now id s userId w =
       (Fail {| http_message := "Circle not found"; http_status := 404 |}, w) /\
     end_controller now id userId w =
       (Fail {| http_message := "Circle not found"; http_status := 404 |}, w) /\
     delete_controller id userId w =
       (Fail {| http_message := "Circle not found"; http_status := 404 |}, w) /\
     promote_controller now id userId dto w =
       (Fail {| http_message := "Circle not found"; http_status := 404 |}, w)) /\
  (forall c, circles w !! id = Some c ->
     members w !! (id, targetUserId dto) = None ->
     promote_controller now id userId dto w =
       (Fail {| http_message := "Target member not found";
                http_status := 404 |}, w)) /\
  (forall c, circles w !! id = Some c -> Circle.hostUid c = userId ->
     (isValidStatusTransition (Circle.status c) s = false ->
        updateStatus_controller now id s userId w =
          (Fail {| http_message :=
                     "Invalid status transition from "
                     +:+ status_str (Circle.status c)
                     +:+ " to " +:+ status_str s;
                   http_status := 400 |}, w)) /\
     (Circle.status c = Ended ->
        end_controller now id userId w =
          (Fail {| http_message := "Cannot end circle with status: ended";
                   http_status := 400 |}, w)) /\
     (Circle.status c <> Scheduled ->
        delete_controller id userId w =
          (Fail {| http_message := "Only scheduled circles can be deleted";
                   http_status := 400 |}, w))).
Proof.
  intros Hu.
  unfold updateStatus_controller, delete_controller, end_controller,
    promote_controller, catching.
  unfold updateCircleStatus, deleteCircle, endCircle, promoteMember.
  rewrite (falsy_false _ Hu). unfold_async. split; [|split].
  - intros Hn. rewrite Hn. done.
  - intros c Hc Hm. rewrite Hc, Hm. done.
  - intros c Hc Hh. rewrite Hc. rewrite bool_decide_true by done.
    cbn [negb]. split; [|split].
    + intros Hv. rewrite Hv. cbn [negb fst snd message_of].
      f_equal. destruct (Circle.status c), s; try done.
    + intros Hs. rewrite includes_scheduled_live, Hs. done.
    + intros Hs. rewrite (bool_decide_false _ Hs). done.
Qed.

Lemma lifecycle_endpoints_404_and_400_witness :
  let w := mkWorld env0 {[ "c1" := circle0 "c1" "alice" Live 0 ]} ∅ ∅ ∅ [] in
  delete_controller "c1" "alice" w =
    (Fail {| http_message := "Only scheduled circles can be deleted";
             http_status := 400 |}, w) /\
  end_controller 5 "c9" "alice" w =
    (Fail {| http_message := "Circle not found"; http_status := 404 |}, w).
Proof.
  intros w.
  pose proof (lifecycle_endpoints_404_and_400 5 w "c1" "alice" Live
                {| targetUserId := "carol"; newRole := Speaker |}
                ltac:(discriminate)) as (_ & _ & Hstate).
  pose proof (lifecycle_endpoints_404_and_400 5 w "c9" "alice" Live
                {| targetUserId := "carol"; newRole := Speaker |}
                ltac:(discriminate)) as (Hmiss & _).
  split.
  - apply (Hstate (circle0 "c1" "alice" Live 0) eq_refl eq_refl). discriminate.
  - apply (Hmiss eq_refl).
Defined.

(* --------------------------------------------------------------------- *)
(* AuthGuard                                                             *)
(* --------------------------------------------------------------------- *)

Lemma append_nil_r s : s +:+ "" = s.
Proof.
  induction s as [|c s IH]; [done|].
  change (String c s +:+ "") with (String c (s +:+ "")). by rewrite IH.
Qed.

Lemma split_space_nonempty s : split_space s <> [].
Proof.
  destruct s as [|c s]; cbn [split_space]; [done|].
  case_bool_decide; [done|]. by destruct (split_space s).
Qed.

Lemma split_space_free s : spaceFree s = true -> split_space s = [s].
Proof.
  induction s as [|c s IH]; cbn [split_space spaceFree]; [done|].
  case_bool_decide; cbn [negb andb]; [done|].
  intros Hs. by rewrite (IH Hs).
Qed.

Lemma split_space_app a r :
  spaceFree a = true ->
  split_space (a +:+ " " +:+ r) = a :: split_space r.
Proof.
  change (" " +:+ r) with (String " "%char r).
  induction a as [|c a IH]; [done|].
  change (String c a +:+ String " "%char r)
    with (String c (a +:+ String " "%char r)).
  cbn [split_space spaceFree].
  case_bool_decide; cbn [negb andb]; [done|].
  intros Ha. by rewrite (IH Ha).
Qed.

(* The first segment is space-free and is followed by nothing or by a
   space and the string the other segments come from. *)
Lemma split_space_cons_inv s : forall a rest,
  split_space s = a :: rest ->
  spaceFree a = true /\
  ((rest = [] /\ s = a) \/
   exists r, s = a +:+ " " +:+ r /\ rest = split_space r).
Proof.
  induction s as [|c s IH]; intros a rest; cbn [split_space].
  - intros [= <- <-]. split; [done|]. by left.
  - case_bool_decide as Hc.
    + intros [= <- <-]. split; [done|]. right. exists s. by subst c.
    + destruct (split_space s) as [|seg segs] eqn:Hs.
      * by destruct (split_space_nonempty s).
      * intros [= <- <-]. destruct (IH seg segs eq_refl) as [Hf Hcase].
        split.
        -- cbn [spaceFree]. rewrite (bool_decide_false _ Hc). done.
        -- destruct Hcase as [[-> ->]|(r & -> & ->)]; [by left|].
           right. by exists r.
Qed.

(** X24: which Authorization headers the guard accepts.
    extractTokenFromHeader returns a token t exactly when the header is
    "Bearer", one space, the space-free string t, and then either nothing or
    a space followed by anything; so a missing header, another scheme (also
    "bearer" in lower case) and a bare "Bearer" give no token, and "Bearer "
    followed by a second space gives the empty token.  canActivate stores
    uid exactly when such a token is non-empty and verifyIdToken accepts it
    with that uid; it answers "No token provided" when there is no token or
    an empty one, and "Invalid token" when verification fails. *)
Theorem authGuard_accepts_bearer_tokens verifyIdToken authorization :
  (forall t,
     extractTokenFromHeader authorization = Some t <->
     exists h suffix,
       authorization = Some h /\ h = "Bearer " +:+ t +:+ suffix /\
       spaceFree t = true /\
       (suffix = "" \/ exists r, suffix = " " +:+ r)) /\
  (forall uid,
     canActivate verifyIdToken authorization = inl uid <->
     exists t, extractTokenFromHeader authorization = Some t /\
               t <> "" /\ verifyIdToken t = Some uid) /\
  (canActivate verifyIdToken authorization = inr "No token provided" <->
     extractTokenFromHeader authorization = None \/
     extractTokenFromHeader authorization = Some "") /\
  (canActivate verifyIdToken authorization = inr "Invalid token" <->
     exists t, extractTokenFromHeader authorization = Some t /\
               t <> "" /\ verifyIdToken t = None).
Proof.
  split; [|split; [|split]].
  - intros t. unfold extractTokenFromHeader. split.
    + destruct authorization as [h|]; cbn [from_option]; [|done].
      destruct (split_space h) as [|type rest] eqn:Hsplit; [done|].
      cbn [lookup list_lookup]. case_bool_decide as Hty; [|done].
      subst type.
      destruct (split_space_cons_inv h _ _ Hsplit) as [_ Hcase].
      destruct Hcase as [[-> ->]|(r & -> & ->)]; [done|].
      destruct (split_space r) as [|tok rest'] eqn:Hr; [done|].
      cbn. intros [= ->].
      destruct (split_space_cons_inv r _ _ Hr) as [Hfree Hcase].
      destruct Hcase as [[-> ->]|(r' & -> & ->)].
      * eexists _, "". split; [reflexivity|].
        split; [|split; [done|by left]].
        rewrite append_nil_r. reflexivity.
      * eexists _, (" " +:+ r'). split; [reflexivity|].
        split; [reflexivity|]. split; [done|]. right. by exists r'.
    + intros (h & suffix & -> & -> & Hfree & Hsuf). cbn [from_option].
      change ("Bearer " +:+ t +:+ suffix)
        with ("Bearer" +:+ " " +:+ (t +:+ suffix)).
      rewrite split_space_app by done. cbn [lookup list_lookup].
      rewrite bool_decide_true by done.
      destruct Hsuf as [->|(r & ->)].
      * rewrite append_nil_r, split_space_free by done. done.
      * rewrite split_space_app by done. done.
  - intros uid. unfold canActivate.
    destruct (extractTokenFromHeader authorization) as [t|].
    + destruct (falsy t) eqn:Hf.
      * apply falsy_true_iff in Hf. split; [done|].
        intros (t' & [= <-] & Hne & _). done.
      * assert (t <> "") by (intros ->; done).
        destruct (verifyIdToken t) as [u|] eqn:Hv.
        -- split; [intros [= <-]; eauto|].
           intros (t' & [= <-] & _ & Hv'). congruence.
        -- split; [done|]. intros (t' & [= <-] & _ & Hv'). congruence.
    + split; [done|]. intros (t' & ? & _). done.
  - unfold canActivate.
    destruct (extractTokenFromHeader authorization) as [t|]; [|by split; eauto].
    destruct (falsy t) eqn:Hf.
    + apply falsy_true_iff in Hf. subst. split; eauto.
    + assert (t <> "") by (intros ->; done).
      destruct (verifyIdToken t); split; try done.
      * intros [?|[= ->]]; done.
      * intros [?|[= ->]]; done.
  - unfold canActivate.
    destruct (extractTokenFromHeader authorization) as [t|].
    + destruct (falsy t) eqn:Hf.
      * apply falsy_true_iff in Hf. split; [done|].
        intros (t' & [= <-] & Hne & _). done.
      * assert (t <> "") by (intros ->; done).
        destruct (verifyIdToken t) as [u|] eqn:Hv.
        -- split; [done|]. intros (t' & [= <-] & _ & Hv'). congruence.
        -- split; [eauto|done].
    + split; [done|]. intros (t' & ? & _). done.
Qed.

Lemma authGuard_accepts_bearer_tokens_witness :
  extractTokenFromHeader (Some "Bearer abc.def") = Some "abc.def" /\
  canActivate (fun _ => Some "alice") (Some "bearer abc.def") =
    inr "No token provided".
Proof.
  pose proof (authGuard_accepts_bearer_tokens (fun _ => Some "alice")
                (Some "Bearer abc.def")) as (Hext & _).
  pose proof (authGuard_accepts_bearer_tokens (fun _ => Some "alice")
                (Some "bearer abc.def")) as (_ & _ & Hnone & _).
  split.
  - apply Hext. exists "Bearer abc.def", "".
    split; [reflexivity|]. split; [reflexivity|]. split; [reflexivity|by left].
  - apply Hnone. left. reflexivity.
Defined.


(* --------------------------------------------------------------------- *)
(* The webhook endpoint                                                  *)
(* --------------------------------------------------------------------- *)

(** X25: the replies of the webhook endpoint.  A missing or empty
    Authorization header is a 401; a missing or empty body and a body that is
    not JSON are a 400; a body whose signature does not verify is a 400
    "Invalid webhook signature or payload", not a 401; none of these writes.
    A verified event of a kind other than the four handled ones is answered
    "ignored" and writes nothing.  A verified event of a handled kind is
    answered "received" whatever its handler does, also when the handler
    throws, and the store is the one the handler leaves. *)
Theorem webhook_endpoint_replies isJson receive now authorization rawBody w :
  let r := handleLiveKitWebhook isJson receive now authorization rawBody w in
  (authorization = None \/ authorization = Some "" ->
     r = (Fail {| http_message := "Missing authorization header";
                  http_status := 401 |}, w)) /\
  (forall a, authorization = Some a -> a <> "" ->
     (rawBody = None \/ rawBody = Some "" ->
        r = (Fail {| http_message := "Empty webhook body";
                     http_status := 400 |}, w)) /\
     (forall b, rawBody = Some b -> b <> "" ->
        (isJson b = false ->
           r = (Fail {| http_message := "Invalid JSON payload";
                        http_status := 400 |}, w)) /\
        (isJson b = true -> receive b a = None ->
           r = (Fail {| http_message := "Invalid webhook signature or payload";
                        http_status := 400 |}, w)) /\
        (forall e, isJson b = true -> receive b a = Some e ->
           (event e ∈ handledEvents ->
              r = (Ok {| wr_status := Received; wr_event := event e |},
                   (handleEvent now e w).2)) /\
           (event e ∉ handledEvents ->
              r = (Ok {| wr_status := Ignored; wr_event := event e |}, w))))).
Proof.
  intros r. subst r. unfold handleLiveKitWebhook. split.
  - intros [-> | ->]; done.
  - intros a -> Ha. rewrite (falsy_false _ Ha). split.
    + intros [-> | ->]; done.
    + intros b -> Hb.
      rewrite bool_decide_false by (by destruct b).
      unfold processWebhook, includes. split; [|split].
      * by intros ->.
      * by intros -> ->.
      * intros e -> ->. cbn [negb]. split; intros He.
        -- by rewrite bool_decide_true.
        -- by rewrite bool_decide_false.
Qed.

Lemma webhook_endpoint_replies_witness :
  handleLiveKitWebhook (fun _ => true) sampleReceive 5 (Some "sig")
    (Some "mallory") liveWorld =
    (Ok {| wr_status := Received; wr_event := "participant_joined" |},
     liveWorld) /\
  handleLiveKitWebhook (fun _ => true) sampleReceive 5 (Some "forged")
    (Some "mallory") liveWorld =
    (Fail {| http_message := "Invalid webhook signature or payload";
             http_status := 400 |}, liveWorld).
Proof.
  pose proof (webhook_endpoint_replies (fun _ => true) sampleReceive 5
                (Some "sig") (Some "mallory") liveWorld) as (_ & Hsig).
  pose proof (webhook_endpoint_replies (fun _ => true) sampleReceive 5
                (Some "forged") (Some "mallory") liveWorld) as (_ & Hforged).
  destruct (Hsig "sig" eq_refl ltac:(discriminate)) as (_ & Hbody).
  destruct (Hbody "mallory" eq_refl ltac:(discriminate)) as (_ & _ & Hev).
  destruct (Hev (participantJoined "c1" "mallory") eq_refl eq_refl) as (Hin & _).
  destruct (Hforged "forged" eq_refl ltac:(discriminate)) as (_ & Hbody').
  destruct (Hbody' "mallory" eq_refl ltac:(discriminate)) as (_ & Hbad & _).
  split.
  - apply Hin. left.
  - apply Hbad; reflexivity.
Defined.

(* --------------------------------------------------------------------- *)
(* Circle details                                                        *)
(* --------------------------------------------------------------------- *)

(** X26: getCircleDetails of an existing circle returns without writing.
    The members it lists are exactly the member documents of that circle
    whose status is active or absent (a left or disconnected member is not
    listed, and no member of another circle is); the hand raises it lists are
    exactly the hand-raise documents of that circle.  For a missing circle it
    throws "Circle not found". *)
Theorem getCircleDetails_lists_active_members w id :
  (forall c, circles w !! id = Some c ->
     exists d,
       getCircleDetails id w = (Return d, w) /\
       cd_circle d = c /\
       (forall id' uid m,
          cd_members d !! (id', uid) = Some m <->
          id' = id /\ members w !! (id, uid) = Some m /\
          (CircleMember.status m = Some Active \/ CircleMember.status m = None)) /\
       (forall id' uid h,
          cd_handRaises d !! (id', uid) = Some h <->
          id' = id /\ handRaises w !! (id, uid) = Some h)) /\
  (circles w !! id = None ->
     getCircleDetails id w = (Throw (Error "Circle not found"), w)).
Proof.
  split.
  - intros c Hc. eexists. split; [|split; [|split]].
    + unfold getCircleDetails. unfold_async. rewrite Hc. reflexivity.
    + reflexivity.
    + intros id' uid m. cbn [cd_members]. unfold collection.
      rewrite !map_lookup_filter_Some. cbn [fst snd].
      unfold listedAsActive. rewrite orb_true_iff, !bool_decide_eq_true.
      split.
      * intros [[Hm <-] Hs]. done.
      * intros (-> & Hm & Hs). done.
    + intros id' uid h. cbn [cd_handRaises]. unfold collection.
      rewrite map_lookup_filter_Some. cbn [fst snd]. split.
      * intros [Hh <-]. done.
      * intros (-> & Hh). done.
  - intros Hn. unfold getCircleDetails. unfold_async. by rewrite Hn.
Qed.

Lemma getCircleDetails_lists_active_members_witness :
  exists d, getCircleDetails "c1" legacyWorld = (Return d, legacyWorld) /\
    cd_members d !! ("c1", "bob") = Some (member0 Listener None).
Proof.
  pose proof (getCircleDetails_lists_active_members legacyWorld "c1")
    as (Hok & _).
  destruct (Hok (circle0 "c1" "alice" Live 0) eq_refl)
    as (d & Hd & _ & Hmem & _).
  exists d. split; [exact Hd|].
  apply Hmem. split; [reflexivity|]. split; [reflexivity|by right].
Defined.


(* --------------------------------------------------------------------- *)
(* No member document outlives its circle                                *)
(* --------------------------------------------------------------------- *)

Lemma sameRoles_noOrphans w w' : sameRoles w w' -> noOrphans w -> noOrphans w'.
Proof.
  intros [Hc Hm] Horph id uid [m' Hm'].
  destruct (fmap_Some_inv _ _ _ _ (Hm (id, uid)) Hm') as (m0 & Hm0 & _).
  destruct (Horph id uid (mk_is_Some _ _ Hm0)) as [c Hcw].
  pose proof (Hc id) as Hk. rewrite Hcw in Hk.
  destruct (circles w' !! id); [eauto|done].
Qed.

Ltac by_frames_noOrphans H :=
  match goal with
  | |- noOrphans (?c ?w).2 =>
      let Hf := fresh "Hf" in
      assert (Hf : frames c) by solve_frames;
      apply (sameRoles_noOrphans w _ (Hf w)); try exact H
  end.

Lemma noOrphans_member_insert w id uid m :
  noOrphans w -> is_Some (circles w !! id) ->
  noOrphans (set_members (<[(id, uid) := m]> (members w)) w).
Proof.
  intros Horph Hc id0 uid0. world_simpl.
  destruct (decide ((id, uid) = (id0, uid0))) as [Heq|Hne].
  - by injection Heq as <- <-.
  - rewrite lookup_insert_ne by done. apply Horph.
Qed.

Lemma noOrphans_joinCircle now id uid dto w :
  noOrphans w -> noOrphans (joinCircle now id uid dto w).2.
Proof.
  intros Horph. unfold joinCircle.
  destruct (falsy uid); [exact Horph|].
  unfold circleGet. rewrite bind_gets. cbv beta.
  destruct (circles w !! id) as [c|] eqn:Hc; [|exact Horph].
  destruct (negb (includes [Scheduled; Live] (Circle.status c))); [exact Horph|].
  unfold memberGet. rewrite bind_gets. cbv beta.
  destruct (bool_decide (Circle.hostUid c = uid)
            && bool_decide (Circle.status c = Scheduled));
    destruct (members w !! (id, uid)) as [existing|];
    try (by_frames_noOrphans Horph);
    unfold memberSet; rewrite bind_modify; by_frames_noOrphans Horph;
    apply noOrphans_member_insert; by rewrite ?Hc.
Qed.

Lemma noOrphans_createCircle now circleId dto userId w :
  noOrphans w -> noOrphans (createCircle now circleId dto userId w).2.
Proof.
  intros Horph. unfold createCircle.
  destruct (falsy userId); [exact Horph|].
  rewrite !bind_gets. cbv beta.
  destruct (bool_decide _); [exact Horph|].
  unfold circleSet, memberSet. rewrite bind_modify, bind_modify.
  by_frames_noOrphans Horph.
  intros id0 uid0. world_simpl.
  destruct (decide (circleId = id0)) as [<-|Hne].
  - rewrite lookup_insert_eq. eauto.
  - rewrite !lookup_insert_ne by congruence. apply Horph.
Qed.

Lemma noOrphans_deleteCircle id userId w :
  noOrphans w -> noOrphans (deleteCircle id userId w).2.
Proof.
  intros Horph. unfold deleteCircle.
  destruct (falsy userId); [exact Horph|].
  unfold circleGet. rewrite bind_gets. cbv beta.
  destruct (circles w !! id) as [c|] eqn:Hc; [|exact Horph].
  destruct (negb (bool_decide (Circle.hostUid c = userId))); [exact Horph|].
  destruct (negb (bool_decide (Circle.status c = Scheduled))); [exact Horph|].
  unfold_async. intros id0 uid0. world_simpl.
  rewrite batchDelete_collection_lookup.
  destruct (decide (id0 = id)) as [->|Hne].
  - by intros [? ?].
  - rewrite lookup_delete_ne by done. apply Horph.
Qed.

Lemma noOrphans_promoteMember now circleId requesterId dto w :
  noOrphans w -> noOrphans (promoteMember now circleId requesterId dto w).2.
Proof.
  intros Horph. unfold promoteMember, circleGet, memberGet.
  rewrite !bind_gets. cbv beta.
  destruct (circles w !! circleId) as [c|] eqn:Hc; [|exact Horph].
  destruct (members w !! (circleId, targetUserId dto)) as [m|] eqn:Hm;
    [|exact Horph].
  destruct (negb (bool_decide (Circle.hostUid c = requesterId))); [exact Horph|].
  rewrite (bind_memberUpdate_Some _ _ _ _ _ m Hm).
  by_frames_noOrphans Horph.
  apply noOrphans_member_insert; by rewrite ?Hc.
Qed.

Lemma noOrphans_fireTimers now w : noOrphans w -> noOrphans (fireTimers now w).
Proof.
  intros Horph. unfold fireTimers.
  set (due := filter _ (timers w)). set (pending := filter _ (timers w)).
  assert (Hstart : noOrphans (set_timers pending w)) by exact Horph.
  clearbody due pending. revert Hstart. generalize (set_timers pending w).
  induction due as [|t due IH]; intros w0 Hw0; cbn [runCallbacks]; [done|].
  apply IH. apply (sameRoles_noOrphans w0); [|done].
  apply frames_hostDisconnectionTimeout.
Qed.

Lemma noOrphans_exec now c w : noOrphans w -> noOrphans (exec now c w).2.
Proof.
  intros Horph. destruct c; cbn [exec snd].
  - by apply noOrphans_createCircle.
  - apply (sameRoles_noOrphans w); [apply frames_updateCircleStatus|done].
  - apply (sameRoles_noOrphans w); [apply frames_endCircle|done].
  - by apply noOrphans_deleteCircle.
  - by apply noOrphans_joinCircle.
  - by apply noOrphans_promoteMember.
  - apply (sameRoles_noOrphans w); [apply frames_leaveCircle|done].
  - apply (sameRoles_noOrphans w); [apply frames_handleEvent|done].
  - by apply noOrphans_fireTimers.
Qed.

(** X27: no member document outlives or precedes its circle.  Starting from
    the empty store, after every sequence of service commands (create,
    status update, end, delete, join, promote, leave, webhook events, timer
    ticks), with any arguments and at any instants, every member document
    lies under an existing circle document: deleteCircle removes all of
    them, and nothing else creates one for a circle that does not exist. *)
Theorem members_only_under_circles e tr id uid :
  is_Some (members (run tr (emptyWorld e)) !! (id, uid)) ->
  is_Some (circles (run tr (emptyWorld e)) !! id).
Proof.
  revert id uid. change (noOrphans (run tr (emptyWorld e))).
  assert (Hgen : forall w, noOrphans w -> noOrphans (run tr w)).
  { induction tr as [|[now c] tr IH]; intros w Hw; [done|].
    cbn [run]. apply IH. by apply noOrphans_exec. }
  apply Hgen. apply wellFormed_empty.
Qed.

Lemma members_only_under_circles_witness :
  is_Some (circles (run aliceAndBob (emptyWorld env0)) !! "c1").
Proof.
  apply (members_only_under_circles env0 aliceAndBob "c1" "bob").
  vm_compute. eauto.
Defined.
